(** * Tile map example (src/tilemap/src/main.c)

    A shallow embedding of the Agon tile-map example.  The program runs on
    the eZ80 and talks to two collaborators: the C library / MOS (files and
    the keyboard) and the display coprocessor (VDP), which only receives a
    one-way stream of commands.  The embedding keeps that split:

    - every call that leaves the program is appended to a log of events;
    - the C library and the keyboard are an interface ([Platform]) with one
      concrete instance ([Mos]);
    - loops are run with fuel, so that a loop that never ends is visible as
      [Timeout] for every amount of fuel;
    - the coprocessor is an interpreter of the logged commands ([Vdp]). *)

From stdpp Require Import gmap strings list.
From Stdlib Require Import ZArith Lia Strings.Byte.

Local Open Scope Z_scope.

(** ** Machine integers *)

(** [uint8_t] and [uint16_t] values are integers in range; arithmetic that
    is stored back into such a variable wraps. *)
Definition uint8_wrap (z : Z) : Z := z mod 256.
Definition uint16_wrap (z : Z) : Z := z mod 65536.

Definition is_uint8 (z : Z) : Prop := 0 ≤ z < 256.
Definition is_uint16 (z : Z) : Prop := 0 ≤ z < 65536.

Abbreviation byte := Init.Byte.byte.

#[global] Instance byte_eq_dec : EqDecision byte := Byte.byte_eq_dec.

(** ** Events *)

(** The calls into [agon/vdp.h] that send bytes to the coprocessor. None of
    them returns a value. *)
Inductive vdu : Type :=
| VdpMode (mode : Z)
| VdpCursorEnable (flag : bool)
| VdpSetTextBgColour (colour : Z)
| VdpClearScreen
| VdpSetPixelCoordinates
| VdpCursorTab (a b : Z)
| Printf (text : string)
| AdvClearBuffer (bufferID : Z)
| AdvWriteBlockData (bufferID length : Z) (data : list byte)
| AdvSplitByWidthMultipleFrom (bufferID width blockCount target : Z)
| AdvSelectBitmap (bufferID : Z)
| AdvBitmapFromBuffer (width height format : Z)
| PlotBitmap (x y : Z).

(** Everything the program does to the outside, in program order. *)
Inductive event : Type :=
| Vdu (c : vdu)
| Fopen (fileName mode : string) (stream : Z)
| Fread (size count stream : Z) (data : list byte)
| Fclose (stream : Z)
| GetKeyCode (key : Z).

Definition vdu_of (e : event) : option vdu :=
  match e with Vdu c => Some c | _ => None end.

(** The coprocessor commands of a log, in order. *)
Definition vdus (log : list event) : list vdu := omap vdu_of log.

(** The null pointer as a stream: what [fopen] returns when it fails. *)
Definition NULL : Z := 0.

(** A library call that C leaves undefined: [fread] or [fclose] on the
    null stream. *)
Definition null_call (e : event) : bool :=
  match e with
  | Fread _ _ stream _ | Fclose stream => bool_decide (stream = NULL)
  | _ => false
  end.

(** An event that is no new [fopen], and that, if it is a [fread] or an
    [fclose], is one on [stream]. *)
Definition on_stream (stream : Z) (e : event) : Prop :=
  match e with
  | Fopen _ _ _ => False
  | Fread _ _ stream' _ | Fclose stream' => stream' = stream
  | _ => True
  end.



(** ** The platform: C library and keyboard *)

(** [fopen], [fread], [fclose] and [vdp_getKeyCode] are not part of the
    program; they are total functions on a platform state [E]. A stream is
    the [FILE *] as an integer, [0] for [NULL]. [fread] yields the bytes it
    stores at the destination; the only law is the one of the C library:
    it stores at most [size * count] bytes. On the null stream C leaves
    [fread] and [fclose] undefined: a platform answers there too, but the
    answer means nothing, and the log shows the call ([null_call]). *)
Class Platform (E : Type) : Type := {
  fopen : string → string → E → Z * E;
  fread : Z → Z → Z → E → list byte * E;
  fclose : Z → E → E;
  vdp_getKeyCode : E → Z * E;
  fread_bound : ∀ size count stream e,
    Z.of_nat (length (fread size count stream e).1) ≤ Z.max 0 (size * count)
}.

(** ** Program state and the execution monad *)

Record world (E : Type) : Type := World {
  env : E;                    (* files and keyboard *)
  readChunk : list byte;      (* char readChunk[2048] *)
  out : list event            (* log of external calls *)
}.
Arguments World {E} _ _ _.
Arguments env {E} _.
Arguments readChunk {E} _.
Arguments out {E} _.

(** [Done]: the code returned; [Timeout]: a loop ran out of fuel;
    [Fault]: an access outside an array. Each carries the state reached. *)
Inductive outcome (E A : Type) : Type :=
| Done (a : A) (w : world E)
| Timeout (w : world E)
| Fault (w : world E).
Arguments Done {E A} _ _.
Arguments Timeout {E A} _.
Arguments Fault {E A} _.

Definition final {E A} (o : outcome E A) : world E :=
  match o with Done _ w | Timeout w | Fault w => w end.

Definition M (E A : Type) : Type := world E → outcome E A.

Definition ret {E A} (a : A) : M E A := λ w, Done a w.

Definition bind {E A B} (m : M E A) (k : A → M E B) : M E B :=
  λ w, match m w with
       | Done a w' => k a w'
       | Timeout w' => Timeout w'
       | Fault w' => Fault w'
       end.

Declare Scope prog_scope.
Delimit Scope prog_scope with prog.
Notation "x <- m ;; k" := (bind m (λ x, k))
  (at level 100, m at next level, right associativity) : prog_scope.
Notation "m ;; k" := (bind m (λ _, k))
  (at level 100, right associativity) : prog_scope.

(** Appending events to the log. *)
Definition grow {E} (w : world E) (l : list event) : world E :=
  World (env w) (readChunk w) (out w ++ l).

Definition push {E} (e : event) (w : world E) : world E := grow w [e].

Definition emit {E} (c : vdu) : M E () := λ w, Done () (push (Vdu c) w).

(** [for (uint8_t i = i0; i < bound; i++) a = body(i, a);]
    The counter is compared as an [int] and wraps as a [uint8_t]. *)
Fixpoint for_uint8 {E A} (fuel : nat) (i bound : Z)
    (body : Z → A → M E A) (a : A) : M E A :=
  λ w, match fuel with
       | O => Timeout w
       | S fuel' =>
           if i <? bound then
             match body i a w with
             | Done a' w' => for_uint8 fuel' (uint8_wrap (i + 1)) bound body a' w'
             | Timeout w' => Timeout w'
             | Fault w' => Fault w'
             end
           else Done a w
       end.

(** [while (true) { if (body()) break; }] *)
Fixpoint while_true {E} (fuel : nat) (body : M E bool) : M E () :=
  λ w, match fuel with
       | O => Timeout w
       | S fuel' =>
           match body w with
           | Done true w' => Done () w'
           | Done false w' => while_true fuel' body w'
           | Timeout w' => Timeout w'
           | Fault w' => Fault w'
           end
       end.

(** Copying [data] to the start of an array; [None] when it does not fit. *)
Definition store_bytes (data arr : list byte) : option (list byte) :=
  if decide (length data ≤ length arr)%nat
  then Some (data ++ drop (length data) arr)
  else None.

(** Reading the first [n] bytes of an array; [None] when it is shorter. *)
Definition load_bytes (n : Z) (arr : list byte) : option (list byte) :=
  if decide (n ≤ Z.of_nat (length arr))
  then Some (take (Z.to_nat n) arr)
  else None.

(** ** Constants of main.c *)

Definition screen_mode : Z := 8.
Definition RGBA2222_format : Z := 1.

Definition chunkSize : Z := 2048.
Definition chunkStoreID : Z := 5000.
Definition tileStartID : Z := 0.

Definition cellWidth : Z := 16.
Definition cellHeight : Z := 16.
Definition cellRows : Z := 5.
Definition cellColumns : Z := 8.

Definition fname : string := "basictiles_merged.RGB2".
Definition readChunk_size : nat := 2048.


Section Program.
Context {E : Type} `{Platform E}.

Local Open Scope prog_scope.

  (** *** Library calls *)

Definition vdp_mode (mode : Z) : M E () := emit (VdpMode mode).
Definition vdp_cursor_enable (flag : bool) : M E () := emit (VdpCursorEnable flag).
Definition vdp_set_text_bg_colour (colour : Z) : M E () := emit (VdpSetTextBgColour colour).
Definition vdp_clear_screen : M E () := emit VdpClearScreen.
Definition vdp_set_pixel_coordinates : M E () := emit VdpSetPixelCoordinates.
Definition vdp_cursor_tab (a b : Z) : M E () := emit (VdpCursorTab a b).
Definition printf (text : string) : M E () := emit (Printf text).
Definition vdp_adv_clear_buffer (bufferID : Z) : M E () := emit (AdvClearBuffer bufferID).
Definition vdp_adv_split_by_width_multiple_from (bufferID width blockCount target : Z) : M E () :=
    emit (AdvSplitByWidthMultipleFrom bufferID width blockCount target).
Definition vdp_adv_select_bitmap (bufferID : Z) : M E () := emit (AdvSelectBitmap bufferID).
Definition vdp_adv_bitmap_from_buffer (width height format : Z) : M E () :=
    emit (AdvBitmapFromBuffer width height format).
Definition vdp_plot_bitmap (x y : Z) : M E () := emit (PlotBitmap x y).

  (** [vdp_adv_write_block_data(id, length, readChunk)] sends [length] bytes
      read from the array. *)
Definition vdp_adv_write_block_data (bufferID length : Z) : M E () :=
    λ w, match load_bytes length (readChunk w) with
         | Some data => emit (AdvWriteBlockData bufferID length data) w
         | None => Fault w
         end.

Definition call_fopen (fileName mode : string) : M E Z :=
    λ w, let '(stream, e) := fopen fileName mode (env w) in
         Done stream (push (Fopen fileName mode stream) (World e (readChunk w) (out w))).

  (** [fread(readChunk, size, count, stream)]: the bytes go to the start of
      [readChunk]; the result is the number of whole items. *)
Definition call_fread (size count stream : Z) : M E Z :=
    λ w, let '(data, e) := fread size count stream (env w) in
         match store_bytes data (readChunk w) with
         | Some arr =>
             Done (Z.of_nat (length data) `div` size)
                  (push (Fread size count stream data) (World e arr (out w)))
         | None => Fault w
         end.

Definition call_fclose (stream : Z) : M E () :=
    λ w, Done () (push (Fclose stream) (World (fclose stream (env w)) (readChunk w) (out w))).

Definition call_getKeyCode : M E Z :=
    λ w, let '(key, e) := vdp_getKeyCode (env w) in
         Done key (push (GetKeyCode key) (World e (readChunk w) (out w))).

  (** *** load_tiles_from_file *)

  (** The inner loop over the new buffers; the running [startBitmapID] is
      the loop's accumulator. *)
Definition make_bitmaps (fuel : nat) (cellWidth cellHeight blockCount : Z)
      (startBitmapID : Z) : M E Z :=
    for_uint8 fuel 0 blockCount (λ rowLoop startBitmapID,
      vdp_adv_select_bitmap startBitmapID ;;
      vdp_adv_bitmap_from_buffer cellWidth cellHeight RGBA2222_format ;;
      ret (uint16_wrap (startBitmapID + 1))) startBitmapID.

Definition load_row (fuel : nat) (tileMapFile : Z)
      (cellWidth cellHeight blockCount : Z) (startBitmapID : Z) : M E Z :=
    vdp_adv_clear_buffer chunkStoreID ;;
    _ <- call_fread 1 chunkSize tileMapFile ;;
    vdp_adv_write_block_data chunkStoreID chunkSize ;;
    vdp_adv_split_by_width_multiple_from chunkStoreID cellWidth blockCount startBitmapID ;;
    make_bitmaps fuel cellWidth cellHeight blockCount startBitmapID.

Definition load_tiles_from_file (fuel : nat) (fileName : string)
      (startBitmapID cellWidth cellHeight rowCount blockCount : Z) : M E () :=
    tileMapFile <- call_fopen fileName "r" ;;
    _ <- for_uint8 fuel 0 rowCount (λ chunkLoop startBitmapID,
           load_row fuel tileMapFile cellWidth cellHeight blockCount startBitmapID)
         startBitmapID ;;
    call_fclose tileMapFile.

  (** *** display_tiles *)

Definition display_row (fuel : nat) (columns rLoop : Z) (startBufferID : Z) : M E Z :=
    for_uint8 fuel 0 columns (λ cLoop startBufferID,
      vdp_adv_select_bitmap startBufferID ;;
      vdp_plot_bitmap (10 + cLoop * 20) (10 + rLoop * 20) ;;
      ret (uint16_wrap (startBufferID + 1))) startBufferID.

Definition display_tiles (fuel : nat) (rows columns startBufferID : Z) : M E () :=
    _ <- for_uint8 fuel 0 rows (λ rLoop startBufferID,
           display_row fuel columns rLoop startBufferID) startBufferID ;;
    ret ().

  (** *** main *)

  (** [BLUE] comes from [agon/vdp.h]. *)
Variable BLUE : Z.

Definition wait_for_esc (fuel : nat) : M E () :=
    while_true fuel (key <- call_getKeyCode ;; ret (bool_decide (key = 27))).

Definition main (fuel : nat) : M E Z :=
    vdp_mode screen_mode ;;
    vdp_cursor_enable false ;;
    vdp_set_text_bg_colour BLUE ;;
    vdp_clear_screen ;;
    vdp_set_pixel_coordinates ;;
    vdp_cursor_tab 0 27 ;;
    printf "AgonDev Tile Map example" ;;
    vdp_cursor_tab 0 29 ;;
    printf "Press ESC to exit" ;;
    load_tiles_from_file fuel fname tileStartID cellWidth cellHeight cellRows cellColumns ;;
    display_tiles fuel 5 8 tileStartID ;;
    wait_for_esc fuel ;;
    vdp_set_text_bg_colour 0 ;;
    vdp_clear_screen ;;
    vdp_cursor_enable true ;;
    ret 0.

End Program.

(** ** A concrete platform *)

(** Files are byte strings by name; an open stream holds the bytes not yet
    read; the keyboard is the sequence of codes that successive polls see.
    [fopen] of a missing file gives [NULL]. C leaves [fread] and [fclose]
    on a stream that is not open undefined; here they transfer nothing. *)
Module Mos.

Record state : Type := State {
    disk : gmap string (list byte);
    streams : gmap Z (list byte);
    next_stream : Z;
    keys : nat → Z;
    polls : nat
  }.

Definition fopen (fileName mode : string) (e : state) : Z * state :=
    match disk e !! fileName with
    | Some bytes =>
        (next_stream e,
         State (disk e) (<[next_stream e := bytes]> (streams e))
               (next_stream e + 1) (keys e) (polls e))
    | None => (0, e)
    end.

Definition fread (size count stream : Z) (e : state) : list byte * state :=
    match streams e !! stream with
    | Some rest =>
        let n := Z.to_nat (size * count) in
        (take n rest,
         State (disk e) (<[stream := drop n rest]> (streams e))
               (next_stream e) (keys e) (polls e))
    | None => ([], e)
    end.

Definition fclose (stream : Z) (e : state) : state :=
    State (disk e) (delete stream (streams e)) (next_stream e) (keys e) (polls e).

Definition vdp_getKeyCode (e : state) : Z * state :=
    (keys e (polls e),
     State (disk e) (streams e) (next_stream e) (keys e) (S (polls e))).

Lemma fread_bound size count stream e :
    Z.of_nat (length (fread size count stream e).1) ≤ Z.max 0 (size * count).
Proof.
    unfold fread. destruct (streams e !! stream) as [rest|]; simpl; [|lia].
    rewrite length_take. lia.
Qed.

#[global] Instance platform : Platform state :=
  Build_Platform state fopen fread fclose vdp_getKeyCode fread_bound.

(** Power-on: the given files, nothing open, no key polled yet. *)
Definition boot (files : gmap string (list byte)) (kbd : nat → Z) : state :=
    State files ∅ 1 kbd 0.

End Mos.

(** The program's state when [main] is entered: [readChunk] is a zeroed
    global, nothing has been logged. *)
Definition start_world {E} (e : E) : world E :=
  World e (replicate readChunk_size Byte.x00) [].

Definition world_ok {E} (w : world E) : Prop :=
  length (readChunk w) = readChunk_size.

(** ** The display coprocessor *)

(** Modelled from the spec: the coprocessor's buffer and bitmap store, which
    sits behind [agon/vdp.h] and is not part of the sources. It follows the
    spec's data model: a buffer is a byte region addressed by an integer ID;
    clearing discards it; a written block is added to it; splitting by
    width cuts the buffer into pieces of [width] bytes and deals them in
    turn to [blockCount] sub-buffers with consecutive IDs, so that each
    sub-buffer is one [width]-wide column of the strip; converting the
    selected buffer makes it a drawable bitmap of the given dimensions,
    one byte per pixel in the RGBA2222 format. *)
Module Vdp.

Record bitmap : Type := Bitmap { bm_width : Z; bm_height : Z; bm_format : Z }.

Record state : Type := State {
    buffers : gmap Z (list byte);
    bitmaps : gmap Z bitmap;
    selected : Z
  }.

  (** The [i]-th run of [width] bytes. *)
Definition piece (width : nat) (bytes : list byte) (i : nat) : list byte :=
    take width (drop (i * width) bytes).

Definition pieces_count (width : nat) (bytes : list byte) : nat :=
    (length bytes + width - 1) `div` width.

  (** Sub-buffer [j] of [count]: pieces [j], [j + count], [j + 2 count], ... *)
Definition group (width count : nat) (bytes : list byte) (j : nat) : list byte :=
    concat ((λ k, piece width bytes (k * count + j)%nat) <$>
            seq 0 ((pieces_count width bytes + count - 1 - j) `div` count)).

Definition split_into (width count : nat) (target : Z) (bytes : list byte)
      (bufs : gmap Z (list byte)) : gmap Z (list byte) :=
    foldl (λ bs j, <[target + Z.of_nat j := group width count bytes j]> bs)
          bufs (seq 0 count).

Definition step (v : state) (c : vdu) : state :=
    match c with
    | AdvClearBuffer id =>
        State (delete id (buffers v)) (delete id (bitmaps v)) (selected v)
    | AdvWriteBlockData id _ data =>
        State (<[id := default [] (buffers v !! id) ++ data]> (buffers v))
              (bitmaps v) (selected v)
    | AdvSplitByWidthMultipleFrom id width count target =>
        match buffers v !! id with
        | Some bytes =>
            State (split_into (Z.to_nat width) (Z.to_nat count) target bytes (buffers v))
                  (bitmaps v) (selected v)
        | None => v
        end
    | AdvSelectBitmap id => State (buffers v) (bitmaps v) id
    | AdvBitmapFromBuffer width height format =>
        match buffers v !! selected v with
        | Some bytes =>
            if decide (format = RGBA2222_format ∧
                       0 < width ∧ 0 < height ∧
                       width * height ≤ Z.of_nat (length bytes))
            then State (buffers v)
                       (<[selected v := Bitmap width height format]> (bitmaps v))
                       (selected v)
            else v
        | None => v
        end
    | _ => v
    end.

Definition run (v : state) (cs : list vdu) : state := foldl step v cs.

  (** The pixel data of bitmap [id]: the bytes of its buffer that the
      bitmap's dimensions cover. *)
Definition pixels (v : state) (id : Z) : option (list byte) :=
    match bitmaps v !! id, buffers v !! id with
    | Some bm, Some bytes => Some (take (Z.to_nat (bm_width bm * bm_height bm)) bytes)
    | _, _ => None
    end.

Definition empty : state := State ∅ ∅ 0.

End Vdp.

(** ** What a log says *)

(** The bitmap selected when each conversion is sent, with its arguments. *)
Fixpoint conversions_from (sel : Z) (cs : list vdu) : list (Z * Z * Z * Z) :=
  match cs with
  | [] => []
  | AdvSelectBitmap id :: cs => conversions_from id cs
  | AdvBitmapFromBuffer w h f :: cs => (sel, w, h, f) :: conversions_from sel cs
  | _ :: cs => conversions_from sel cs
  end.

(** The bitmap selected when each plot is sent, with the position. *)
Fixpoint plots_from (sel : Z) (cs : list vdu) : list (Z * Z * Z) :=
  match cs with
  | [] => []
  | AdvSelectBitmap id :: cs => plots_from id cs
  | PlotBitmap x y :: cs => (sel, x, y) :: plots_from sel cs
  | _ :: cs => plots_from sel cs
  end.

(** A command without the bytes it carries. *)
Definition vdu_shape (c : vdu) : vdu :=
  match c with
  | AdvWriteBlockData id len _ => AdvWriteBlockData id len []
  | c => c
  end.

(** The pixel data of cell ([r], [c]) of an image stored row by row, one
    byte per pixel, [columns] cells wide. *)
Definition source_cell (image : list byte) (cellWidth cellHeight columns : nat)
    (r c : nat) : list byte :=
  concat ((λ y, take cellWidth
                  (drop ((r * cellHeight + y) * (columns * cellWidth) + c * cellWidth)%nat
                        image)) <$> seq 0 cellHeight).

(** ** The logs the two procedures are expected to write *)

(** Select and convert [n] buffers, IDs counting up from [start]. *)
Definition bitmap_events (cellWidth cellHeight start n : Z) : list event :=
  seqZ 0 n ≫= λ c,
    [Vdu (AdvSelectBitmap (uint16_wrap (start + c)));
     Vdu (AdvBitmapFromBuffer cellWidth cellHeight RGBA2222_format)].

(** One row of the loader: [data] is what [fread] stored, [buf] the
    contents of [readChunk] that were sent. *)
Definition row_events (stream cellWidth cellHeight blockCount id : Z)
    (data buf : list byte) : list event :=
  [Vdu (AdvClearBuffer chunkStoreID);
   Fread 1 chunkSize stream data;
   Vdu (AdvWriteBlockData chunkStoreID chunkSize buf);
   Vdu (AdvSplitByWidthMultipleFrom chunkStoreID cellWidth blockCount id)]
  ++ bitmap_events cellWidth cellHeight id blockCount.

Definition rows_events (stream startBitmapID cellWidth cellHeight blockCount : Z)
    (rows : list (list byte * list byte)) : list event :=
  concat (imap (λ r row,
            row_events stream cellWidth cellHeight blockCount
              (uint16_wrap (startBitmapID + Z.of_nat r * blockCount))
              row.1 row.2) rows).

Definition loader_events (fileName : string)
    (stream startBitmapID cellWidth cellHeight blockCount : Z)
    (rows : list (list byte * list byte)) : list event :=
  Fopen fileName "r" stream
  :: rows_events stream startBitmapID cellWidth cellHeight blockCount rows
  ++ [Fclose stream].

(** The renderer: row by row, column by column. *)
Definition display_row_events (columns startBufferID r : Z) : list event :=
  seqZ 0 columns ≫= λ c,
    [Vdu (AdvSelectBitmap (uint16_wrap (startBufferID + r * columns + c)));
     Vdu (PlotBitmap (10 + 20 * c) (10 + 20 * r))].

Definition display_events (rows columns startBufferID : Z) : list event :=
  seqZ 0 rows ≫= display_row_events columns startBufferID.

(** The cells of a grid in row-major order, as (id, x, y). *)
Definition grid (rows columns startBufferID : Z) : list (Z * Z * Z) :=
  seqZ 0 rows ≫= λ r, seqZ 0 columns ≫= λ c,
    [(uint16_wrap (startBufferID + r * columns + c), 10 + 20 * c, 10 + 20 * r)].

(** Commands of a rendered cell. *)
Definition cell_vdus (cell : Z * Z * Z) : list vdu :=
  [AdvSelectBitmap cell.1.1; PlotBitmap cell.1.2 cell.2].

Definition setup_events (BLUE : Z) : list event :=
  [Vdu (VdpMode screen_mode);
   Vdu (VdpCursorEnable false);
   Vdu (VdpSetTextBgColour BLUE);
   Vdu VdpClearScreen;
   Vdu VdpSetPixelCoordinates;
   Vdu (VdpCursorTab 0 27);
   Vdu (Printf "AgonDev Tile Map example");
   Vdu (VdpCursorTab 0 29);
   Vdu (Printf "Press ESC to exit")].

Definition teardown_events : list event :=
  [Vdu (VdpSetTextBgColour 0); Vdu VdpClearScreen; Vdu (VdpCursorEnable true)].

(** ** Reasoning about runs *)

(** [good I o]: the run did not fault and the state it reached, finished or
    not, satisfies [I]. *)
Definition good {E A} (I : world E → Prop) (o : outcome E A) : Prop :=
  match o with
  | Done _ w | Timeout w => I w
  | Fault _ => False
  end.

Definition safe {E A} (I : world E → Prop) (m : M E A) : Prop :=
  ∀ w, I w → good I (m w).

(** The log grew from [log0] by events that all satisfy [P]. *)
Definition logged {E} (log0 : list event) (P : event → Prop) (w : world E) : Prop :=
  world_ok w ∧ ∃ l, out w = log0 ++ l ∧ Forall P l.

Definition is_done {E A} (o : outcome E A) : Prop :=
  match o with Done _ _ => True | _ => False end.

(** The code returned, and none of the library calls it made from [w] on
    was one that C leaves undefined. *)
Definition returns_normally {E A} (w : world E) (o : outcome E A) : Prop :=
  is_done o ∧ ∃ l, out (final o) = out w ++ l ∧ Forall (λ e, null_call e = false) l.

(** ** The loader's state, row by row *)

Section RowState.
Context {E : Type} `{Platform E}.

(** What [fread] stores for the next row, and [readChunk] afterwards: the
    bytes read replace the start of the array, the rest stays. *)
Definition row_data (stream : Z) (w : world E) : list byte :=
  (fread 1 chunkSize stream (env w)).1.

Definition row_buf (stream : Z) (w : world E) : list byte :=
  row_data stream w ++ drop (length (row_data stream w)) (readChunk w).

Definition after_row (stream cellWidth cellHeight blockCount id : Z)
    (w : world E) : world E :=
  grow (World (fread 1 chunkSize stream (env w)).2 (row_buf stream w) (out w))
       (row_events stream cellWidth cellHeight blockCount id
          (row_data stream w) (row_buf stream w)).

Fixpoint after_rows (r : nat) (stream startBitmapID cellWidth cellHeight blockCount : Z)
    (w : world E) : world E :=
  match r with
  | O => w
  | S r' =>
      after_row stream cellWidth cellHeight blockCount
        (uint16_wrap (startBitmapID + Z.of_nat r' * blockCount))
        (after_rows r' stream startBitmapID cellWidth cellHeight blockCount w)
  end.

(** What the first [r] rows read and sent. *)
Definition rows_read (r : nat) (stream startBitmapID cellWidth cellHeight blockCount : Z)
    (w : world E) : list (list byte * list byte) :=
  (λ k, let wk := after_rows k stream startBitmapID cellWidth cellHeight blockCount w in
        (row_data stream wk, row_buf stream wk)) <$> seq 0 r.

Definition after_open (fileName : string) (w : world E) : world E :=
  push (Fopen fileName "r" (fopen fileName "r" (env w)).1)
       (World (fopen fileName "r" (env w)).2 (readChunk w) (out w)).

Definition after_close (stream : Z) (w : world E) : world E :=
  push (Fclose stream) (World (fclose stream (env w)) (readChunk w) (out w)).

(** The state in which [load_tiles_from_file] returns. *)
Definition after_load (fileName : string)
    (startBitmapID cellWidth cellHeight rowCount blockCount : Z)
    (w : world E) : world E :=
  let stream := (fopen fileName "r" (env w)).1 in
  after_close stream
    (after_rows (Z.to_nat rowCount) stream startBitmapID cellWidth cellHeight
       blockCount (after_open fileName w)).

End RowState.

(** ** Kinds of events *)

Definition is_plot (c : vdu) : bool :=
  match c with PlotBitmap _ _ => true | _ => false end.

Definition is_conversion (c : vdu) : bool :=
  match c with AdvBitmapFromBuffer _ _ _ => true | _ => false end.

(** The events [load_tiles_from_file] can log. *)
Definition loader_event (fileName : string) (cellWidth cellHeight blockCount : Z)
    (e : event) : Prop :=
  match e with
  | Fopen name mode _ => name = fileName ∧ mode = "r"%string
  | Fread size count _ data =>
      size = 1 ∧ count = chunkSize ∧ (length data ≤ readChunk_size)%nat
  | Fclose _ => True
  | Vdu (AdvClearBuffer id) => id = chunkStoreID
  | Vdu (AdvWriteBlockData id len data) =>
      id = chunkStoreID ∧ len = chunkSize ∧ length data = readChunk_size
  | Vdu (AdvSplitByWidthMultipleFrom id width count _) =>
      id = chunkStoreID ∧ width = cellWidth ∧ count = blockCount
  | Vdu (AdvSelectBitmap _) => True
  | Vdu (AdvBitmapFromBuffer width height format) =>
      width = cellWidth ∧ height = cellHeight ∧ format = RGBA2222_format
  | _ => False
  end.

(** The events [display_tiles] can log. *)
Definition display_event (e : event) : Prop :=
  match e with
  | Vdu (AdvSelectBitmap _) | Vdu (PlotBitmap _ _) => True
  | _ => False
  end.

(** Neither a poll nor the end of the tidy-up. *)
Definition is_quiet (e : event) : bool :=
  match e with
  | GetKeyCode _ => false
  | Vdu (VdpCursorEnable true) => false
  | _ => true
  end.

(** Key codes seen by a run of polls. *)
Definition polls_events (keys : list Z) : list event := GetKeyCode <$> keys.

(** ** The log of a run of [main] *)

Definition main_loader_events (stream : Z) (rows : list (list byte * list byte)) : list event :=
  loader_events fname stream tileStartID cellWidth cellHeight cellColumns rows.

(** [main] has returned: set-up, loader, renderer, polls that did not see
    27, one that did, and the tidy-up. *)
Definition main_log_exited (BLUE : Z) (l : list event) : Prop :=
  ∃ stream rows keys,
    length rows = 5%nat ∧ (27 ∉ keys) ∧
    l = setup_events BLUE ++ main_loader_events stream rows
        ++ display_events 5 8 tileStartID
        ++ polls_events keys ++ [GetKeyCode 27] ++ teardown_events.

(** [main] is in its wait loop after [n] polls. *)
Definition main_log_waiting (BLUE : Z) (n : nat) (l : list event) : Prop :=
  ∃ stream rows keys,
    length rows = 5%nat ∧ (27 ∉ keys) ∧ length keys = n ∧
    l = setup_events BLUE ++ main_loader_events stream rows
        ++ display_events 5 8 tileStartID ++ polls_events keys.

(** [main] is still in the loader or the renderer. *)
Definition main_log_drawing (BLUE : Z) (l : list event) : Prop :=
  (∃ l1, l = setup_events BLUE ++ l1 ∧
         Forall (loader_event fname cellWidth cellHeight cellColumns) l1)
  ∨ (∃ stream rows l2,
       length rows = 5%nat ∧
       l = setup_events BLUE ++ main_loader_events stream rows ++ l2 ∧
       Forall display_event l2).

(** The part of [main] from the wait loop on. *)
Definition main_rest {E} `{Platform E} (fuel : nat) : M E Z :=
  (wait_for_esc fuel ;;
   vdp_set_text_bg_colour 0 ;;
   vdp_clear_screen ;;
   vdp_cursor_enable true ;;
   ret 0)%prog.

(** ** Buffer IDs a command names *)

(** IDs written as tiles: the targets of a split and the selected bitmap. *)
Definition tile_ids (c : vdu) : list Z :=
  match c with
  | AdvSplitByWidthMultipleFrom _ _ count target => seqZ target count
  | AdvSelectBitmap id => [id]
  | _ => []
  end.

(** IDs used as the chunk-holding buffer: cleared, written, or split from. *)
Definition chunk_ids (c : vdu) : list Z :=
  match c with
  | AdvClearBuffer id | AdvWriteBlockData id _ _
  | AdvSplitByWidthMultipleFrom id _ _ _ => [id]
  | _ => []
  end.

(** The loader's commands without the bytes they carry; a function of the
    arguments alone. *)
Definition loader_shape (startBitmapID cellWidth cellHeight rowCount blockCount : Z)
    : list vdu :=
  seqZ 0 rowCount ≫= λ r,
    [AdvClearBuffer chunkStoreID;
     AdvWriteBlockData chunkStoreID chunkSize [];
     AdvSplitByWidthMultipleFrom chunkStoreID cellWidth blockCount
       (uint16_wrap (startBitmapID + r * blockCount))]
    ++ (seqZ 0 blockCount ≫= λ c,
          [AdvSelectBitmap (uint16_wrap (startBitmapID + r * blockCount + c));
           AdvBitmapFromBuffer cellWidth cellHeight RGBA2222_format]).

(** ** Concrete runs *)

(** An image of [n] bytes whose 16-byte pieces are numbered. *)
Definition demo_image (n : nat) : list byte :=
  (λ i, default Byte.x00 (Byte.of_nat ((i `div` 16) `mod` 256))) <$> seq 0 n.

(** The keyboard shows 27 at the fourth poll. *)
Definition demo_keys (n : nat) : Z := if decide (n = 3)%nat then 27 else 0.

(** The tile map of the example is on disk: 128 x 80 bytes. *)
Definition demo_world : world Mos.state :=
  start_world (Mos.boot {[ fname := demo_image 10240 ]} demo_keys).

(** No file at all. *)
Definition bare_world : world Mos.state :=
  start_world (Mos.boot ∅ demo_keys).

(** A file that ends in the middle of the second row. *)
Definition short_world : world Mos.state :=
  start_world (Mos.boot {[ fname := demo_image 3000 ]} demo_keys).

(** ** Two runs side by side *)

(** Two states, possibly on different platforms, whose logs grew from
    [base1] and [base2] by the same coprocessor commands up to the bytes
    they carry. *)
Definition same_commands {E1 E2} (base1 base2 : list event)
    (w1 : world E1) (w2 : world E2) : Prop :=
  world_ok w1 ∧ world_ok w2 ∧
  ∃ l1 l2, out w1 = base1 ++ l1 ∧ out w2 = base2 ++ l2 ∧
           vdu_shape <$> vdus l1 = vdu_shape <$> vdus l2.

(** Two outcomes of the same kind, neither a fault; results related by
    [RA], states by [R]. *)
Definition alike {E1 E2 A1 A2} (RA : A1 → A2 → Prop)
    (R : world E1 → world E2 → Prop)
    (o1 : outcome E1 A1) (o2 : outcome E2 A2) : Prop :=
  match o1, o2 with
  | Done a1 w1, Done a2 w2 => RA a1 a2 ∧ R w1 w2
  | Timeout w1, Timeout w2 => R w1 w2
  | _, _ => False
  end.

Definition lockstep {E1 E2 A1 A2} (RA : A1 → A2 → Prop)
    (R : world E1 → world E2 → Prop)
    (m1 : M E1 A1) (m2 : M E2 A2) : Prop :=
  ∀ w1 w2, R w1 w2 → alike RA R (m1 w1) (m2 w2).

(** Results that steer nothing may differ. *)
Definition any {A1 A2} (_ : A1) (_ : A2) : Prop := True.

(** ** The image in chunks *)

(** The [k]-th chunk of the file: what the [k]-th [fread] of [chunkSize]
    bytes delivers. *)
Definition chunk (image : list byte) (k : nat) : list byte :=
  take (Z.to_nat chunkSize) (drop (k * Z.to_nat chunkSize) image).


(** ** Tiles *)

(** The bitmaps the loader converts, in order, as (id, width, height,
    format). *)
Definition tiles (startBitmapID cellWidth cellHeight rowCount blockCount : Z)
    : list (Z * Z * Z * Z) :=
  seqZ 0 rowCount ≫= λ r, seqZ 0 blockCount ≫= λ c,
    [(uint16_wrap (startBitmapID + r * blockCount + c),
      cellWidth, cellHeight, RGBA2222_format)].

(** Commands of a converted tile. *)
Definition tile_vdus (tile : Z * Z * Z * Z) : list vdu :=
  [AdvSelectBitmap tile.1.1.1; AdvBitmapFromBuffer tile.1.1.2 tile.1.2 tile.2].

(** ** Logs only grow *)

(** Whatever [m] does, finished or not, it only appends to the log. *)
Definition grows {E A} (m : M E A) : Prop :=
  ∀ w, ∃ l, out (final (m w)) = out w ++ l.

(** ** Commands that leave buffers and bitmaps alone *)

Definition is_passive (c : vdu) : bool :=
  match c with
  | AdvClearBuffer _ | AdvWriteBlockData _ _ _
  | AdvSplitByWidthMultipleFrom _ _ _ _ | AdvBitmapFromBuffer _ _ _ => false
  | _ => true
  end.

Section Rules.
Context {E : Type} `{Platform E}.
Implicit Types (w : world E) (I : world E → Prop).

Lemma safe_ret {A} I (a : A) : safe I (ret a).
Proof. intros w Hw; exact Hw. Qed.

Lemma safe_bind {A B} I (m : M E A) (k : A → M E B) :
    safe I m → (∀ a, safe I (k a)) → safe I (bind m k).
Proof.
    intros Hm Hk w Hw. unfold bind. specialize (Hm w Hw).
    destruct (m w) as [a w'| |]; simpl in *; auto. by apply Hk.
Qed.

Lemma safe_for {A} I fuel (body : Z → A → M E A) :
    (∀ i a, safe I (body i a)) →
    ∀ i bound a, safe I (for_uint8 fuel i bound body a).
Proof.
    intros Hbody. induction fuel as [|fuel IH]; intros i bound a w Hw; simpl; [done|].
    destruct (i <? bound); [|done].
    specialize (Hbody i a w Hw). destruct (body i a w) as [a' w'| |]; simpl in *; auto.
    by apply IH.
Qed.

  (** Running a loop whose body always returns: with more fuel than the
      bound, the loop returns the state of the last iteration. *)
Lemma for_uint8_total {A} (fa : Z → A) (fw : Z → world E) fuel bound
      (body : Z → A → M E A) :
    0 ≤ bound ≤ 255 →
    (Z.to_nat bound < fuel)%nat →
    (∀ i, 0 ≤ i < bound → body i (fa i) (fw i) = Done (fa (i + 1)) (fw (i + 1))) →
    for_uint8 fuel 0 bound body (fa 0) (fw 0) = Done (fa bound) (fw bound).
Proof.
    intros Hb Hfuel Hbody.
    assert (Hgen : ∀ n fuel i, Z.of_nat n = bound - i → 0 ≤ i → (n < fuel)%nat →
      for_uint8 fuel i bound body (fa i) (fw i) = Done (fa bound) (fw bound)).
    { induction n as [|n IH]; intros [|f] i Hn Hi Hf; try lia; simpl.
      - replace (i <? bound) with false by lia. by replace i with bound by lia.
      - replace (i <? bound) with true by lia.
        rewrite Hbody by lia.
        replace (uint8_wrap (i + 1)) with (i + 1)
          by (unfold uint8_wrap; rewrite Z.mod_small; lia).
        apply IH; lia. }
    apply (Hgen (Z.to_nat bound)); lia.
Qed.

  (** Whenever such a loop returns, with whatever fuel, it returns that
      state. *)
Lemma for_uint8_done {A} (fa : Z → A) (fw : Z → world E) fuel bound
      (body : Z → A → M E A) a' w' :
    0 ≤ bound ≤ 255 →
    (∀ i a w, 0 ≤ i < bound → body i (fa i) (fw i) = Done a w →
              a = fa (i + 1) ∧ w = fw (i + 1)) →
    for_uint8 fuel 0 bound body (fa 0) (fw 0) = Done a' w' →
    a' = fa bound ∧ w' = fw bound.
Proof.
    intros Hb Hbody.
    assert (Hgen : ∀ fuel i, 0 ≤ i ≤ bound →
      for_uint8 fuel i bound body (fa i) (fw i) = Done a' w' →
      a' = fa bound ∧ w' = fw bound).
    { clear fuel. induction fuel as [|f IH]; intros i Hi; simpl; [done|].
      destruct (Z.ltb_spec i bound) as [Hlt|Hge].
      - destruct (body i (fa i) (fw i)) as [a w| |] eqn:Hrun; try done.
        destruct (Hbody i a w ltac:(lia) Hrun) as [-> ->].
        replace (uint8_wrap (i + 1)) with (i + 1)
          by (unfold uint8_wrap; rewrite Z.mod_small; lia).
        apply IH; lia.
      - intros [= <- <-]. by replace i with bound by lia. }
    apply Hgen; lia.
Qed.

  (** A [uint8_t] counter never reaches a bound of 256 or more. *)
Lemma for_uint8_diverges {A} fuel i bound (body : Z → A → M E A) a w :
    256 ≤ bound → 0 ≤ i < 256 →
    ¬ is_done (for_uint8 fuel i bound body a w).
Proof.
    intros Hb. revert i a w. induction fuel as [|f IH]; intros i a w Hi; simpl; [tauto|].
    replace (i <? bound) with true by lia.
    destruct (body i a w) as [a' w'| |]; simpl; try tauto.
    apply IH. unfold uint8_wrap. apply Z.mod_pos_bound. lia.
Qed.

End Rules.

(** ** Arithmetic and log bookkeeping *)

Lemma uint16_wrap_small z : is_uint16 z → uint16_wrap z = z.
Proof. intros Hz. apply Z.mod_small. exact Hz. Qed.

Lemma uint16_wrap_add_l a b : uint16_wrap (uint16_wrap a + b) = uint16_wrap (a + b).
Proof. unfold uint16_wrap. apply Zplus_mod_idemp_l. Qed.

Lemma uint16_wrap_range z : is_uint16 (uint16_wrap z).
Proof. unfold is_uint16, uint16_wrap. apply Z.mod_pos_bound. lia. Qed.

Lemma seqZ_snoc (n : Z) : 0 ≤ n → seqZ 0 (n + 1) = seqZ 0 n ++ [n].
Proof.
  intros Hn. rewrite seqZ_app by lia. by f_equal.
Qed.

Lemma bind_seqZ_snoc {B} (f : Z → list B) (n : Z) :
  0 ≤ n → seqZ 0 (n + 1) ≫= f = (seqZ 0 n ≫= f) ++ f n.
Proof.
  intros Hn. rewrite seqZ_snoc by done.
  by rewrite bind_app, bind_singleton.
Qed.

Section Grow.
Context {E : Type}.
Implicit Types (w : world E).

Lemma grow_nil w : grow w [] = w.
Proof. destruct w; unfold grow; simpl. by rewrite app_nil_r. Qed.

Lemma grow_grow w l1 l2 : grow (grow w l1) l2 = grow w (l1 ++ l2).
Proof. unfold grow; simpl. by rewrite app_assoc. Qed.

Lemma push_grow e w l : push e (grow w l) = grow w (l ++ [e]).
Proof. apply grow_grow. Qed.

Lemma world_ok_grow w l : world_ok (grow w l) ↔ world_ok w.
Proof. done. Qed.
End Grow.

(** ** The renderer *)

Section Display.
Context {E : Type} `{Platform E}.
Implicit Types (w : world E).

Lemma display_body_run columns start r c w :
    0 ≤ c →
    (bind (vdp_adv_select_bitmap (uint16_wrap (start + r * columns + c)))
       (λ _, bind (vdp_plot_bitmap (10 + c * 20) (10 + r * 20))
         (λ _, ret (uint16_wrap (uint16_wrap (start + r * columns + c) + 1)))))
      (grow w (seqZ 0 c ≫= λ c,
         [Vdu (AdvSelectBitmap (uint16_wrap (start + r * columns + c)));
          Vdu (PlotBitmap (10 + 20 * c) (10 + 20 * r))]))
    = Done (uint16_wrap (start + r * columns + (c + 1)))
        (grow w (seqZ 0 (c + 1) ≫= λ c,
           [Vdu (AdvSelectBitmap (uint16_wrap (start + r * columns + c)));
            Vdu (PlotBitmap (10 + 20 * c) (10 + 20 * r))])).
Proof.
    intros Hc. unfold bind, vdp_adv_select_bitmap, vdp_plot_bitmap, emit, ret.
    rewrite !push_grow, bind_seqZ_snoc by done.
    rewrite uint16_wrap_add_l, <- !app_assoc. simpl.
    rewrite (Z.mul_comm c 20), (Z.mul_comm r 20). by rewrite <- Z.add_assoc.
Qed.

  (** One row of the grid, entered with the running ID of its first cell. *)
Lemma display_row_total fuel columns start r w :
    0 ≤ columns ≤ 255 → (Z.to_nat columns < fuel)%nat →
    display_row fuel columns r (uint16_wrap (start + r * columns)) w
    = Done (uint16_wrap (start + (r + 1) * columns))
           (grow w (display_row_events columns start r)).
Proof.
    intros Hc Hfuel. unfold display_row, display_row_events.
    pose (fa := λ c, uint16_wrap (start + r * columns + c)).
    pose (fw := λ c, grow w (seqZ 0 c ≫= λ c,
         [Vdu (AdvSelectBitmap (uint16_wrap (start + r * columns + c)));
          Vdu (PlotBitmap (10 + 20 * c) (10 + 20 * r))])).
    replace (uint16_wrap (start + r * columns)) with (fa 0)
      by (unfold fa; f_equal; lia).
    replace (uint16_wrap (start + (r + 1) * columns)) with (fa columns)
      by (unfold fa; f_equal; lia).
    rewrite <- (grow_nil w) at 1. change (grow w []) with (fw 0).
    apply (for_uint8_total fa fw); [done..|].
    intros c Hc'. apply display_body_run. lia.
Qed.

Lemma display_row_done fuel columns start r w a' w' :
    0 ≤ columns ≤ 255 →
    display_row fuel columns r (uint16_wrap (start + r * columns)) w = Done a' w' →
    a' = uint16_wrap (start + (r + 1) * columns) ∧
    w' = grow w (display_row_events columns start r).
Proof.
    intros Hc. unfold display_row, display_row_events.
    pose (fa := λ c, uint16_wrap (start + r * columns + c)).
    pose (fw := λ c, grow w (seqZ 0 c ≫= λ c,
         [Vdu (AdvSelectBitmap (uint16_wrap (start + r * columns + c)));
          Vdu (PlotBitmap (10 + 20 * c) (10 + 20 * r))])).
    replace (uint16_wrap (start + r * columns)) with (fa 0)
      by (unfold fa; f_equal; lia).
    replace (uint16_wrap (start + (r + 1) * columns)) with (fa columns)
      by (unfold fa; f_equal; lia).
    rewrite <- (grow_nil w) at 1. change (grow w []) with (fw 0).
    apply (for_uint8_done fa fw); [done|].
    intros c a w1 Hc'. unfold fa, fw.
    rewrite display_body_run by lia. by intros [= <- <-].
Qed.

End Display.

Section DisplayTiles.
Context {E : Type} `{Platform E}.
Implicit Types (w : world E).

Lemma display_tiles_total fuel rows columns start w :
    0 ≤ rows ≤ 255 → 0 ≤ columns ≤ 255 → is_uint16 start →
    (Z.to_nat rows < fuel)%nat → (Z.to_nat columns < fuel)%nat →
    display_tiles fuel rows columns start w
    = Done () (grow w (display_events rows columns start)).
Proof.
    intros Hr Hc Hs Hfr Hfc. unfold display_tiles, bind.
    pose (fa := λ r, uint16_wrap (start + r * columns)).
    pose (fw := λ r, grow w (seqZ 0 r ≫= display_row_events columns start)).
    replace start with (fa 0) at 1
      by (unfold fa; rewrite Z.mul_0_l, Z.add_0_r; by apply uint16_wrap_small).
    rewrite <- (grow_nil w) at 1. change (grow w []) with (fw 0).
    rewrite (for_uint8_total fa fw); [done..|].
    intros r Hr'. unfold fa, fw.
    rewrite display_row_total by done.
    by rewrite grow_grow, bind_seqZ_snoc by lia.
Qed.

Lemma display_tiles_done fuel rows columns start w a' w' :
    0 ≤ rows ≤ 255 → 0 ≤ columns ≤ 255 → is_uint16 start →
    display_tiles fuel rows columns start w = Done a' w' →
    w' = grow w (display_events rows columns start).
Proof.
    intros Hr Hc Hs. unfold display_tiles, bind.
    pose (fa := λ r, uint16_wrap (start + r * columns)).
    pose (fw := λ r, grow w (seqZ 0 r ≫= display_row_events columns start)).
    replace start with (fa 0) at 1
      by (unfold fa; rewrite Z.mul_0_l, Z.add_0_r; by apply uint16_wrap_small).
    rewrite <- (grow_nil w) at 1. change (grow w []) with (fw 0).
    destruct (for_uint8 _ _ _ _ _ _) as [a1 w1| |] eqn:Hrun; try done.
    intros [= _ <-].
    apply (for_uint8_done fa fw) in Hrun as [_ ->]; [done..|].
    intros r a w2 Hr' Hrow. unfold fa, fw in *.
    apply display_row_done in Hrow as [-> ->]; [|done].
    by rewrite grow_grow, bind_seqZ_snoc by lia.
Qed.

End DisplayTiles.

(** ** Reading logs *)

Lemma vdus_app l1 l2 : vdus (l1 ++ l2) = vdus l1 ++ vdus l2.
Proof. apply omap_app. Qed.

Lemma vdus_bind {A} (f : A → list event) (l : list A) :
  vdus (l ≫= f) = l ≫= λ x, vdus (f x).
Proof.
  induction l as [|x l IH]; [done|].
  by rewrite !bind_cons, vdus_app, IH.
Qed.

Lemma list_bind_bind {A B C} (f : A → list B) (g : B → list C) (l : list A) :
  (l ≫= f) ≫= g = l ≫= λ x, f x ≫= g.
Proof.
  induction l as [|x l IH]; [done|].
  by rewrite !bind_cons, bind_app, IH.
Qed.

Lemma plots_from_cells sel (cells : list (Z * Z * Z)) :
  plots_from sel (cells ≫= cell_vdus) = cells.
Proof.
  revert sel. induction cells as [|[[id x] y] cells IH]; intros sel; [done|].
  rewrite bind_cons. simpl. by rewrite IH.
Qed.

Lemma vdus_display_events rows columns start :
  vdus (display_events rows columns start) = grid rows columns start ≫= cell_vdus.
Proof.
  unfold display_events, grid, display_row_events.
  rewrite vdus_bind, list_bind_bind. apply list_bind_ext; [|done]. intros r.
  rewrite vdus_bind, list_bind_bind. by apply list_bind_ext.
Qed.

(** Lookup in a concatenation of [n] blocks of [m] elements. *)
Lemma lookup_bind_blocks {B} (f : Z → list B) (m : nat) (n r : Z) (c : nat) :
  (∀ i, 0 ≤ i < n → length (f i) = m) →
  0 ≤ r < n → (c < m)%nat →
  (seqZ 0 n ≫= f) !! (Z.to_nat r * m + c)%nat = f r !! c.
Proof.
  intros Hlen Hr Hc.
  assert (Hgen : ∀ k : nat, Z.of_nat k ≤ n →
    length (seqZ 0 (Z.of_nat k) ≫= f) = (k * m)%nat ∧
    (r < Z.of_nat k →
     (seqZ 0 (Z.of_nat k) ≫= f) !! (Z.to_nat r * m + c)%nat = f r !! c)).
  { induction k as [|k IH]; intros Hk.
    - split; [done|lia].
    - destruct IH as [IHlen IHlook]; [lia|].
      rewrite Nat2Z.inj_succ, <- Z.add_1_r, bind_seqZ_snoc by lia.
      split.
      + rewrite length_app, IHlen, Hlen by lia. lia.
      + intros Hrk. destruct (decide (r < Z.of_nat k)) as [Hlt|Hge].
        * rewrite lookup_app_l by (rewrite IHlen; nia). by apply IHlook.
        * assert (r = Z.of_nat k) as -> by lia.
          rewrite lookup_app_r by (rewrite IHlen; lia).
          rewrite IHlen, Nat2Z.id. f_equal. lia. }
  destruct (Hgen (Z.to_nat n)) as [_ Hlook]; [lia|].
  rewrite Z2Nat.id in Hlook by lia. apply Hlook. lia.
Qed.

Lemma length_bind_blocks {B} (f : Z → list B) (m : nat) (n : Z) :
  (∀ i, 0 ≤ i < n → length (f i) = m) → 0 ≤ n →
  length (seqZ 0 n ≫= f) = (Z.to_nat n * m)%nat.
Proof.
  intros Hlen Hn. revert Hlen. pattern n. apply natlike_ind; [done| |done].
  clear n Hn. intros n Hn IH Hlen.
  rewrite <- Z.add_1_r, bind_seqZ_snoc, length_app by done.
  rewrite IH by (intros; apply Hlen; lia). rewrite Hlen by lia.
  rewrite Z2Nat.inj_add by lia. simpl. lia.
Qed.

Lemma grid_length rows columns start :
  0 ≤ rows → 0 ≤ columns →
  Z.of_nat (length (grid rows columns start)) = rows * columns.
Proof.
  intros Hr Hc. unfold grid.
  rewrite (length_bind_blocks _ (Z.to_nat columns)); [nia| |done].
  intros r _. rewrite (length_bind_blocks _ 1); [lia|done..].
Qed.

Lemma grid_lookup rows columns start r c :
  0 ≤ r < rows → 0 ≤ c < columns →
  grid rows columns start !! Z.to_nat (r * columns + c)
  = Some (uint16_wrap (start + r * columns + c), 10 + 20 * c, 10 + 20 * r).
Proof.
  intros Hr Hc. unfold grid.
  replace (Z.to_nat (r * columns + c))
    with (Z.to_nat r * Z.to_nat columns + Z.to_nat c)%nat by nia.
  rewrite (lookup_bind_blocks _ (Z.to_nat columns)); [|intros i _|done|lia].
  - replace (Z.to_nat c) with (Z.to_nat c * 1 + 0)%nat by lia.
    by rewrite (lookup_bind_blocks _ 1); [|done..|lia].
  - rewrite (length_bind_blocks _ 1); [lia|done|lia].
Qed.

(** ** The loader *)

Section Loader.
Context {E : Type} `{Platform E}.
Implicit Types (w : world E).

Lemma bitmap_body_run cw ch id c w :
  0 ≤ c →
  (bind (vdp_adv_select_bitmap (uint16_wrap (id + c)))
     (λ _, bind (vdp_adv_bitmap_from_buffer cw ch RGBA2222_format)
       (λ _, ret (uint16_wrap (uint16_wrap (id + c) + 1)))))
    (grow w (bitmap_events cw ch id c))
  = Done (uint16_wrap (id + (c + 1))) (grow w (bitmap_events cw ch id (c + 1))).
Proof.
  intros Hc. unfold bind, vdp_adv_select_bitmap, vdp_adv_bitmap_from_buffer, emit, ret.
  unfold bitmap_events.
  rewrite !push_grow, bind_seqZ_snoc by done.
  rewrite uint16_wrap_add_l, <- !app_assoc. simpl.
  by rewrite <- Z.add_assoc.
Qed.

Lemma make_bitmaps_total fuel cw ch n id w :
  0 ≤ n ≤ 255 → (Z.to_nat n < fuel)%nat → is_uint16 id →
  make_bitmaps fuel cw ch n id w
  = Done (uint16_wrap (id + n)) (grow w (bitmap_events cw ch id n)).
Proof.
  intros Hn Hfuel Hid. unfold make_bitmaps.
  pose (fa := λ c, uint16_wrap (id + c)).
  pose (fw := λ c, grow w (bitmap_events cw ch id c)).
  replace id with (fa 0) at 1
    by (unfold fa; rewrite Z.add_0_r; by apply uint16_wrap_small).
  rewrite <- (grow_nil w) at 1. change (grow w []) with (fw 0).
  apply (for_uint8_total fa fw); [done..|].
  intros c Hc. apply bitmap_body_run. lia.
Qed.

Lemma make_bitmaps_done fuel cw ch n id w a' w' :
  0 ≤ n ≤ 255 → is_uint16 id →
  make_bitmaps fuel cw ch n id w = Done a' w' →
  a' = uint16_wrap (id + n) ∧ w' = grow w (bitmap_events cw ch id n).
Proof.
  intros Hn Hid. unfold make_bitmaps.
  pose (fa := λ c, uint16_wrap (id + c)).
  pose (fw := λ c, grow w (bitmap_events cw ch id c)).
  replace id with (fa 0) at 1
    by (unfold fa; rewrite Z.add_0_r; by apply uint16_wrap_small).
  rewrite <- (grow_nil w) at 1. change (grow w []) with (fw 0).
  apply (for_uint8_done fa fw); [done|].
  intros c a w1 Hc. unfold fa, fw.
  rewrite bitmap_body_run by lia. by intros [= <- <-].
Qed.

Lemma row_data_length stream w : (length (row_data stream w) ≤ readChunk_size)%nat.
Proof.
  unfold row_data. pose proof (fread_bound 1 chunkSize stream (env w)) as Hb.
  unfold chunkSize, readChunk_size in *. lia.
Qed.

Lemma row_buf_length stream w :
  world_ok w → length (row_buf stream w) = readChunk_size.
Proof.
  intros Hw. unfold row_buf. pose proof (row_data_length stream w).
  rewrite length_app, length_drop, Hw. lia.
Qed.

(** The straight-line part of a row, up to the loop over the new buffers. *)
Lemma load_row_unfold fuel stream cw ch n id w :
  world_ok w →
  load_row fuel stream cw ch n id w
  = make_bitmaps fuel cw ch n id
      (grow (World (fread 1 chunkSize stream (env w)).2 (row_buf stream w) (out w))
         [Vdu (AdvClearBuffer chunkStoreID);
          Fread 1 chunkSize stream (row_data stream w);
          Vdu (AdvWriteBlockData chunkStoreID chunkSize (row_buf stream w));
          Vdu (AdvSplitByWidthMultipleFrom chunkStoreID cw n id)]).
Proof.
  intros Hw. unfold load_row, bind, vdp_adv_clear_buffer, emit, call_fread. simpl.
  pose proof (row_data_length stream w) as Hlen.
  pose proof (row_buf_length stream w Hw) as Hbuf.
  unfold row_buf, row_data in *.
  destruct (fread 1 chunkSize stream (env w)) as [data e] eqn:Hread. simpl in *.
  unfold store_bytes. rewrite decide_True by (rewrite Hw; lia).
  unfold vdp_adv_write_block_data, load_bytes. simpl.
  rewrite decide_True by (rewrite Hbuf; unfold chunkSize, readChunk_size; lia).
  rewrite take_ge by (rewrite Hbuf; unfold chunkSize, readChunk_size; lia).
  unfold vdp_adv_split_by_width_multiple_from, emit, push, grow. simpl.
  by rewrite <- !app_assoc.
Qed.

Lemma load_row_total fuel stream cw ch n id w :
  world_ok w → 0 ≤ n ≤ 255 → (Z.to_nat n < fuel)%nat → is_uint16 id →
  load_row fuel stream cw ch n id w
  = Done (uint16_wrap (id + n)) (after_row stream cw ch n id w).
Proof.
  intros Hw Hn Hfuel Hid. rewrite load_row_unfold by done.
  rewrite make_bitmaps_total by done.
  unfold after_row, row_events. by rewrite grow_grow.
Qed.

Lemma load_row_done fuel stream cw ch n id w a' w' :
  world_ok w → 0 ≤ n ≤ 255 → is_uint16 id →
  load_row fuel stream cw ch n id w = Done a' w' →
  a' = uint16_wrap (id + n) ∧ w' = after_row stream cw ch n id w.
Proof.
  intros Hw Hn Hid. rewrite load_row_unfold by done. intros Hrun.
  apply make_bitmaps_done in Hrun as [-> ->]; [|done..].
  unfold after_row, row_events. by rewrite grow_grow.
Qed.

Lemma after_row_ok stream cw ch n id w : world_ok w → world_ok (after_row stream cw ch n id w).
Proof. intros Hw. unfold after_row. apply world_ok_grow. by apply row_buf_length. Qed.

Lemma after_rows_ok r stream start cw ch n w :
  world_ok w → world_ok (after_rows r stream start cw ch n w).
Proof. intros Hw. induction r as [|r IH]; [done|]. simpl. by apply after_row_ok. Qed.

Lemma load_tiles_total fuel fileName start cw ch rows cols w :
  world_ok w → 0 ≤ rows ≤ 255 → 0 ≤ cols ≤ 255 → is_uint16 start →
  (Z.to_nat rows < fuel)%nat → (Z.to_nat cols < fuel)%nat →
  load_tiles_from_file fuel fileName start cw ch rows cols w
  = Done () (after_load fileName start cw ch rows cols w).
Proof.
  intros Hw Hr Hc Hs Hfr Hfc.
  unfold load_tiles_from_file, after_load, after_open, bind, call_fopen.
  destruct (fopen fileName "r" (env w)) as [stream e1] eqn:Hopen. simpl.
  set (w1 := push _ _).
  assert (Hw1 : world_ok w1) by done.
  pose (fa := λ r, uint16_wrap (start + r * cols)).
  pose (fw := λ r, after_rows (Z.to_nat r) stream start cw ch cols w1).
  replace start with (fa 0) at 1
    by (unfold fa; rewrite Z.mul_0_l, Z.add_0_r; by apply uint16_wrap_small).
  change w1 with (fw 0) at 1.
  rewrite (for_uint8_total fa fw); [| done..|].
  - done.
  - intros r Hr'. unfold fa, fw.
    rewrite load_row_total; [|by apply after_rows_ok|done..|apply uint16_wrap_range].
    rewrite uint16_wrap_add_l.
    replace (Z.to_nat (r + 1)) with (S (Z.to_nat r)) by lia. simpl.
    rewrite Z2Nat.id by lia. do 2 f_equal. lia.
Qed.

Lemma load_tiles_done fuel fileName start cw ch rows cols w a' w' :
  world_ok w → 0 ≤ rows ≤ 255 → 0 ≤ cols ≤ 255 → is_uint16 start →
  load_tiles_from_file fuel fileName start cw ch rows cols w = Done a' w' →
  w' = after_load fileName start cw ch rows cols w.
Proof.
  intros Hw Hr Hc Hs.
  unfold load_tiles_from_file, after_load, after_open, bind, call_fopen.
  destruct (fopen fileName "r" (env w)) as [stream e1] eqn:Hopen. simpl.
  set (w1 := push _ _).
  assert (Hw1 : world_ok w1) by done.
  pose (fa := λ r, uint16_wrap (start + r * cols)).
  pose (fw := λ r, after_rows (Z.to_nat r) stream start cw ch cols w1).
  replace start with (fa 0) at 1
    by (unfold fa; rewrite Z.mul_0_l, Z.add_0_r; by apply uint16_wrap_small).
  change w1 with (fw 0) at 1.
  destruct (for_uint8 _ _ _ _ _ _) as [a1 w2| |] eqn:Hrun; try done.
  intros [= _ <-].
  apply (for_uint8_done fa fw) in Hrun as [_ ->]; [done..|].
  intros r a w3 Hr' Hrow. unfold fa, fw in *.
  apply load_row_done in Hrow as [-> ->];
    [|by apply after_rows_ok|done|apply uint16_wrap_range].
  rewrite uint16_wrap_add_l.
  replace (Z.to_nat (r + 1)) with (S (Z.to_nat r)) by lia. simpl.
  rewrite Z2Nat.id by lia. split; [f_equal; lia|done].
Qed.

(** With no rows the body is never entered, whatever [blockCount] is. *)
Lemma load_tiles_no_rows fuel fileName start cw ch cols w :
  is_done (load_tiles_from_file (S fuel) fileName start cw ch 0 cols w).
Proof.
  unfold load_tiles_from_file, bind, call_fopen.
  by destruct (fopen fileName "r" (env w)) as [stream e1].
Qed.

Lemma load_tiles_rows_diverge fuel fileName start cw ch rows cols w :
  256 ≤ rows →
  ¬ is_done (load_tiles_from_file fuel fileName start cw ch rows cols w).
Proof.
  intros Hr. unfold load_tiles_from_file, bind, call_fopen.
  destruct (fopen fileName "r" (env w)) as [stream e1].
  match goal with |- context [for_uint8 ?f ?i ?b ?body ?a ?w] =>
    pose proof (for_uint8_diverges f i b body a w Hr ltac:(lia)) as Hdiv;
    destruct (for_uint8 f i b body a w) end; simpl in *; tauto.
Qed.

Lemma load_tiles_blocks_diverge fuel fileName start cw ch rows cols w :
  world_ok w → 0 < rows → 256 ≤ cols →
  ¬ is_done (load_tiles_from_file fuel fileName start cw ch rows cols w).
Proof.
  intros Hw Hr Hc. unfold load_tiles_from_file, bind, call_fopen.
  destruct (fopen fileName "r" (env w)) as [stream e1].
  destruct fuel as [|fuel]; simpl; [tauto|].
  replace (0 <? rows) with true by lia.
  rewrite load_row_unfold by done. unfold make_bitmaps.
  match goal with |- context [for_uint8 ?f ?i ?b ?body ?a ?w] =>
    pose proof (for_uint8_diverges f i b body a w Hc ltac:(lia)) as Hdiv;
    destruct (for_uint8 f i b body a w) end; simpl in *; tauto.
Qed.

(** The log of the rows. *)
Lemma after_rows_log r stream start cw ch n w :
  out (after_rows r stream start cw ch n w)
  = out w ++ rows_events stream start cw ch n (rows_read r stream start cw ch n w).
Proof.
  unfold rows_events, rows_read. induction r as [|r IH].
  - simpl. by rewrite app_nil_r.
  - rewrite seq_S, fmap_app, imap_app, concat_app, app_assoc, <- IH.
    rewrite length_fmap, length_seq. simpl. rewrite app_nil_r, Nat.add_0_r.
    done.
Qed.

Lemma rows_read_length r stream start cw ch n w :
  length (rows_read r stream start cw ch n w) = r.
Proof. unfold rows_read. by rewrite length_fmap, length_seq. Qed.


Lemma after_load_log fileName start cw ch rows cols w :
  out (after_load fileName start cw ch rows cols w)
  = out w ++ loader_events fileName (fopen fileName "r" (env w)).1 start cw ch cols
               (rows_read (Z.to_nat rows) (fopen fileName "r" (env w)).1 start cw ch cols
                  (after_open fileName w)).
Proof.
  unfold after_load, after_close, loader_events. simpl.
  rewrite after_rows_log. unfold after_open at 1. simpl.
  by rewrite <- !app_assoc.
Qed.

Lemma after_load_ok fileName start cw ch rows cols w :
  world_ok w → world_ok (after_load fileName start cw ch rows cols w).
Proof.
  intros Hw. unfold after_load, after_close, push, grow, world_ok. cbn [readChunk].
  by apply after_rows_ok.
Qed.

End Loader.

(** ** Invariants of every run, finished or not *)

Section Safety.
Context {E : Type} `{Platform E}.
Implicit Types (w : world E) (P : event → Prop).

Lemma logged_grow log0 P w l :
  logged log0 P w → Forall P l → logged log0 P (grow w l).
Proof.
  intros [Hok (l0 & Hout & Hall)] Hl. split; [done|].
  exists (l0 ++ l). simpl. rewrite Hout, app_assoc. split; [done|].
  by apply Forall_app.
Qed.

Lemma logged_start P w : world_ok w → logged (out w) P w.
Proof. intros Hw. split; [done|]. exists []. by rewrite app_nil_r. Qed.

Lemma safe_emit log0 P c : P (Vdu c) → safe (logged (E:=E) log0 P) (emit c).
Proof. intros HP w Hw. simpl. apply logged_grow; [done|]. by constructor. Qed.

Lemma safe_fopen log0 P fileName mode :
  (∀ stream, P (Fopen fileName mode stream)) →
  safe (logged (E:=E) log0 P) (call_fopen fileName mode).
Proof.
  intros HP w [Hok (l & Hout & Hall)]. unfold call_fopen.
  destruct (fopen fileName mode (env w)) as [stream e]. simpl.
  split; [done|]. exists (l ++ [Fopen fileName mode stream]).
  rewrite Hout, app_assoc. split; [done|]. apply Forall_app. split; [done|].
  by constructor.
Qed.

Lemma safe_fread log0 P stream :
  (∀ data, (length data ≤ readChunk_size)%nat → P (Fread 1 chunkSize stream data)) →
  safe (logged (E:=E) log0 P) (call_fread 1 chunkSize stream).
Proof.
  intros HP w Hw. pose proof Hw as [Hok (l & Hout & Hall)]. unfold call_fread.
  pose proof (row_data_length stream w) as Hlen. unfold row_data in Hlen.
  destruct (fread 1 chunkSize stream (env w)) as [data e]. simpl in Hlen.
  unfold store_bytes. rewrite decide_True by (rewrite Hok; lia). simpl.
  split.
  - unfold world_ok. simpl. rewrite length_app, length_drop, Hok. lia.
  - exists (l ++ [Fread 1 chunkSize stream data]).
    rewrite Hout, app_assoc. split; [done|]. apply Forall_app. split; [done|].
    constructor; [|done]. by apply HP.
Qed.

Lemma safe_write_block log0 P id :
  (∀ data, length data = readChunk_size → P (Vdu (AdvWriteBlockData id chunkSize data))) →
  safe (logged (E:=E) log0 P) (vdp_adv_write_block_data id chunkSize).
Proof.
  intros HP w Hw. pose proof Hw as [Hok _]. unfold vdp_adv_write_block_data, load_bytes.
  rewrite decide_True by (rewrite Hok; unfold chunkSize, readChunk_size; lia).
  apply safe_emit; [|done]. apply HP.
  rewrite length_take, Hok. unfold chunkSize, readChunk_size. lia.
Qed.

Lemma safe_fclose log0 P stream :
  P (Fclose stream) → safe (logged (E:=E) log0 P) (call_fclose stream).
Proof.
  intros HP w [Hok (l & Hout & Hall)]. simpl.
  split; [done|]. exists (l ++ [Fclose stream]).
  rewrite Hout, app_assoc. split; [done|]. apply Forall_app. split; [done|].
  by constructor.
Qed.

Lemma load_tiles_safe log0 fuel fileName start cw ch rows cols :
  safe (logged (E:=E) log0 (loader_event fileName cw ch cols))
       (load_tiles_from_file fuel fileName start cw ch rows cols).
Proof.
  unfold load_tiles_from_file.
  apply safe_bind; [by apply safe_fopen|]. intros stream.
  apply safe_bind; [|intros _; by apply safe_fclose].
  apply safe_for. intros _ id. unfold load_row.
  apply safe_bind; [by apply safe_emit|]. intros _.
  apply safe_bind; [by apply safe_fread|]. intros _.
  apply safe_bind; [by apply safe_write_block|]. intros _.
  apply safe_bind; [by apply safe_emit|]. intros _.
  apply safe_for. intros _ id'.
  apply safe_bind; [by apply safe_emit|]. intros _.
  apply safe_bind; [by apply safe_emit|]. intros _.
  apply safe_ret.
Qed.

(** The rows of the loader, the file being open: coprocessor commands and
    reads from [stream] only. *)
Lemma load_rows_safe log0 P fuel stream start cw ch rows cols :
  (∀ c, P (Vdu c)) → (∀ data, P (Fread 1 chunkSize stream data)) →
  safe (logged (E:=E) log0 P)
       (for_uint8 fuel 0 rows (λ _ id, load_row fuel stream cw ch cols id) start).
Proof.
  intros Hvdu Hread. apply safe_for. intros _ id. unfold load_row.
  apply safe_bind; [by apply safe_emit|]. intros _.
  apply safe_bind; [apply safe_fread; auto|]. intros _.
  apply safe_bind; [apply safe_write_block; auto|]. intros _.
  apply safe_bind; [by apply safe_emit|]. intros _.
  apply safe_for. intros _ id'.
  apply safe_bind; [by apply safe_emit|]. intros _.
  apply safe_bind; [by apply safe_emit|]. intros _.
  apply safe_ret.
Qed.

(** The loader opens one stream and passes it on as it is: every read and
    the close are on what [fopen] returned, whatever that is. *)
Lemma load_tiles_on_stream fuel fileName start cw ch rows cols w :
  world_ok w →
  ∃ l,
    out (final (load_tiles_from_file fuel fileName start cw ch rows cols w))
    = out w ++ Fopen fileName "r" (fopen fileName "r" (env w)).1 :: l ∧
    Forall (on_stream (fopen fileName "r" (env w)).1) l.
Proof.
  intros Hw. unfold load_tiles_from_file. unfold bind at 1. unfold call_fopen.
  destruct (fopen fileName "r" (env w)) as [stream e1]. cbn [fst].
  set (w1 := push _ _).
  assert (Hsafe : safe (logged (E:=E) (out w1) (on_stream stream))
            (for_uint8 fuel 0 rows (λ _ id, load_row fuel stream cw ch cols id) start ;;
             call_fclose stream)%prog).
  { apply safe_bind; [by apply load_rows_safe|]. intros _. by apply safe_fclose. }
  specialize (Hsafe w1 (logged_start _ w1 Hw)).
  match type of Hsafe with good _ ?o => destruct o as [a w'|w'|] end; [| |done].
  - destruct Hsafe as [_ (l & Hout & Hall)]. exists l. cbn [final].
    rewrite Hout. unfold w1. cbn [out push grow]. by rewrite <- app_assoc.
  - destruct Hsafe as [_ (l & Hout & Hall)]. exists l. cbn [final].
    rewrite Hout. unfold w1. cbn [out push grow]. by rewrite <- app_assoc.
Qed.


Lemma display_tiles_safe log0 fuel rows columns start :
  safe (logged (E:=E) log0 display_event) (display_tiles fuel rows columns start).
Proof.
  unfold display_tiles.
  apply safe_bind; [|intros _; apply safe_ret].
  apply safe_for. intros r id. unfold display_row.
  apply safe_for. intros c id'.
  apply safe_bind; [by apply safe_emit|]. intros _.
  apply safe_bind; [by apply safe_emit|]. intros _.
  apply safe_ret.
Qed.

(** The wait loop: polls until it sees 27, and only then returns. *)
Lemma wait_for_esc_run fuel w :
  match wait_for_esc fuel w with
  | Done _ w' =>
      ∃ keys, out w' = out w ++ polls_events keys ++ [GetKeyCode 27] ∧
              (27 ∉ keys) ∧ (length keys < fuel)%nat ∧ readChunk w' = readChunk w
  | Timeout w' =>
      ∃ keys, out w' = out w ++ polls_events keys ∧
              (27 ∉ keys) ∧ length keys = fuel ∧ readChunk w' = readChunk w
  | Fault _ => False
  end.
Proof.
  unfold wait_for_esc. revert w. induction fuel as [|fuel IH]; intros w; simpl.
  - exists []. simpl. rewrite app_nil_r. split_and!; try done. apply not_elem_of_nil.
  - unfold bind at 1, call_getKeyCode at 1.
    destruct (vdp_getKeyCode (env w)) as [key e]. simpl.
    case_bool_decide as Hkey.
    + subst key. exists []. simpl. split_and!; try done; try lia. apply not_elem_of_nil.
    + set (w1 := push _ _). specialize (IH w1).
      destruct (while_true _ _ w1) as [[] w'| w'|]; [| |done].
      * destruct IH as (keys & Hout & Hnot & Hlen & Hchunk).
        exists (key :: keys). simpl in *. rewrite Hout, <- app_assoc.
        split_and!; try done; try lia. rewrite elem_of_cons. intros [Heq|Hin]; [by subst|done].
      * destruct IH as (keys & Hout & Hnot & Hlen & Hchunk).
        exists (key :: keys). simpl in *. rewrite Hout, <- app_assoc.
        split_and!; try done; try lia. rewrite elem_of_cons. intros [Heq|Hin]; [by subst|done].
Qed.

End Safety.

(** ** Runs of [main] *)

Section Main.
Context {E : Type} `{Platform E}.
Variable BLUE : Z.
Implicit Types (w : world E).

Lemma bind_emit {B} c (k : () → M E B) w :
  bind (emit c) k w = k () (push (Vdu c) w).
Proof. done. Qed.

Lemma main_start fuel w :
  main BLUE fuel w
  = (load_tiles_from_file fuel fname tileStartID cellWidth cellHeight cellRows cellColumns ;;
     display_tiles fuel 5 8 tileStartID ;;
     main_rest fuel)%prog (grow w (setup_events BLUE)).
Proof.
  unfold main, vdp_mode, vdp_cursor_enable, vdp_set_text_bg_colour, vdp_clear_screen,
    vdp_set_pixel_coordinates, vdp_cursor_tab, printf.
  do 9 rewrite bind_emit.
  unfold push at 9. rewrite !push_grow. done.
Qed.

Lemma main_rest_run fuel w :
  match main_rest fuel w with
  | Done r w' =>
      r = 0 ∧ ∃ keys, (27 ∉ keys) ∧
        out w' = out w ++ polls_events keys ++ [GetKeyCode 27] ++ teardown_events
  | Timeout w' =>
      ∃ keys, (27 ∉ keys) ∧ length keys = fuel ∧ out w' = out w ++ polls_events keys
  | Fault _ => False
  end.
Proof.
  unfold main_rest, bind at 1. pose proof (wait_for_esc_run fuel w) as Hwait.
  destruct (wait_for_esc fuel w) as [[] w'|w'|]; [| |done].
  - destruct Hwait as (keys & Hout & Hnot & _ & _). simpl.
    split; [done|]. exists keys. split; [done|].
    rewrite Hout, <- !app_assoc. done.
  - destruct Hwait as (keys & Hout & Hnot & Hlen & _). by exists keys.
Qed.

Lemma main_run fuel w :
  world_ok w →
  match main BLUE fuel w with
  | Done r w' => r = 0 ∧ ∃ l, out w' = out w ++ l ∧ main_log_exited BLUE l
  | Timeout w' =>
      ∃ l, out w' = out w ++ l ∧
           ((main_log_drawing BLUE l ∧ (fuel < 9)%nat) ∨ main_log_waiting BLUE fuel l)
  | Fault _ => False
  end.
Proof.
  intros Hw. rewrite main_start. set (w1 := grow w (setup_events BLUE)).
  assert (Hw1 : world_ok w1) by done.
  unfold bind at 1.
  pose proof (load_tiles_safe (out w1) fuel fname tileStartID cellWidth cellHeight
                cellRows cellColumns w1 (logged_start _ w1 Hw1)) as Hsafe.
  destruct (load_tiles_from_file _ _ _ _ _ _ _ w1) as [[] w2|w2|] eqn:Hload; [| |done].
  2:{ destruct Hsafe as [_ (l1 & Hout & Hall)]. exists (setup_events BLUE ++ l1).
      split; [rewrite Hout; unfold w1; cbn [out grow]; by rewrite app_assoc|].
      left. split; [left; by exists l1|].
      destruct (decide (fuel < 9)%nat) as [|Hfuel]; [done|].
      rewrite load_tiles_total in Hload; [done|done|done|done|done|..];
        unfold cellRows, cellColumns; lia. }
  apply load_tiles_done in Hload; [|done..]. clear Hsafe.
  pose proof (after_load_log fname tileStartID cellWidth cellHeight cellRows
                cellColumns w1) as Hlog2. rewrite <- Hload in Hlog2.
  set (stream := (fopen fname "r" (env w1)).1) in *.
  set (rows := rows_read _ _ _ _ _ _ _) in *.
  assert (Hrows : length rows = 5%nat) by apply rows_read_length.
  assert (Hw2 : world_ok w2) by (rewrite Hload; by apply after_load_ok).
  clearbody stream rows. clear Hload.
  unfold bind at 1.
  pose proof (display_tiles_safe (out w2) fuel 5 8 tileStartID w2
                (logged_start _ w2 Hw2)) as Hsafe.
  destruct (display_tiles fuel 5 8 tileStartID w2) as [[] w3|w3|] eqn:Hdisp; [| |done].
  2:{ destruct Hsafe as [_ (l2 & Hout & Hall)].
      exists (setup_events BLUE ++ main_loader_events stream rows ++ l2).
      split; [rewrite Hout, Hlog2; unfold w1, main_loader_events; cbn [out grow];
              by rewrite <- !app_assoc|]. left.
      split; [right; by exists stream, rows, l2|].
      destruct (decide (fuel < 9)%nat) as [|Hfuel]; [done|].
      rewrite display_tiles_total in Hdisp; [done|done|done|done|..]; lia. }
  apply display_tiles_done in Hdisp; [|done..]. clear Hsafe.
  pose proof (main_rest_run fuel w3) as Hrest.
  destruct (main_rest fuel w3) as [r w4|w4|]; [| |done].
  - destruct Hrest as [-> (keys & Hnot & Hout)]. split; [done|].
    eexists. split; [|by exists stream, rows, keys].
    rewrite Hout, Hdisp. cbn [out grow]. rewrite Hlog2.
    unfold w1, main_loader_events. cbn [out grow]. by rewrite <- !app_assoc.
  - destruct Hrest as (keys & Hnot & Hlen & Hout).
    eexists. split; [|right; by exists stream, rows, keys].
    rewrite Hout, Hdisp. cbn [out grow]. rewrite Hlog2.
    unfold w1, main_loader_events. cbn [out grow]. by rewrite <- !app_assoc.
Qed.

End Main.

(** ** Orders of commands in a log *)

Lemma vdus_polls keys : vdus (polls_events keys) = [].
Proof. induction keys as [|k keys IH]; [done|]. exact IH. Qed.

Lemma conversions_from_none sel l :
  forallb (λ c, negb (is_conversion c)) l = true → conversions_from sel l = [].
Proof.
  revert sel. induction l as [|c l IH]; intros sel; [done|]. simpl.
  intros [Hc Hl]%andb_prop. destruct c; try done; by apply IH.
Qed.

Lemma conversions_from_app_none sel l1 l2 :
  forallb (λ c, negb (is_conversion c)) l2 = true →
  conversions_from sel (l1 ++ l2) = conversions_from sel l1.
Proof.
  intros Hl2. revert sel. induction l1 as [|c l1 IH]; intros sel; simpl.
  - by apply conversions_from_none.
  - destruct c; by rewrite ?IH.
Qed.

Lemma plots_from_none sel l :
  forallb (λ c, negb (is_plot c)) l = true → plots_from sel l = [].
Proof.
  revert sel. induction l as [|c l IH]; intros sel; [done|]. simpl.
  intros [Hc Hl]%andb_prop. destruct c; try done; by apply IH.
Qed.

Lemma plots_from_app_none sel l1 l2 :
  forallb (λ c, negb (is_plot c)) l2 = true →
  plots_from sel (l1 ++ l2) = plots_from sel l1.
Proof.
  intros Hl2. revert sel. induction l1 as [|c l1 IH]; intros sel; simpl.
  - by apply plots_from_none.
  - destruct c; by rewrite ?IH.
Qed.

(** Plots after conversions: no plot in the first part, no conversion in
    the second. *)
Lemma conversions_before_plots (l1 l2 : list vdu) i j p c :
  forallb (λ c, negb (is_plot c)) l1 = true →
  forallb (λ c, negb (is_conversion c)) l2 = true →
  (l1 ++ l2) !! i = Some p → (l1 ++ l2) !! j = Some c →
  is_plot p = true → is_conversion c = true → (j < i)%nat.
Proof.
  rewrite !forallb_forall. intros H1 H2 Hi Hj Hp Hc.
  assert (length l1 ≤ i)%nat as Hi'.
  { destruct (decide (i < length l1)%nat) as [Hlt|]; [|lia].
    rewrite lookup_app_l in Hi by done.
    apply list_elem_of_lookup_2, list_elem_of_In, H1 in Hi. by rewrite Hp in Hi. }
  assert (j < length l1)%nat as Hj'.
  { destruct (decide (j < length l1)%nat) as [|Hge]; [done|].
    rewrite lookup_app_r in Hj by lia.
    apply list_elem_of_lookup_2, list_elem_of_In, H2 in Hj. by rewrite Hc in Hj. }
  lia.
Qed.

Lemma loader_events_no_plot fileName cw ch cols l :
  Forall (loader_event fileName cw ch cols) l →
  forallb (λ c, negb (is_plot c)) (vdus l) = true.
Proof.
  induction 1 as [|e l He _ IH]; [done|].
  destruct e as [c| | | |]; simpl; try done. by destruct c.
Qed.

Lemma display_events_no_conversion l :
  Forall display_event l →
  forallb (λ c, negb (is_conversion c)) (vdus l) = true.
Proof.
  induction 1 as [|e l He _ IH]; [done|].
  destruct e as [c| | | |]; simpl; try done. by destruct c.
Qed.

(** ** Two runs side by side *)

Section Lockstep.
Context {E1 E2 : Type} `{Platform E1} `{Platform E2}.
Variables base1 base2 : list event.

Local Abbreviation R := (same_commands (E1:=E1) (E2:=E2) base1 base2).

Lemma lockstep_ret {A} (a : A) : lockstep eq R (ret a) (ret a).
Proof. intros w1 w2 Hw. by split. Qed.

Lemma lockstep_bind {A1 A2 B1 B2} (RA : A1 → A2 → Prop) (RB : B1 → B2 → Prop)
    (m1 : M E1 A1) (m2 : M E2 A2) (k1 : A1 → M E1 B1) (k2 : A2 → M E2 B2) :
  lockstep RA R m1 m2 → (∀ a1 a2, RA a1 a2 → lockstep RB R (k1 a1) (k2 a2)) →
  lockstep RB R (bind m1 k1) (bind m2 k2).
Proof.
  intros Hm Hk w1 w2 Hw. unfold bind. specialize (Hm w1 w2 Hw).
  destruct (m1 w1), (m2 w2); simpl in *; try done.
  destruct Hm as [Ha Hw']. by apply Hk.
Qed.

Lemma lockstep_for {A} fuel bound (body1 : Z → A → M E1 A) (body2 : Z → A → M E2 A) :
  (∀ i a, lockstep eq R (body1 i a) (body2 i a)) →
  ∀ i a, lockstep eq R (for_uint8 fuel i bound body1 a)
                       (for_uint8 fuel i bound body2 a).
Proof.
  intros Hbody. induction fuel as [|fuel IH]; intros i a w1 w2 Hw; simpl; [done|].
  destruct (i <? bound); [|by split].
  specialize (Hbody i a w1 w2 Hw).
  destruct (body1 i a w1), (body2 i a w2); simpl in *; try done.
  destruct Hbody as [-> Hw']. by apply IH.
Qed.

Lemma same_commands_grow (w1 : world E1) (w2 : world E2) l1 l2 :
  R w1 w2 → vdu_shape <$> vdus l1 = vdu_shape <$> vdus l2 →
  R (grow w1 l1) (grow w2 l2).
Proof.
  intros (Hok1 & Hok2 & k1 & k2 & Hout1 & Hout2 & Hshape) Hl.
  split; [done|]. split; [done|]. exists (k1 ++ l1), (k2 ++ l2). simpl.
  rewrite Hout1, Hout2, !app_assoc. split; [done|]. split; [done|].
  by rewrite !vdus_app, !fmap_app, Hshape, Hl.
Qed.

Lemma lockstep_emit c1 c2 :
  vdu_shape c1 = vdu_shape c2 → lockstep eq R (emit c1) (emit c2).
Proof.
  intros Hc w1 w2 Hw. simpl. split; [done|].
  apply same_commands_grow; [done|]. simpl. by rewrite Hc.
Qed.

Lemma lockstep_fopen name1 mode1 name2 mode2 :
  lockstep any R (call_fopen name1 mode1) (call_fopen name2 mode2).
Proof.
  intros w1 w2 Hw. unfold call_fopen.
  destruct (fopen name1 mode1 (env w1)) as [s1 e1].
  destruct (fopen name2 mode2 (env w2)) as [s2 e2]. simpl.
  destruct Hw as (Hok1 & Hok2 & Hlogs). split; [done|].
  by apply (same_commands_grow (World e1 _ _) (World e2 _ _)).
Qed.

Lemma lockstep_fread stream1 stream2 :
  lockstep any R (call_fread 1 chunkSize stream1) (call_fread 1 chunkSize stream2).
Proof.
  intros w1 w2 (Hok1 & Hok2 & Hlogs). unfold call_fread.
  pose proof (row_data_length stream1 w1) as Hlen1.
  pose proof (row_data_length stream2 w2) as Hlen2.
  unfold row_data, world_ok in *.
  destruct (fread 1 chunkSize stream1 (env w1)) as [d1 e1].
  destruct (fread 1 chunkSize stream2 (env w2)) as [d2 e2]. simpl in *.
  unfold store_bytes. rewrite !decide_True by lia. simpl. split; [done|].
  apply (same_commands_grow (World e1 _ _) (World e2 _ _)); [|done].
  split; [|split; [|done]]; unfold world_ok; simpl;
    rewrite length_app, length_drop; lia.
Qed.

Lemma lockstep_write_block id :
  lockstep eq R (vdp_adv_write_block_data id chunkSize)
                (vdp_adv_write_block_data id chunkSize).
Proof.
  intros w1 w2 Hw. pose proof Hw as (Hok1 & Hok2 & _).
  unfold vdp_adv_write_block_data, load_bytes, world_ok in *.
  rewrite !decide_True by (unfold chunkSize, readChunk_size in *; lia).
  by apply lockstep_emit.
Qed.

Lemma lockstep_fclose stream1 stream2 :
  lockstep eq R (call_fclose stream1) (call_fclose stream2).
Proof.
  intros w1 w2 (Hok1 & Hok2 & Hlogs). simpl. split; [done|].
  by apply (same_commands_grow (World _ _ _) (World _ _ _)).
Qed.

(** The loader takes the same steps whatever the files hold. *)
Lemma load_tiles_lockstep fuel name1 name2 start cw ch rows cols :
  lockstep eq R (load_tiles_from_file fuel name1 start cw ch rows cols)
                (load_tiles_from_file fuel name2 start cw ch rows cols).
Proof.
  unfold load_tiles_from_file.
  eapply lockstep_bind; [apply lockstep_fopen|]. intros s1 s2 _.
  eapply lockstep_bind; [|intros ? ? _; apply lockstep_fclose].
  apply lockstep_for. intros _ id. unfold load_row.
  eapply lockstep_bind; [by apply lockstep_emit|]. intros _ _ _.
  eapply lockstep_bind; [apply lockstep_fread|]. intros _ _ _.
  eapply lockstep_bind; [apply lockstep_write_block|]. intros _ _ _.
  eapply lockstep_bind; [by apply lockstep_emit|]. intros _ _ _.
  apply lockstep_for. intros _ id'.
  eapply lockstep_bind; [by apply lockstep_emit|]. intros _ _ _.
  eapply lockstep_bind; [by apply lockstep_emit|]. intros _ _ _.
  apply lockstep_ret.
Qed.

End Lockstep.

(** ** The loader's commands without their bytes *)

Lemma fmap_list_bind {A B C} (f : A → list B) (g : B → C) (l : list A) :
  g <$> (l ≫= f) = l ≫= λ x, g <$> f x.
Proof.
  induction l as [|x l IH]; [done|]. by rewrite !bind_cons, fmap_app, IH.
Qed.

Lemma rows_events_shape stream start cw ch n rows :
  vdu_shape <$> vdus (rows_events stream start cw ch n rows)
  = loader_shape start cw ch (Z.of_nat (length rows)) n.
Proof.
  unfold rows_events, loader_shape.
  induction rows as [|row rows IH] using rev_ind; [done|].
  rewrite imap_app, concat_app, vdus_app, fmap_app, IH, length_app.
  rewrite Nat2Z.inj_add. change (Z.of_nat (length [row])) with 1.
  rewrite bind_seqZ_snoc by lia. f_equal.
  simpl. rewrite app_nil_r, Nat.add_0_r. simpl. do 3 f_equal.
  unfold bitmap_events. rewrite vdus_bind, fmap_list_bind.
  apply list_bind_ext; [|done]. intros c. simpl. by rewrite uint16_wrap_add_l.
Qed.

Lemma loader_events_shape fileName stream start cw ch n rows :
  vdu_shape <$> vdus (loader_events fileName stream start cw ch n rows)
  = loader_shape start cw ch (Z.of_nat (length rows)) n.
Proof.
  unfold loader_events. simpl. rewrite vdus_app, fmap_app, rows_events_shape. simpl.
  by rewrite app_nil_r.
Qed.

(** ** The loader on files *)

Section MosLoader.
Variables (fileName : string) (image : list byte).
Implicit Types (w : world Mos.state).

Lemma mos_after_open w :
  Mos.disk (env w) !! fileName = Some image →
  Mos.streams (env (after_open fileName w)) !! (fopen fileName "r" (env w)).1
  = Some image.
Proof.
  intros Hfile. unfold after_open. cbn. unfold Mos.fopen. rewrite Hfile. cbn.
  apply lookup_insert_eq.
Qed.

Lemma mos_after_row_stream stream cw ch n id w rest :
  Mos.streams (env w) !! stream = Some rest →
  Mos.streams (env (after_row stream cw ch n id w)) !! stream
  = Some (drop (Z.to_nat chunkSize) rest).
Proof.
  intros Hs. unfold after_row. cbn. unfold Mos.fread. rewrite Hs. cbn.
  apply lookup_insert_eq.
Qed.

Lemma mos_row_data stream w rest :
  Mos.streams (env w) !! stream = Some rest →
  row_data stream w = take (Z.to_nat chunkSize) rest.
Proof. intros Hs. unfold row_data. cbn. unfold Mos.fread. by rewrite Hs. Qed.

Lemma mos_after_rows_stream k stream start cw ch n w :
  Mos.streams (env w) !! stream = Some image →
  Mos.streams (env (after_rows k stream start cw ch n w)) !! stream
  = Some (drop (k * Z.to_nat chunkSize) image).
Proof.
  intros Hs. induction k as [|k IH]; [done|].
  cbn [after_rows]. erewrite mos_after_row_stream by exact IH.
  rewrite drop_drop. do 2 f_equal. lia.
Qed.

Lemma chunk_length k :
  (S k * Z.to_nat chunkSize ≤ length image)%nat →
  length (chunk image k) = readChunk_size.
Proof.
  intros Hlen. unfold chunk. rewrite length_take, length_drop.
  unfold chunkSize, readChunk_size in *. lia.
Qed.

(** With enough bytes in the file, every row reads a full chunk and sends
    exactly that. *)
Lemma mos_rows_read r stream start cw ch n w :
  world_ok w →
  Mos.streams (env w) !! stream = Some image →
  (r * Z.to_nat chunkSize ≤ length image)%nat →
  rows_read r stream start cw ch n w = (λ k, (chunk image k, chunk image k)) <$> seq 0 r.
Proof.
  intros Hw Hs Hlen. unfold rows_read. apply list_fmap_ext.
  intros i k' [-> Hk]%lookup_seq. simpl.
  assert (Hdata : row_data stream (after_rows i stream start cw ch n w) = chunk image i).
  { erewrite mos_row_data; [done|]. by apply mos_after_rows_stream. }
  unfold row_buf. rewrite Hdata. f_equal.
  rewrite drop_ge, app_nil_r; [done|].
  rewrite chunk_length by nia. by rewrite (after_rows_ok i stream start cw ch n w Hw).
Qed.

End MosLoader.

(** ** The coprocessor on the loader's commands *)

Lemma vdp_run_app v l1 l2 : Vdp.run v (l1 ++ l2) = Vdp.run (Vdp.run v l1) l2.
Proof. apply foldl_app. Qed.

Lemma vdp_run_cons v c l : Vdp.run v (c :: l) = Vdp.run (Vdp.step v c) l.
Proof. done. Qed.

Lemma vdp_run_nil v : Vdp.run v [] = v.
Proof. done. Qed.

Lemma vdus_cons_vdu c l : vdus (Vdu c :: l) = c :: vdus l.
Proof. done. Qed.

Lemma vdus_cons_fread size count stream data l :
  vdus (Fread size count stream data :: l) = vdus l.
Proof. done. Qed.

Lemma vdus_nil : vdus [] = [].
Proof. done. Qed.

Lemma split_into_lookup width count target bytes (bufs : gmap Z (list byte)) k :
  Vdp.split_into width count target bytes bufs !! k
  = if decide (target ≤ k < target + Z.of_nat count)
    then Some (Vdp.group width count bytes (Z.to_nat (k - target)))
    else bufs !! k.
Proof.
  unfold Vdp.split_into. generalize (Vdp.group width count bytes). intros g.
  induction count as [|n IH].
  - simpl. by rewrite decide_False by lia.
  - rewrite seq_S, foldl_app. simpl. rewrite lookup_insert.
    destruct (decide (target + Z.of_nat n = k)) as [<-|Hne].
    + rewrite decide_True by lia. do 2 f_equal. lia.
    + rewrite IH. destruct (decide (target ≤ k < target + Z.of_nat n)).
      * by rewrite decide_True by lia.
      * by rewrite decide_False by lia.
Qed.

Lemma length_concat_fmap {A B} (f : A → list B) (m : nat) (l : list A) :
  Forall (λ x, length (f x) = m) l →
  length (concat (f <$> l)) = (length l * m)%nat.
Proof.
  induction 1 as [|x l Hx _ IH]; [done|].
  rewrite fmap_cons. cbn [concat]. rewrite length_app, IH, Hx. simpl. lia.
Qed.

(** When the buffer is [cellHeight] lines of [count] pieces, sub-buffer [c]
    is the [c]-th piece of every line. *)
Lemma group_pieces (width height count : nat) bytes (c : nat) :
  length bytes = (width * height * count)%nat →
  (0 < width)%nat → (c < count)%nat →
  Vdp.group width count bytes c
  = concat ((λ k, Vdp.piece width bytes (k * count + c)%nat) <$> seq 0 height).
Proof.
  intros Hlen Hw Hc. unfold Vdp.group, Vdp.pieces_count. do 3 f_equal.
  rewrite Hlen.
  replace (width * height * count + width - 1)%nat
    with ((height * count) * width + (width - 1))%nat by lia.
  rewrite Nat.div_add_l, (Nat.div_small (width - 1)) by lia.
  replace (height * count + 0 + count - 1 - c)%nat
    with (height * count + (count - 1 - c))%nat by lia.
  rewrite Nat.div_add_l, Nat.div_small by lia. lia.
Qed.

Lemma piece_length width bytes i :
  (S i * width ≤ length bytes)%nat → length (Vdp.piece width bytes i) = width.
Proof. intros Hlen. unfold Vdp.piece. rewrite length_take, length_drop. lia. Qed.

Lemma group_length (width height count : nat) bytes (c : nat) :
  length bytes = (width * height * count)%nat →
  (0 < width)%nat → (c < count)%nat →
  length (Vdp.group width count bytes c) = (width * height)%nat.
Proof.
  intros Hlen Hw Hc. rewrite (group_pieces width height) by done.
  rewrite (length_concat_fmap _ width), length_seq; [lia|].
  apply Forall_forall. intros k [_ Hk]%elem_of_seq. apply piece_length.
  rewrite Hlen. assert (S (k * count + c) ≤ height * count)%nat by nia. nia.
Qed.

(** Sub-buffer [c] of the [r]-th chunk is the cell ([r], [c]) of the image. *)
Lemma group_chunk_cell (width height count : nat) image (r c : nat) :
  Z.to_nat chunkSize = (width * height * count)%nat →
  (S r * Z.to_nat chunkSize ≤ length image)%nat →
  (0 < width)%nat → (c < count)%nat →
  Vdp.group width count (chunk image r) c = source_cell image width height count r c.
Proof.
  intros Hsize Hlen Hw Hc.
  rewrite (group_pieces width height); [|by rewrite chunk_length|done..].
  unfold source_cell. f_equal. apply list_fmap_ext.
  intros i k [-> Hk]%lookup_seq. simpl.
  unfold Vdp.piece, chunk. rewrite Hsize.
  assert (S (i * count + c) ≤ height * count)%nat as Hidx by nia.
  replace (width * height * count)%nat
    with ((i * count + c) * width + (width * height * count - (i * count + c) * width))%nat
    at 1 by nia.
  rewrite <- take_drop_commute, drop_drop, take_take.
  f_equal; [nia|]. f_equal. nia.
Qed.

(** Selecting and converting [n] buffers that are there and large enough. *)
Lemma vdp_run_bitmaps cw ch id n v :
  0 < cw → 0 < ch → 0 ≤ id → 0 ≤ n → id + n ≤ 65536 →
  (∀ k, id ≤ k < id + n →
     ∃ bytes, Vdp.buffers v !! k = Some bytes ∧ cw * ch ≤ Z.of_nat (length bytes)) →
  let v' := Vdp.run v (vdus (bitmap_events cw ch id n)) in
  Vdp.buffers v' = Vdp.buffers v ∧
  ∀ k, Vdp.bitmaps v' !! k
       = if decide (id ≤ k < id + n)
         then Some (Vdp.Bitmap cw ch RGBA2222_format)
         else Vdp.bitmaps v !! k.
Proof.
  intros Hcw Hch Hid Hn. rewrite <- (Z2Nat.id n) by done. clear Hn.
  induction (Z.to_nat n) as [|m IH]; clear n.
  - intros _ _. simpl. split; [done|]. intros k. by rewrite decide_False by lia.
  - rewrite Nat2Z.inj_succ, <- Z.add_1_r. set (n := Z.of_nat m) in *.
    assert (Hn : 0 ≤ n) by lia. clearbody n.
    intros Hmax Hbufs. unfold bitmap_events.
    rewrite bind_seqZ_snoc, vdus_app, vdp_run_app by done.
    destruct IH as [IHbuf IHmap]; [lia|intros; apply Hbufs; lia|].
    fold (bitmap_events cw ch id n) in *.
    set (v1 := Vdp.run v (vdus (bitmap_events cw ch id n))) in *.
    rewrite uint16_wrap_small by (unfold is_uint16; lia).
    destruct (Hbufs (id + n)) as (bytes & Hbytes & Hlen); [lia|].
    rewrite !vdus_cons_vdu, vdus_nil, !vdp_run_cons, vdp_run_nil.
    cbn [Vdp.step Vdp.selected Vdp.buffers Vdp.bitmaps].
    rewrite IHbuf, Hbytes. rewrite decide_True by done.
    cbn [Vdp.buffers Vdp.bitmaps]. split; [done|].
    intros k. rewrite lookup_insert.
    destruct (decide (id + n = k)) as [<-|Hne].
    + by rewrite decide_True by lia.
    + rewrite IHmap. destruct (decide (id ≤ k < id + n)).
      * by rewrite decide_True by lia.
      * by rewrite decide_False by lia.
Qed.

(** One row: the chunk goes to buffer [chunkStoreID], its columns to the
    buffers [id], ..., [id + blockCount - 1], which become bitmaps. *)
Lemma vdp_run_row stream cw ch cols id data buf v :
  0 < cw → 0 < ch → 0 < cols → 0 ≤ id → id + cols ≤ 65536 →
  cw * ch * cols = chunkSize →
  length buf = readChunk_size →
  ¬ (id ≤ chunkStoreID < id + cols) →
  let v' := Vdp.run v (vdus (row_events stream cw ch cols id data buf)) in
  (∀ k, Vdp.buffers v' !! k
        = if decide (id ≤ k < id + cols)
          then Some (Vdp.group (Z.to_nat cw) (Z.to_nat cols) buf (Z.to_nat (k - id)))
          else if decide (k = chunkStoreID) then Some buf
          else Vdp.buffers v !! k) ∧
  (∀ k, Vdp.bitmaps v' !! k
        = if decide (id ≤ k < id + cols)
          then Some (Vdp.Bitmap cw ch RGBA2222_format)
          else if decide (k = chunkStoreID) then None
          else Vdp.bitmaps v !! k).
Proof.
  intros Hcw Hch Hcols Hid Hmax Hsize Hbuf Hfree.
  unfold row_events. rewrite vdus_app, vdp_run_app.
  set (v1 := Vdp.run v _).
  assert (Hbufs1 : ∀ k, Vdp.buffers v1 !! k
            = if decide (id ≤ k < id + cols)
              then Some (Vdp.group (Z.to_nat cw) (Z.to_nat cols) buf (Z.to_nat (k - id)))
              else if decide (k = chunkStoreID) then Some buf
              else Vdp.buffers v !! k).
  { intros k. unfold v1.
    rewrite !vdus_cons_vdu, vdus_cons_fread, !vdus_cons_vdu, vdus_nil.
    rewrite !vdp_run_cons, vdp_run_nil.
    cbn [Vdp.step Vdp.selected Vdp.buffers Vdp.bitmaps].
    rewrite lookup_insert_eq. cbn [Vdp.buffers].
    rewrite lookup_delete_eq. cbn [default app].
    rewrite split_into_lookup, Z2Nat.id by lia.
    destruct (decide (id ≤ k < id + cols)); [done|].
    rewrite lookup_insert. destruct (decide (chunkStoreID = k)) as [<-|Hne].
    - by rewrite decide_True.
    - rewrite decide_False by done. by rewrite lookup_delete_ne. }
  assert (Hmaps1 : ∀ k, Vdp.bitmaps v1 !! k
            = if decide (k = chunkStoreID) then None else Vdp.bitmaps v !! k).
  { intros k. unfold v1.
    rewrite !vdus_cons_vdu, vdus_cons_fread, !vdus_cons_vdu, vdus_nil.
    rewrite !vdp_run_cons, vdp_run_nil.
    cbn [Vdp.step Vdp.selected Vdp.buffers Vdp.bitmaps].
    rewrite lookup_insert_eq. cbn [Vdp.bitmaps].
    rewrite lookup_delete. destruct (decide (chunkStoreID = k)) as [<-|Hne].
    - by rewrite decide_True.
    - by rewrite decide_False. }
  destruct (vdp_run_bitmaps cw ch id cols v1) as [Hbufs2 Hmaps2]; [lia..| |].
  { intros k Hk. eexists. rewrite Hbufs1, decide_True by done. split; [done|].
    rewrite (group_length _ (Z.to_nat ch)); [nia| |lia..].
    rewrite Hbuf. unfold chunkSize, readChunk_size in *. nia. }
  split.
  - intros k. rewrite Hbufs2. apply Hbufs1.
  - intros k. rewrite Hmaps2, Hmaps1.
    destruct (decide (id ≤ k < id + cols)); [done|]. done.
Qed.

(** All rows: every tile of the rows done is in its buffer and is a bitmap;
    nothing else but the chunk buffer is touched. *)
Lemma vdp_run_rows stream start cw ch cols image v (r : nat) :
  0 < cw → 0 < ch → 0 < cols → 0 ≤ start →
  cw * ch * cols = chunkSize →
  start + Z.of_nat r * cols ≤ 65536 →
  ¬ (start ≤ chunkStoreID < start + Z.of_nat r * cols) →
  (r * Z.to_nat chunkSize ≤ length image)%nat →
  let v' := Vdp.run v (vdus (rows_events stream start cw ch cols
                               ((λ k, (chunk image k, chunk image k)) <$> seq 0 r))) in
  (∀ (r' : nat) c, (r' < r)%nat → 0 ≤ c < cols →
     Vdp.buffers v' !! (start + Z.of_nat r' * cols + c)
     = Some (Vdp.group (Z.to_nat cw) (Z.to_nat cols) (chunk image r') (Z.to_nat c)) ∧
     Vdp.bitmaps v' !! (start + Z.of_nat r' * cols + c)
     = Some (Vdp.Bitmap cw ch RGBA2222_format)) ∧
  (∀ k, ¬ (start ≤ k < start + Z.of_nat r * cols) → k ≠ chunkStoreID →
     Vdp.buffers v' !! k = Vdp.buffers v !! k ∧
     Vdp.bitmaps v' !! k = Vdp.bitmaps v !! k).
Proof.
  intros Hcw Hch Hcols Hstart Hsize. induction r as [|r IH]; intros Hmax Hfree Hlen.
  - simpl. split; [lia|done].
  - destruct IH as [IHtiles IHrest]; [nia|nia|lia|].
    unfold rows_events in *. rewrite seq_S, fmap_app, imap_app, concat_app, vdus_app.
    rewrite vdp_run_app. set (v1 := Vdp.run v _) in *.
    rewrite length_fmap, length_seq. cbn [imap concat fmap list_fmap fst snd].
    rewrite app_nil_r, Nat.add_0_r.
    rewrite uint16_wrap_small by (unfold is_uint16; nia).
    destruct (vdp_run_row stream cw ch cols (start + Z.of_nat r * cols)
                (chunk image r) (chunk image r) v1) as [Hbufs Hmaps];
      [done|done|done|nia|nia|done|apply chunk_length; lia|nia|].
    split.
    + intros r' c Hr' Hc. rewrite Hbufs, Hmaps.
      destruct (decide (r' = r)) as [->|Hne].
      * rewrite !decide_True by lia. split; [|done]. do 3 f_equal. lia.
      * assert (start + Z.of_nat r' * cols + c ≠ chunkStoreID) by nia.
        rewrite !decide_False by (done || nia). apply IHtiles; lia.
    + intros k Hk Hk'. rewrite Hbufs, Hmaps.
      rewrite !decide_False by (done || nia).
      apply IHrest; [nia|done].
Qed.

Lemma vdus_loader_events fileName stream start cw ch cols rows :
  vdus (loader_events fileName stream start cw ch cols rows)
  = vdus (rows_events stream start cw ch cols rows).
Proof.
  unfold loader_events. change (vdus (Fopen ?a ?b ?c :: ?l)) with (vdus l).
  rewrite vdus_app. apply app_nil_r.
Qed.

(** ** C1: what the loader leaves in the coprocessor *)

(** C1, as amended. Let the file hold at least [rowCount * chunkSize] bytes,
    let the counts be at most 255, let a chunk be exactly one row of cells
    ([cellWidth * cellHeight * blockCount = chunkSize], 2048), let the IDs
    [startBitmapID], ..., [startBitmapID + rowCount * blockCount - 1] stay
    below 65536 and let [chunkStoreID], 5000, not be one of them. Then the
    loader returns, and after its commands the coprocessor has, for every
    row [r] and column [c], a bitmap [startBitmapID + r * blockCount + c]
    of [cellWidth] by [cellHeight] pixels whose pixel data is the cell
    ([r], [c]) of the image; no bitmap with another ID, the chunk buffer's
    apart, is created, changed or removed. *)
Theorem load_tiles_fills_bitmaps (fuel : nat) (fileName : string)
    (startBitmapID cellWidth cellHeight rowCount blockCount : Z)
    (image : list byte) (w : world Mos.state) (v : Vdp.state) :
  world_ok w →
  Mos.disk (env w) !! fileName = Some image →
  rowCount * chunkSize ≤ Z.of_nat (length image) →
  is_uint16 startBitmapID → 0 ≤ rowCount ≤ 255 → 0 ≤ blockCount ≤ 255 →
  0 < cellWidth → 0 < cellHeight →
  cellWidth * cellHeight * blockCount = chunkSize →
  startBitmapID + rowCount * blockCount ≤ 65536 →
  ¬ (startBitmapID ≤ chunkStoreID < startBitmapID + rowCount * blockCount) →
  (Z.to_nat rowCount < fuel)%nat → (Z.to_nat blockCount < fuel)%nat →
  ∃ w' l,
    load_tiles_from_file fuel fileName startBitmapID cellWidth cellHeight
      rowCount blockCount w = Done () w' ∧
    out w' = out w ++ l ∧
    let v' := Vdp.run v (vdus l) in
    (∀ r c, 0 ≤ r < rowCount → 0 ≤ c < blockCount →
       Vdp.bitmaps v' !! (startBitmapID + r * blockCount + c)
       = Some (Vdp.Bitmap cellWidth cellHeight RGBA2222_format) ∧
       Vdp.pixels v' (startBitmapID + r * blockCount + c)
       = Some (source_cell image (Z.to_nat cellWidth) (Z.to_nat cellHeight)
                 (Z.to_nat blockCount) (Z.to_nat r) (Z.to_nat c))) ∧
    (∀ id, ¬ (startBitmapID ≤ id < startBitmapID + rowCount * blockCount) →
           id ≠ chunkStoreID →
           Vdp.bitmaps v' !! id = Vdp.bitmaps v !! id).
Proof.
  intros Hw Hfile Hlen Hs Hr Hc Hcw Hch Hsize Hmax Hfree Hfr Hfc.
  assert (Hcols : 0 < blockCount) by (unfold chunkSize in Hsize; nia).
  assert (Hlen' : (Z.to_nat rowCount * Z.to_nat chunkSize ≤ length image)%nat)
    by (unfold chunkSize in *; nia).
  eexists _, _. split; [by apply load_tiles_total|].
  split; [apply after_load_log|]. intros v'. subst v'.
  rewrite vdus_loader_events.
  rewrite (mos_rows_read image); [|done|by apply mos_after_open|done].
  destruct (vdp_run_rows (fopen fileName "r" (env w)).1 startBitmapID cellWidth
              cellHeight blockCount image v (Z.to_nat rowCount))
    as [Htiles Hrest]; [done|done|done|apply Hs|done|..|done|].
  { rewrite Z2Nat.id; lia. }
  { rewrite Z2Nat.id; lia. }
  split.
  - intros r c Hr' Hc'.
    destruct (Htiles (Z.to_nat r) c) as [Hbuf Hmap]; [lia|done|].
    rewrite Z2Nat.id in Hbuf, Hmap by lia. split; [exact Hmap|].
    unfold Vdp.pixels. rewrite Hmap, Hbuf. cbn [Vdp.bm_width Vdp.bm_height].
    f_equal.
    assert (Hnat : Z.to_nat chunkSize
                   = (Z.to_nat cellWidth * Z.to_nat cellHeight * Z.to_nat blockCount)%nat)
      by (rewrite <- Hsize; rewrite !Z2Nat.inj_mul; lia).
    rewrite take_ge.
    + apply group_chunk_cell; [done|nia|lia|lia].
    + rewrite (group_length _ (Z.to_nat cellHeight)); [nia| |lia|lia].
      rewrite chunk_length by nia. unfold readChunk_size.
      fold (Z.to_nat chunkSize) in *. rewrite <- Hnat. done.
  - intros id Hid Hid'. apply Hrest; [rewrite Z2Nat.id; lia|done].
Qed.

Lemma load_tiles_fills_bitmaps_witness :
  ∃ w' l,
    load_tiles_from_file 9 fname 0 16 16 5 8 demo_world = Done () w' ∧
    out w' = out demo_world ++ l ∧
    let v' := Vdp.run Vdp.empty (vdus l) in
    (∀ r c, 0 ≤ r < 5 → 0 ≤ c < 8 →
       Vdp.bitmaps v' !! (0 + r * 8 + c) = Some (Vdp.Bitmap 16 16 RGBA2222_format) ∧
       Vdp.pixels v' (0 + r * 8 + c)
       = Some (source_cell (demo_image 10240) (Z.to_nat 16) (Z.to_nat 16)
                 (Z.to_nat 8) (Z.to_nat r) (Z.to_nat c))) ∧
    (∀ id, ¬ (0 ≤ id < 0 + 5 * 8) → id ≠ chunkStoreID →
           Vdp.bitmaps v' !! id = Vdp.bitmaps Vdp.empty !! id).
Proof.
  apply (load_tiles_fills_bitmaps 9 fname 0 16 16 5 8 (demo_image 10240)
           demo_world Vdp.empty).
  - reflexivity.
  - vm_compute. reflexivity.
  - vm_compute. discriminate.
  - unfold is_uint16. lia.
  - lia.
  - lia.
  - lia.
  - lia.
  - reflexivity.
  - lia.
  - unfold chunkStoreID. lia.
  - vm_compute. lia.
  - vm_compute. lia.
Defined.

(** The claim as written holds for every call. Three calls on the example's
    tile map where it does not:
    - 2 rows of 4 cells of 16 x 16: a chunk is two rows of such cells, and
      bitmap 4, which the claim fills with cell (1, 0), gets cell (2, 0);
    - 1 row of 8 cells from ID 65535: the claim fills bitmap 65536 with
      cell (0, 1), the code converts bitmap 0, and there is no bitmap 65536;
    - 2 rows of 8 cells from ID 4999: bitmap 5000, cell (0, 1), shares its
      ID with the chunk buffer and is cleared with it for the second row. *)
Lemma load_tiles_wrong_cells :
  (∃ w',
     load_tiles_from_file 9 fname 0 16 16 2 4 demo_world = Done () w' ∧
     2 * chunkSize ≤ Z.of_nat (length (demo_image 10240)) ∧
     let v' := Vdp.run Vdp.empty (vdus (out w')) in
     Vdp.pixels v' (0 + 1 * 4 + 0) = Some (source_cell (demo_image 10240) 16 16 4 2 0) ∧
     Vdp.pixels v' (0 + 1 * 4 + 0) ≠ Some (source_cell (demo_image 10240) 16 16 4 1 0)) ∧
  (∃ w',
     load_tiles_from_file 9 fname 65535 16 16 1 8 demo_world = Done () w' ∧
     let v' := Vdp.run Vdp.empty (vdus (out w')) in
     conversions_from 0 (vdus (out w')) !! 1%nat = Some (0, 16, 16, 1) ∧
     Vdp.bitmaps v' !! (65535 + 0 * 8 + 1) = None) ∧
  (∃ w',
     load_tiles_from_file 9 fname 4999 16 16 2 8 demo_world = Done () w' ∧
     let v' := Vdp.run Vdp.empty (vdus (out w')) in
     Vdp.bitmaps v' !! (4999 + 0 * 8 + 1) = None).
Proof.
  split; [|split].
  - eexists. split; [vm_compute; reflexivity|]. split; [vm_compute; discriminate|].
    intros v'.
    assert (Hgot : Vdp.pixels v' (0 + 1 * 4 + 0)
                   = Some (source_cell (demo_image 10240) 16 16 4 2 0))
      by (vm_compute; reflexivity).
    split; [exact Hgot|]. rewrite Hgot. intros Heq.
    apply (f_equal (λ o, default [] o !! 0%nat)) in Heq.
    vm_compute in Heq. discriminate Heq.
  - eexists. split; [vm_compute; reflexivity|]. intros v'.
    split; vm_compute; reflexivity.
  - eexists. split; [vm_compute; reflexivity|]. intros v'.
    vm_compute. reflexivity.
Qed.

(** ** The commands of a run of [main] *)

Lemma plots_from_app_quiet sel (l1 l2 : list vdu) plots :
  forallb (λ c, negb (is_plot c)) l1 = true →
  (∀ sel', plots_from sel' l2 = plots) →
  plots_from sel (l1 ++ l2) = plots.
Proof.
  intros Hl1 Hl2. revert sel Hl1. induction l1 as [|c l1 IH]; intros sel; simpl.
  - intros _. apply Hl2.
  - intros [Hc Hl]%andb_prop. destruct c; try done; by apply IH.
Qed.

Lemma main_prefix_conversions BLUE stream rows sel :
  length rows = 5%nat →
  conversions_from sel (vdus (setup_events BLUE ++ main_loader_events stream rows))
  = (λ id, (id, 16, 16, 1)) <$> seqZ 0 40.
Proof.
  intros Hlen.
  destruct rows as [|r1 [|r2 [|r3 [|r4 [|r5 [|]]]]]]; try discriminate.
  vm_compute. reflexivity.
Qed.

Lemma main_prefix_no_plot BLUE stream rows :
  length rows = 5%nat →
  forallb (λ c, negb (is_plot c))
    (vdus (setup_events BLUE ++ main_loader_events stream rows)) = true.
Proof.
  intros Hlen.
  destruct rows as [|r1 [|r2 [|r3 [|r4 [|r5 [|]]]]]]; try discriminate.
  vm_compute. reflexivity.
Qed.

Lemma main_display_no_conversion :
  forallb (λ c, negb (is_conversion c)) (vdus (display_events 5 8 tileStartID)) = true.
Proof. vm_compute. reflexivity. Qed.

(** Once the loader has returned, the log of [main] splits into a part with
    all the conversions and no plot, and a rest without conversions. *)
Lemma main_log_order BLUE stream rows tail :
  length rows = 5%nat →
  forallb (λ c, negb (is_conversion c)) (vdus tail) = true →
  let l := setup_events BLUE ++ main_loader_events stream rows ++ tail in
  (∀ sel, conversions_from sel (vdus l) = (λ id, (id, 16, 16, 1)) <$> seqZ 0 40) ∧
  (∀ i j p c, vdus l !! i = Some p → vdus l !! j = Some c →
              is_plot p = true → is_conversion c = true → (j < i)%nat).
Proof.
  intros Hlen Hconv l.
  assert (Hl : vdus l = vdus (setup_events BLUE ++ main_loader_events stream rows)
                        ++ vdus tail).
  { unfold l. by rewrite !vdus_app, <- !app_assoc. }
  rewrite Hl. split.
  - intros sel. rewrite conversions_from_app_none by done.
    by apply main_prefix_conversions.
  - intros i j p c. apply conversions_before_plots; [|done].
    by apply main_prefix_no_plot.
Qed.

(** Once the renderer has returned too, the plots are those of the grid. *)
Lemma main_log_plots BLUE stream rows tail sel :
  length rows = 5%nat →
  forallb (λ c, negb (is_plot c)) (vdus tail) = true →
  plots_from sel (vdus (setup_events BLUE ++ main_loader_events stream rows
                        ++ display_events 5 8 tileStartID ++ tail))
  = grid 5 8 tileStartID.
Proof.
  intros Hlen Hplot.
  pose proof (main_prefix_no_plot BLUE stream rows Hlen) as Hquiet.
  assert (Hgrid : ∀ sel', plots_from sel' (vdus (display_events 5 8 tileStartID))
                          = grid 5 8 tileStartID).
  { intros sel'. rewrite vdus_display_events. apply plots_from_cells. }
  rewrite !app_assoc, vdus_app, plots_from_app_none by exact Hplot.
  rewrite vdus_app.
  exact (plots_from_app_quiet sel _ _ _ Hquiet Hgrid).
Qed.

Lemma is_quiet_not_in l :
  forallb is_quiet l = true →
  (∀ key, GetKeyCode key ∉ l) ∧ Vdu (VdpCursorEnable true) ∉ l.
Proof.
  rewrite forallb_forall. intros Hall.
  split; [intros key|]; intros Hin%list_elem_of_In%Hall; done.
Qed.

Lemma main_drawn_quiet BLUE stream rows :
  length rows = 5%nat →
  forallb is_quiet (setup_events BLUE ++ main_loader_events stream rows
                    ++ display_events 5 8 tileStartID) = true.
Proof.
  intros Hlen.
  destruct rows as [|r1 [|r2 [|r3 [|r4 [|r5 [|]]]]]]; try discriminate.
  vm_compute. reflexivity.
Qed.

Lemma loader_events_quiet fileName cw ch cols l :
  Forall (loader_event fileName cw ch cols) l → forallb is_quiet l = true.
Proof.
  induction 1 as [|e l He _ IH]; [done|].
  destruct e as [c| | | |]; simpl; try done. by destruct c.
Qed.

Lemma display_events_quiet l :
  Forall display_event l → forallb is_quiet l = true.
Proof.
  induction 1 as [|e l He _ IH]; [done|].
  destruct e as [c| | | |]; simpl; try done. by destruct c.
Qed.

Lemma polls_not_esc keys : 27 ∉ keys → GetKeyCode 27 ∉ polls_events keys.
Proof.
  intros Hnot (key & [= <-] & Hin)%list_elem_of_fmap. done.
Qed.

Lemma polls_not_vdu keys c : Vdu c ∉ polls_events keys.
Proof. by intros (key & ? & Hin)%list_elem_of_fmap. Qed.

(** ** C2: the grid renderer *)

(** C2, as amended. For every [uint8_t] row and column count and every
    [uint16_t] start ID, [display_tiles] returns and has sent exactly
    [rows * columns] plots, each right after selecting its bitmap, rows
    first and columns within a row: the cell ([r], [c]) is the
    [r * columns + c]-th, its bitmap ID is [startBufferID + r * columns + c]
    reduced modulo 65536 (the ID is a [uint16_t] that is incremented per
    cell), and it is plotted at ([10 + 20 c], [10 + 20 r]). *)
Theorem display_tiles_row_major {E} `{Platform E} (fuel : nat)
    (rows columns startBufferID : Z) (w : world E) :
  is_uint8 rows → is_uint8 columns → is_uint16 startBufferID →
  (Z.to_nat rows < fuel)%nat → (Z.to_nat columns < fuel)%nat →
  ∃ l,
    display_tiles fuel rows columns startBufferID w = Done () (grow w l) ∧
    vdus l = grid rows columns startBufferID ≫= cell_vdus ∧
    (∀ sel, plots_from sel (vdus l) = grid rows columns startBufferID) ∧
    Z.of_nat (length (grid rows columns startBufferID)) = rows * columns ∧
    (∀ r c, 0 ≤ r < rows → 0 ≤ c < columns →
       grid rows columns startBufferID !! Z.to_nat (r * columns + c)
       = Some (uint16_wrap (startBufferID + r * columns + c),
               10 + 20 * c, 10 + 20 * r)).
Proof.
  unfold is_uint8. intros Hr Hc Hs Hfr Hfc.
  exists (display_events rows columns startBufferID). split_and!.
  - apply display_tiles_total; (done || lia).
  - apply vdus_display_events.
  - intros sel. rewrite vdus_display_events. apply plots_from_cells.
  - apply grid_length; lia.
  - intros r c. apply grid_lookup.
Qed.

Lemma display_tiles_row_major_witness :
  ∃ l,
    display_tiles 9 5 8 0 demo_world = Done () (grow demo_world l) ∧
    vdus l = grid 5 8 0 ≫= cell_vdus ∧
    (∀ sel, plots_from sel (vdus l) = grid 5 8 0) ∧
    Z.of_nat (length (grid 5 8 0)) = 5 * 8 ∧
    (∀ r c, 0 ≤ r < 5 → 0 ≤ c < 8 →
       grid 5 8 0 !! Z.to_nat (r * 8 + c)
       = Some (uint16_wrap (0 + r * 8 + c), 10 + 20 * c, 10 + 20 * r)).
Proof.
  apply (display_tiles_row_major 9 5 8 0 demo_world);
    unfold is_uint8, is_uint16; lia.
Defined.

(** The claim as written gives cell (0, 1) of a grid that starts at ID
    65535 the ID 65536; the code selects bitmap 0 for it. *)
Lemma display_tiles_id_wraps :
  ∃ w',
    display_tiles 3 1 2 65535 bare_world = Done () w' ∧
    plots_from 0 (vdus (out w')) !! 1%nat = Some (0, 10 + 20 * 1, 10 + 20 * 0) ∧
    0 ≠ 65535 + 0 * 2 + 1.
Proof. eexists. split; [vm_compute; reflexivity|]. split; [reflexivity|lia]. Qed.

(** ** C3: the program with its constants *)

(** C3, as amended. With the constants of main.c (5 rows, 8 columns, 16 x 16
    cells, 2048-byte chunks, start ID 0) a run of [main] that has reached
    its wait loop has sent exactly 40 conversions, for the bitmaps 0 to 39
    in this order, each 16 x 16 in format 1, and exactly 40 plots: bitmap
    [8 r + c] at ([10 + 20 c], [10 + 20 r]) for the 5 rows and 8 columns.
    A chunk is one row of cells: 2048 = 8 * (16 * 16). *)
Theorem main_creates_and_draws_40 {E} `{Platform E} (BLUE : Z) (fuel : nat)
    (w : world E) :
  world_ok w → (9 ≤ fuel)%nat →
  chunkSize = cellColumns * (cellWidth * cellHeight) ∧
  ∃ l,
    out (final (main BLUE fuel w)) = out w ++ l ∧
    (∀ sel, conversions_from sel (vdus l)
            = (λ id, (id, cellWidth, cellHeight, RGBA2222_format)) <$> seqZ 0 40) ∧
    (∀ sel, plots_from sel (vdus l)
            = seqZ 0 5 ≫= λ r, seqZ 0 8 ≫= λ c,
                [(r * 8 + c, 10 + 20 * c, 10 + 20 * r)]).
Proof.
  intros Hw Hfuel. split; [done|].
  pose proof (main_run BLUE fuel w Hw) as Hrun.
  assert (Hgrid : grid 5 8 tileStartID
                  = seqZ 0 5 ≫= λ r, seqZ 0 8 ≫= λ c,
                      [(r * 8 + c, 10 + 20 * c, 10 + 20 * r)])
    by (vm_compute; reflexivity).
  rewrite <- Hgrid. clear Hgrid.
  destruct (main BLUE fuel w) as [r w'|w'|]; [| |done]; cbn [final].
  - destruct Hrun as [_ (l & Hout & stream & rows & keys & Hlen & Hnot & ->)].
    eexists. split; [exact Hout|].
    assert (Htail : ∀ f, f (VdpSetTextBgColour 0) = true → f VdpClearScreen = true →
              f (VdpCursorEnable true) = true →
              forallb f (vdus (polls_events keys ++ [GetKeyCode 27] ++ teardown_events)) = true).
    { intros f H1 H2 H3. rewrite vdus_app, vdus_polls. simpl. by rewrite H1, H2, H3. }
    split.
    + apply (main_log_order BLUE stream rows
               (display_events 5 8 tileStartID ++ polls_events keys
                ++ [GetKeyCode 27] ++ teardown_events)); [done|].
      rewrite vdus_app, forallb_app, main_display_no_conversion. by apply Htail.
    + intros sel. apply main_log_plots; [done|]. by apply Htail.
  - destruct Hrun as (l & Hout & [[_ ?]|Hwait]); [lia|].
    destruct Hwait as (stream & rows & keys & Hlen & Hnot & _ & ->).
    eexists. split; [exact Hout|]. split.
    + apply (main_log_order BLUE stream rows
               (display_events 5 8 tileStartID ++ polls_events keys)); [done|].
      by rewrite vdus_app, forallb_app, main_display_no_conversion, vdus_polls.
    + intros sel. apply main_log_plots; [done|].
      by rewrite vdus_polls.
Qed.

Lemma main_creates_and_draws_40_witness :
  world_ok demo_world ∧ (9 ≤ 20)%nat ∧
  chunkSize = cellColumns * (cellWidth * cellHeight) ∧
  ∃ l,
    out (final (main 4 20 demo_world)) = out demo_world ++ l ∧
    (∀ sel, conversions_from sel (vdus l)
            = (λ id, (id, cellWidth, cellHeight, RGBA2222_format)) <$> seqZ 0 40) ∧
    (∀ sel, plots_from sel (vdus l)
            = seqZ 0 5 ≫= λ r, seqZ 0 8 ≫= λ c,
                [(r * 8 + c, 10 + 20 * c, 10 + 20 * r)]).
Proof.
  split; [reflexivity|]. split; [lia|].
  apply (main_creates_and_draws_40 4 20 demo_world); [reflexivity|lia].
Defined.

(** The claim as written has 32 bitmaps with IDs 0 to 31: the run on the
    example's tile map converts 40, and bitmap 39 is one of them. *)
Lemma main_creates_more_than_32 :
  let created := conversions_from 0 (vdus (out (final (main 4 20 demo_world)))) in
  length created = 40%nat ∧ created !! 39%nat = Some (39, 16, 16, 1) ∧
  length created ≠ 32%nat.
Proof. vm_compute. split; [reflexivity|]. split; [reflexivity|discriminate]. Qed.

(** ** C5: leaving the wait loop *)

(** C5. [main] never faults. When it has returned, the status is 0 and its
    log ends with polls that did not see 27, one poll that saw 27, and then
    the tidy-up: text background 0, clear screen, cursor on; nothing before
    these polls is a poll or turns the cursor on. As long as it has not
    returned, no poll has seen 27 and the cursor has not been turned on. *)
Theorem main_exits_only_on_esc {E} `{Platform E} (BLUE : Z) (fuel : nat)
    (w : world E) :
  world_ok w →
  match main BLUE fuel w with
  | Done status w' =>
      status = 0 ∧
      ∃ before keys,
        out w' = out w ++ before ++ polls_events keys
                 ++ [GetKeyCode 27;
                     Vdu (VdpSetTextBgColour 0); Vdu VdpClearScreen;
                     Vdu (VdpCursorEnable true)] ∧
        (27 ∉ keys) ∧
        (∀ key, GetKeyCode key ∉ before) ∧
        Vdu (VdpCursorEnable true) ∉ before
  | Timeout w' =>
      ∃ l, out w' = out w ++ l ∧
           (GetKeyCode 27 ∉ l) ∧ Vdu (VdpCursorEnable true) ∉ l
  | Fault _ => False
  end.
Proof.
  intros Hw. pose proof (main_run BLUE fuel w Hw) as Hrun.
  destruct (main BLUE fuel w) as [r w'|w'|]; [| |done].
  - destruct Hrun as [-> (l & Hout & stream & rows & keys & Hlen & Hnot & ->)].
    split; [done|].
    exists (setup_events BLUE ++ main_loader_events stream rows
            ++ display_events 5 8 tileStartID), keys.
    split; [by rewrite Hout, <- !app_assoc|]. split; [done|].
    apply is_quiet_not_in. by apply main_drawn_quiet.
  - destruct Hrun as (l & Hout & [[Hdraw _]|Hwait]); exists l; (split; [done|]).
    + destruct Hdraw as [(l1 & -> & Hall)|(stream & rows & l2 & Hlen & -> & Hall)].
      * assert (Hq : forallb is_quiet (setup_events BLUE ++ l1) = true).
        { rewrite forallb_app. apply andb_true_intro. split; [done|].
          by eapply loader_events_quiet. }
        apply is_quiet_not_in in Hq as [Hq1 Hq2]. by split.
      * assert (Hq : forallb is_quiet
                  (setup_events BLUE ++ main_loader_events stream rows ++ l2) = true).
        { pose proof (main_drawn_quiet BLUE stream rows Hlen) as Hd.
          rewrite !forallb_app in *.
          apply andb_prop in Hd as [-> [-> _]%andb_prop]. simpl.
          by apply display_events_quiet. }
        apply is_quiet_not_in in Hq as [Hq1 Hq2]. by split.
    + destruct Hwait as (stream & rows & keys & Hlen & Hnot & _ & ->).
      pose proof (main_drawn_quiet BLUE stream rows Hlen) as Hd.
      apply is_quiet_not_in in Hd as [Hd1 Hd2].
      replace (setup_events BLUE ++ main_loader_events stream rows
               ++ display_events 5 8 tileStartID ++ polls_events keys)
        with ((setup_events BLUE ++ main_loader_events stream rows
               ++ display_events 5 8 tileStartID) ++ polls_events keys)
        by (by rewrite <- !app_assoc).
      split; rewrite elem_of_app; intros [Hin|Hin].
      * by apply Hd1 in Hin.
      * by apply polls_not_esc in Hin.
      * done.
      * by apply polls_not_vdu in Hin.
Qed.

Lemma main_exits_only_on_esc_witness :
  world_ok demo_world ∧
  (∃ w', main 4 20 demo_world = Done 0 w') ∧
  match main 4 20 demo_world with
  | Done status w' =>
      status = 0 ∧
      ∃ before keys,
        out w' = out demo_world ++ before ++ polls_events keys
                 ++ [GetKeyCode 27;
                     Vdu (VdpSetTextBgColour 0); Vdu VdpClearScreen;
                     Vdu (VdpCursorEnable true)] ∧
        (27 ∉ keys) ∧
        (∀ key, GetKeyCode key ∉ before) ∧
        Vdu (VdpCursorEnable true) ∉ before
  | Timeout w' =>
      ∃ l, out w' = out demo_world ++ l ∧
           (GetKeyCode 27 ∉ l) ∧ Vdu (VdpCursorEnable true) ∉ l
  | Fault _ => False
  end.
Proof.
  split; [reflexivity|]. split; [eexists; vm_compute; reflexivity|].
  apply (main_exits_only_on_esc 4 20 demo_world). reflexivity.
Defined.

(** ** C6: the loader runs before the renderer *)

(** C6. In the commands of every run of [main], finished or not, every
    conversion comes before every plot; and as soon as one plot has been
    sent, all 40 conversions, for the bitmaps 0 to 39, have been sent. *)
Theorem main_converts_before_it_plots {E} `{Platform E} (BLUE : Z) (fuel : nat)
    (w : world E) :
  world_ok w →
  ∃ l,
    out (final (main BLUE fuel w)) = out w ++ l ∧
    (∀ i j p c, vdus l !! i = Some p → vdus l !! j = Some c →
                is_plot p = true → is_conversion c = true → (j < i)%nat) ∧
    ((∃ p, p ∈ vdus l ∧ is_plot p = true) →
     ∀ sel, conversions_from sel (vdus l)
            = (λ id, (id, cellWidth, cellHeight, RGBA2222_format)) <$> seqZ 0 40).
Proof.
  intros Hw. pose proof (main_run BLUE fuel w Hw) as Hrun.
  destruct (main BLUE fuel w) as [r w'|w'|]; [| |done]; simpl.
  - destruct Hrun as [_ (l & Hout & stream & rows & keys & Hlen & Hnot & ->)].
    eexists. split; [exact Hout|].
    destruct (main_log_order BLUE stream rows
                (display_events 5 8 tileStartID ++ polls_events keys
                 ++ [GetKeyCode 27] ++ teardown_events) Hlen) as [Hconv Horder].
    { rewrite vdus_app, forallb_app, main_display_no_conversion.
      by rewrite vdus_app, vdus_polls. }
    split; [exact Horder|]. intros _. exact Hconv.
  - destruct Hrun as (l & Hout & [[Hdraw _]|Hwait]); exists l; (split; [done|]).
    + destruct Hdraw as [(l1 & -> & Hall)|(stream & rows & l2 & Hlen & -> & Hall)].
      * assert (Hno : forallb (λ c, negb (is_plot c)) (vdus (setup_events BLUE ++ l1)) = true).
        { rewrite vdus_app, forallb_app. apply andb_true_intro. split; [done|].
          by eapply loader_events_no_plot. }
        split.
        -- intros i j p c Hi Hj. rewrite <- (app_nil_r (vdus _)) in Hi, Hj.
           exact (conversions_before_plots _ [] i j p c Hno eq_refl Hi Hj).
        -- intros (p & Hin & Hp). rewrite forallb_forall in Hno.
           apply list_elem_of_In, Hno in Hin. by rewrite Hp in Hin.
      * destruct (main_log_order BLUE stream rows l2 Hlen) as [Hconv Horder].
        { by apply display_events_no_conversion. }
        split; [exact Horder|]. intros _. exact Hconv.
    + destruct Hwait as (stream & rows & keys & Hlen & Hnot & _ & ->).
      destruct (main_log_order BLUE stream rows
                  (display_events 5 8 tileStartID ++ polls_events keys) Hlen)
        as [Hconv Horder].
      { by rewrite vdus_app, forallb_app, main_display_no_conversion, vdus_polls. }
      split; [exact Horder|]. intros _. exact Hconv.
Qed.

Lemma main_converts_before_it_plots_witness :
  world_ok demo_world ∧
  ∃ l,
    out (final (main 4 20 demo_world)) = out demo_world ++ l ∧
    (∀ i j p c, vdus l !! i = Some p → vdus l !! j = Some c →
                is_plot p = true → is_conversion c = true → (j < i)%nat) ∧
    ((∃ p, p ∈ vdus l ∧ is_plot p = true) →
     ∀ sel, conversions_from sel (vdus l)
            = (λ id, (id, cellWidth, cellHeight, RGBA2222_format)) <$> seqZ 0 40).
Proof.
  split; [reflexivity|].
  apply (main_converts_before_it_plots 4 20 demo_world). reflexivity.
Defined.

(** ** C4: the steps of the loader *)




(** ** C8: when the loader returns *)

(** C8, as amended. [load_tiles_from_file] returns exactly when [rowCount]
    is at most 255 and, unless there is no row at all, [blockCount] is at
    most 255. A count of 256 or more is never reached by its [uint8_t]
    counter; but with [rowCount = 0] the inner loop is never entered, so
    [blockCount] does not matter. *)
Theorem load_tiles_returns_iff {E} `{Platform E} (fileName : string)
    (startBitmapID cellWidth cellHeight rowCount blockCount : Z) (w : world E) :
  world_ok w → is_uint16 startBitmapID → is_uint16 rowCount → is_uint16 blockCount →
  (∃ fuel, is_done (load_tiles_from_file fuel fileName startBitmapID cellWidth
                      cellHeight rowCount blockCount w))
  ↔ rowCount ≤ 255 ∧ (rowCount = 0 ∨ blockCount ≤ 255).
Proof.
  unfold is_uint16. intros Hw Hs Hr Hc. split.
  - intros [fuel Hdone].
    destruct (decide (rowCount ≤ 255)) as [Hr'|Hr'].
    + split; [done|].
      destruct (decide (rowCount = 0)) as [|Hr0]; [by left|right].
      destruct (decide (blockCount ≤ 255)) as [|Hc']; [done|].
      exfalso. revert Hdone. apply load_tiles_blocks_diverge; [done|lia..].
    + exfalso. revert Hdone. apply load_tiles_rows_diverge. lia.
  - intros [Hr' [->|Hc']].
    + exists 1%nat. apply load_tiles_no_rows.
    + exists 256%nat. rewrite load_tiles_total; [done|done|lia|lia|done|lia..].
Qed.

Lemma load_tiles_returns_iff_witness :
  (∃ fuel, is_done (load_tiles_from_file fuel fname 0 16 16 5 8 demo_world))
  ↔ 5 ≤ 255 ∧ (5 = 0 ∨ 8 ≤ 255).
Proof.
  apply (load_tiles_returns_iff fname 0 16 16 5 8 demo_world);
    [reflexivity | unfold is_uint16; lia..].
Defined.

(** The claim as written makes [blockCount ≤ 255] necessary: with no rows
    and 256 blocks the loader returns. *)
Lemma load_tiles_returns_without_rows :
  (∃ fuel, is_done (load_tiles_from_file fuel fname 0 16 16 0 256 demo_world))
  ∧ ¬ (0 ≤ 255 ∧ 256 ≤ 255).
Proof. split; [exists 1%nat; exact I|lia]. Qed.

(** ** C9: reads stay inside [readChunk] *)

(** C9. [readChunk] has 2048 bytes, which is [chunkSize]. Whatever the
    arguments, the file and the fuel, no run of [load_tiles_from_file]
    faults; each of its reads asks for [1 * chunkSize] bytes and stores at
    most that many, from the start of [readChunk]; and [readChunk] keeps
    its size. *)
Theorem load_tiles_reads_in_bounds {E} `{Platform E} (fuel : nat) (fileName : string)
    (startBitmapID cellWidth cellHeight rowCount blockCount : Z) (w : world E) :
  world_ok w →
  Z.of_nat readChunk_size = chunkSize ∧
  match load_tiles_from_file fuel fileName startBitmapID cellWidth cellHeight
          rowCount blockCount w with
  | Fault _ => False
  | Done _ w' | Timeout w' =>
      length (readChunk w') = readChunk_size ∧
      ∃ l, out w' = out w ++ l ∧
           Forall (λ e, match e with
                        | Fread size count _ data =>
                            size * count = chunkSize ∧
                            (length data ≤ readChunk_size)%nat
                        | _ => True
                        end) l
  end.
Proof.
  intros Hw. split; [done|].
  pose proof (load_tiles_safe (out w) fuel fileName startBitmapID cellWidth cellHeight
                rowCount blockCount w (logged_start _ w Hw)) as Hsafe.
  assert (Himpl : ∀ e, loader_event fileName cellWidth cellHeight blockCount e →
            match e with
            | Fread size count _ data =>
                size * count = chunkSize ∧ (length data ≤ readChunk_size)%nat
            | _ => True
            end).
  { intros [c| | size count stream data| |]; try done. by intros (-> & -> & ?). }
  destruct (load_tiles_from_file _ _ _ _ _ _ _ w) as [[] w'|w'|]; [| |done];
    destruct Hsafe as [Hok (l & Hout & Hall)];
    (split; [done|]); exists l; (split; [done|]); by eapply Forall_impl.
Qed.

Lemma load_tiles_reads_in_bounds_witness :
  world_ok short_world ∧
  Z.of_nat readChunk_size = chunkSize ∧
  match load_tiles_from_file 9 fname 0 16 16 5 8 short_world with
  | Fault _ => False
  | Done _ w' | Timeout w' =>
      length (readChunk w') = readChunk_size ∧
      ∃ l, out w' = out short_world ++ l ∧
           Forall (λ e, match e with
                        | Fread size count _ data =>
                            size * count = chunkSize ∧
                            (length data ≤ readChunk_size)%nat
                        | _ => True
                        end) l
  end.
Proof.
  split; [reflexivity|].
  apply (load_tiles_reads_in_bounds 9 fname 0 16 16 5 8 short_world). reflexivity.
Defined.

(** ** C7: the loader does not look at failures *)

(** C7, as amended. Take two runs of the loader with the same arguments and
    fuel, on any two platforms in any two states in which the file opens:
    it may be complete, short or empty, so that reads come back short.
    Neither run faults, they end the same way (both have returned or
    neither has, and the loader returns no value), they sent the same
    coprocessor commands in the same order, up to the bytes carried by the
    block writes, and all their reads and the close are on an open stream.
    With counts of at most 255 and enough fuel both have returned normally
    and the commands are those of [loader_shape], which the arguments
    fix. *)
Theorem load_tiles_ignores_failures {E1 E2} `{Platform E1} `{Platform E2}
    (fuel : nat) (fileName : string)
    (startBitmapID cellWidth cellHeight rowCount blockCount : Z)
    (w1 : world E1) (w2 : world E2) :
  world_ok w1 → world_ok w2 →
  (fopen fileName "r" (env w1)).1 ≠ NULL →
  (fopen fileName "r" (env w2)).1 ≠ NULL →
  let o1 := load_tiles_from_file fuel fileName startBitmapID cellWidth cellHeight
              rowCount blockCount w1 in
  let o2 := load_tiles_from_file fuel fileName startBitmapID cellWidth cellHeight
              rowCount blockCount w2 in
  match o1, o2 with
  | Done () _, Done () _ | Timeout _, Timeout _ => True
  | _, _ => False
  end ∧
  ∃ l1 l2,
    out (final o1) = out w1 ++ l1 ∧ out (final o2) = out w2 ++ l2 ∧
    vdu_shape <$> vdus l1 = vdu_shape <$> vdus l2 ∧
    Forall (λ e, null_call e = false) l1 ∧ Forall (λ e, null_call e = false) l2 ∧
    (is_uint16 startBitmapID → 0 ≤ rowCount ≤ 255 → 0 ≤ blockCount ≤ 255 →
     (Z.to_nat rowCount < fuel)%nat → (Z.to_nat blockCount < fuel)%nat →
     returns_normally w1 o1 ∧ returns_normally w2 o2 ∧
     vdu_shape <$> vdus l1
     = loader_shape startBitmapID cellWidth cellHeight rowCount blockCount).
Proof.
  intros Hw1 Hw2 Hopen1 Hopen2 o1 o2.
  assert (Hstart : same_commands (out w1) (out w2) w1 w2).
  { split; [done|]. split; [done|]. exists [], []. by rewrite !app_nil_r. }
  pose proof (load_tiles_lockstep (out w1) (out w2) fuel fileName fileName
                startBitmapID cellWidth cellHeight rowCount blockCount w1 w2 Hstart)
    as Hstep.
  fold o1 o2 in Hstep.
  assert (Hlogs : alike eq (same_commands (out w1) (out w2)) o1 o2 →
            ∃ l1 l2, out (final o1) = out w1 ++ l1 ∧ out (final o2) = out w2 ++ l2 ∧
                     vdu_shape <$> vdus l1 = vdu_shape <$> vdus l2).
  { destruct o1, o2; simpl; try done.
    - intros [_ (_ & _ & l1 & l2 & ?)]. by exists l1, l2.
    - intros (_ & _ & l1 & l2 & ?). by exists l1, l2. }
  destruct (Hlogs Hstep) as (l1 & l2 & Hout1 & Hout2 & Hshape).
  assert (Hopened : ∀ stream l, stream ≠ NULL → Forall (on_stream stream) l →
            Forall (λ e, null_call e = false) (Fopen fileName "r" stream :: l)).
  { intros stream l Hstream Hl. constructor; [done|].
    eapply Forall_impl; [exact Hl|]. intros [| | | |] He; try done.
    - simpl in *. subst. by apply bool_decide_eq_false.
    - simpl in *. subst. by apply bool_decide_eq_false. }
  assert (Hdef1 : Forall (λ e, null_call e = false) l1).
  { destruct (load_tiles_on_stream fuel fileName startBitmapID cellWidth cellHeight
                rowCount blockCount w1 Hw1) as (l & Hout & Hl).
    fold o1 in Hout. rewrite Hout1 in Hout. apply app_inv_head in Hout as ->.
    by apply Hopened. }
  assert (Hdef2 : Forall (λ e, null_call e = false) l2).
  { destruct (load_tiles_on_stream fuel fileName startBitmapID cellWidth cellHeight
                rowCount blockCount w2 Hw2) as (l & Hout & Hl).
    fold o2 in Hout. rewrite Hout2 in Hout. apply app_inv_head in Hout as ->.
    by apply Hopened. }
  split.
  - destruct o1 as [[] ?| |], o2 as [[] ?| |]; done.
  - exists l1, l2. split; [done|]. split; [done|]. split; [done|].
    split; [done|]. split; [done|].
    intros Hs Hr Hc Hfr Hfc.
    pose proof (load_tiles_total fuel fileName startBitmapID cellWidth cellHeight
                  rowCount blockCount w1 Hw1 Hr Hc Hs Hfr Hfc) as Hrun1.
    pose proof (load_tiles_total fuel fileName startBitmapID cellWidth cellHeight
                  rowCount blockCount w2 Hw2 Hr Hc Hs Hfr Hfc) as Hrun2.
    fold o1 in Hrun1. fold o2 in Hrun2.
    split; [|split].
    + split; [by rewrite Hrun1|]. by exists l1.
    + split; [by rewrite Hrun2|]. by exists l2.
    + rewrite Hrun1 in Hout1. cbn [final] in Hout1.
      rewrite after_load_log in Hout1. apply app_inv_head in Hout1 as <-.
      rewrite loader_events_shape, rows_read_length. by rewrite Z2Nat.id by lia.
Qed.

(** A run with the tile map on disk against a run whose file ends in the
    second row. *)
Lemma load_tiles_ignores_failures_witness :
  (world_ok demo_world ∧ world_ok short_world ∧
   (fopen fname "r" (env demo_world)).1 ≠ NULL ∧
   (fopen fname "r" (env short_world)).1 ≠ NULL) ∧
  (let o1 := load_tiles_from_file 9 fname 0 16 16 5 8 demo_world in
   let o2 := load_tiles_from_file 9 fname 0 16 16 5 8 short_world in
   match o1, o2 with
   | Done () _, Done () _ | Timeout _, Timeout _ => True
   | _, _ => False
   end ∧
   ∃ l1 l2,
     out (final o1) = out demo_world ++ l1 ∧ out (final o2) = out short_world ++ l2 ∧
     vdu_shape <$> vdus l1 = vdu_shape <$> vdus l2 ∧
     Forall (λ e, null_call e = false) l1 ∧ Forall (λ e, null_call e = false) l2 ∧
     (is_uint16 0 → 0 ≤ 5 ≤ 255 → 0 ≤ 8 ≤ 255 →
      (Z.to_nat 5 < 9)%nat → (Z.to_nat 8 < 9)%nat →
      returns_normally demo_world o1 ∧ returns_normally short_world o2 ∧
      vdu_shape <$> vdus l1 = loader_shape 0 16 16 5 8)).
Proof.
  split; [split_and!; [reflexivity|reflexivity|vm_compute; lia|vm_compute; lia]|].
  apply (load_tiles_ignores_failures 9 fname 0 16 16 5 8 demo_world short_world);
    [reflexivity|reflexivity|vm_compute; lia|vm_compute; lia].
Defined.

(** The claim as written covers a missing file. There [fopen] returns the
    null pointer, which the loader does not look at: the first thing it
    does after clearing the chunk buffer is [fread] on the null stream, and
    the last is [fclose] on it. C leaves both undefined, so this is no run
    that returns normally. *)
Lemma load_tiles_missing_file_null_stream :
  let o := load_tiles_from_file 9 fname 0 16 16 5 8 bare_world in
  (fopen fname "r" (env bare_world)).1 = NULL ∧
  out (final o) !! 0%nat = Some (Fopen fname "r" NULL) ∧
  out (final o) !! 2%nat = Some (Fread 1 chunkSize NULL []) ∧
  last (out (final o)) = Some (Fclose NULL) ∧
  ¬ returns_normally bare_world o.
Proof.
  intros o.
  assert (Hread : out (final o) !! 2%nat = Some (Fread 1 chunkSize NULL []))
    by (vm_compute; reflexivity).
  split_and!; [vm_compute; reflexivity..|exact Hread|vm_compute; reflexivity|].
  intros [_ (l & Hout & Hall)]. change (out bare_world ++ l) with l in Hout.
  rewrite Hout in Hread. rewrite Forall_lookup in Hall.
  by specialize (Hall _ _ Hread).
Qed.

(** ** C10: the chunk buffer is not a tile *)

(** C10, as amended. With the constants of main.c the loader returns; the
    IDs it assigns to tiles, as targets of a split or as selected bitmaps,
    are exactly 0 to 39; the only buffer it clears, writes or splits is
    [chunkStoreID], 5000; so no tile ID is the chunk buffer. *)
Theorem loader_tiles_avoid_chunk_store {E} `{Platform E} (fuel : nat) (w : world E) :
  world_ok w → (9 ≤ fuel)%nat →
  ∃ w' l,
    load_tiles_from_file fuel fname tileStartID cellWidth cellHeight cellRows
      cellColumns w = Done () w' ∧
    out w' = out w ++ l ∧
    (∀ id, id ∈ vdus l ≫= tile_ids ↔ 0 ≤ id ≤ 39) ∧
    (∀ id, id ∈ vdus l ≫= chunk_ids ↔ id = chunkStoreID) ∧
    chunkStoreID ∉ vdus l ≫= tile_ids.
Proof.
  intros Hw Hfuel. eexists _, _.
  split; [apply load_tiles_total; try done; unfold cellRows, cellColumns; lia|].
  split; [apply after_load_log|].
  generalize (fopen fname "r" (env w)).1. intros stream.
  pose proof (rows_read_length (Z.to_nat cellRows) stream tileStartID cellWidth
                cellHeight cellColumns (after_open fname w)) as Hlen.
  revert Hlen. generalize (rows_read (Z.to_nat cellRows) stream tileStartID cellWidth
                             cellHeight cellColumns (after_open fname w)).
  intros rows Hlen.
  destruct rows as [|r1 [|r2 [|r3 [|r4 [|r5 [|]]]]]]; try discriminate. clear Hlen.
  set (tiles := vdus _ ≫= tile_ids). set (chunks := vdus _ ≫= chunk_ids).
  vm_compute in tiles. vm_compute in chunks. subst tiles chunks.
  assert (Hin : Forall (λ id, 0 ≤ id ≤ 39)
            [0; 1; 2; 3; 4; 5; 6; 7; 0; 1; 2; 3; 4; 5; 6; 7;
             8; 9; 10; 11; 12; 13; 14; 15; 8; 9; 10; 11; 12; 13; 14; 15;
             16; 17; 18; 19; 20; 21; 22; 23; 16; 17; 18; 19; 20; 21; 22; 23;
             24; 25; 26; 27; 28; 29; 30; 31; 24; 25; 26; 27; 28; 29; 30; 31;
             32; 33; 34; 35; 36; 37; 38; 39; 32; 33; 34; 35; 36; 37; 38; 39])
    by (repeat constructor; lia).
  rewrite Forall_forall in Hin.
  split_and!.
  - intros id. split; [apply Hin|]. intros Hid.
    assert (id ∈ seqZ 0 40) as Hseq by (apply elem_of_seqZ; lia).
    revert Hseq. vm_compute (seqZ 0 40). rewrite !elem_of_cons, elem_of_nil.
    intros Hcases. decompose [or] Hcases; subst; try done;
      repeat (first [left; reflexivity | right]).
  - intros id. rewrite !elem_of_cons, elem_of_nil. unfold chunkStoreID. lia.
  - intros Hin'%Hin. unfold chunkStoreID in Hin'. lia.
Qed.

Lemma loader_tiles_avoid_chunk_store_witness :
  world_ok demo_world ∧
  ∃ w' l,
    load_tiles_from_file 9 fname tileStartID cellWidth cellHeight cellRows
      cellColumns demo_world = Done () w' ∧
    out w' = out demo_world ++ l ∧
    (∀ id, id ∈ vdus l ≫= tile_ids ↔ 0 ≤ id ≤ 39) ∧
    (∀ id, id ∈ vdus l ≫= chunk_ids ↔ id = chunkStoreID) ∧
    chunkStoreID ∉ vdus l ≫= tile_ids.
Proof.
  split; [reflexivity|].
  apply (loader_tiles_avoid_chunk_store 9 demo_world); [reflexivity|lia].
Defined.

(** The claim as written has the tile IDs end at 31: the loader also
    selects and converts bitmap 39. *)
Lemma loader_assigns_tile_39 :
  ∃ w',
    load_tiles_from_file 9 fname tileStartID cellWidth cellHeight cellRows
      cellColumns demo_world = Done () w' ∧
    39 ∈ vdus (out w') ≫= tile_ids ∧ ¬ (0 ≤ 39 ≤ 31).
Proof.
  eexists. split; [vm_compute; reflexivity|]. split; [|lia].
  apply (bool_decide_unpack _). vm_compute. exact I.
Qed.

(** ** Tiles and cells: counting and telling apart *)

Lemma uint16_wrap_inj s k k' :
  0 ≤ k < 65536 → 0 ≤ k' < 65536 →
  uint16_wrap (s + k) = uint16_wrap (s + k') → k = k'.
Proof.
  unfold uint16_wrap. intros Hk Hk' Heq.
  pose proof (Z.div_mod (s + k) 65536 ltac:(lia)) as H1.
  pose proof (Z.div_mod (s + k') 65536 ltac:(lia)) as H2.
  rewrite Heq in H1.
  assert ((s + k) `div` 65536 = (s + k') `div` 65536) by lia. lia.
Qed.

(** Cells of a grid are told apart by whatever tells rows and columns
    apart. *)
Lemma NoDup_cells {B} (g : Z → Z → B) (rows columns : Z) :
  (∀ r c r' c',
     0 ≤ r < rows → 0 ≤ c < columns → 0 ≤ r' < rows → 0 ≤ c' < columns →
     g r c = g r' c' → r = r' ∧ c = c') →
  NoDup (seqZ 0 rows ≫= λ r, seqZ 0 columns ≫= λ c, [g r c]).
Proof.
  intros Hinj. apply NoDup_bind; [| |apply NoDup_seqZ].
  - intros r r' y Hr%elem_of_seqZ Hr'%elem_of_seqZ.
    intros (c & ->%list_elem_of_singleton & Hc%elem_of_seqZ)%list_elem_of_bind.
    intros (c' & Heq%list_elem_of_singleton & Hc'%elem_of_seqZ)%list_elem_of_bind.
    by destruct (Hinj r c r' c') as [-> _]; [lia..|done|].
  - intros r Hr%elem_of_seqZ. apply NoDup_bind; [| |apply NoDup_seqZ].
    + intros c c' y Hc%elem_of_seqZ Hc'%elem_of_seqZ.
      intros ->%list_elem_of_singleton Heq%list_elem_of_singleton.
      by destruct (Hinj r c r c') as [_ ->]; [lia..|done|].
    + intros c _. apply NoDup_singleton.
Qed.

Lemma cell_index_inj (columns r c r' c' : Z) :
  0 ≤ c < columns → 0 ≤ c' < columns → 0 ≤ r → 0 ≤ r' →
  r * columns + c = r' * columns + c' → r = r' ∧ c = c'.
Proof. intros Hc Hc' Hr Hr' Heq. assert (r = r') by nia. subst. lia. Qed.

(** With counts of at most 255 a grid has fewer than 65536 cells, so the
    16-bit IDs of its cells differ, wrapped or not. *)
Lemma cell_ids_inj (start rows columns r c r' c' : Z) :
  0 ≤ rows ≤ 255 → 0 ≤ columns ≤ 255 →
  0 ≤ r < rows → 0 ≤ c < columns → 0 ≤ r' < rows → 0 ≤ c' < columns →
  uint16_wrap (start + r * columns + c) = uint16_wrap (start + r' * columns + c') →
  r = r' ∧ c = c'.
Proof.
  intros Hrows Hcols Hr Hc Hr' Hc' Heq.
  rewrite <- !Z.add_assoc in Heq. apply uint16_wrap_inj in Heq; [|nia..].
  apply (cell_index_inj columns); lia.
Qed.

Lemma elem_of_grid rows columns start p :
  p ∈ grid rows columns start ↔
  ∃ r c, 0 ≤ r < rows ∧ 0 ≤ c < columns ∧
         p = (uint16_wrap (start + r * columns + c), 10 + 20 * c, 10 + 20 * r).
Proof.
  unfold grid. rewrite list_elem_of_bind. split.
  - intros (r & (c & ->%list_elem_of_singleton & Hc%elem_of_seqZ)%list_elem_of_bind
              & Hr%elem_of_seqZ).
    exists r, c. split; [lia|]. split; [lia|done].
  - intros (r & c & Hr & Hc & ->). exists r. split; [|apply elem_of_seqZ; lia].
    apply list_elem_of_bind. exists c. split; [by apply list_elem_of_singleton|].
    apply elem_of_seqZ. lia.
Qed.

Lemma grid_positions rows columns start :
  (λ p : Z * Z * Z, (p.1.2, p.2)) <$> grid rows columns start
  = seqZ 0 rows ≫= λ r, seqZ 0 columns ≫= λ c, [(10 + 20 * c, 10 + 20 * r)].
Proof.
  unfold grid. rewrite fmap_list_bind. apply list_bind_ext; [|done]. intros r.
  by rewrite fmap_list_bind.
Qed.

Lemma grid_ids rows columns start :
  (λ p : Z * Z * Z, p.1.1) <$> grid rows columns start
  = seqZ 0 rows ≫= λ r, seqZ 0 columns ≫= λ c,
      [uint16_wrap (start + r * columns + c)].
Proof.
  unfold grid. rewrite fmap_list_bind. apply list_bind_ext; [|done]. intros r.
  by rewrite fmap_list_bind.
Qed.

Lemma tiles_ids start cw ch rows cols :
  (λ t : Z * Z * Z * Z, t.1.1.1) <$> tiles start cw ch rows cols
  = seqZ 0 rows ≫= λ r, seqZ 0 cols ≫= λ c, [uint16_wrap (start + r * cols + c)].
Proof.
  unfold tiles. rewrite fmap_list_bind. apply list_bind_ext; [|done]. intros r.
  by rewrite fmap_list_bind.
Qed.

Lemma tiles_length start cw ch rows cols :
  0 ≤ rows → 0 ≤ cols →
  Z.of_nat (length (tiles start cw ch rows cols)) = rows * cols.
Proof.
  intros Hr Hc. unfold tiles.
  rewrite (length_bind_blocks _ (Z.to_nat cols)); [nia| |done].
  intros r _. rewrite (length_bind_blocks _ 1); [lia|done..].
Qed.

Lemma tiles_lookup start cw ch rows cols r c :
  0 ≤ r < rows → 0 ≤ c < cols →
  tiles start cw ch rows cols !! Z.to_nat (r * cols + c)
  = Some (uint16_wrap (start + r * cols + c), cw, ch, RGBA2222_format).
Proof.
  intros Hr Hc. unfold tiles.
  replace (Z.to_nat (r * cols + c))
    with (Z.to_nat r * Z.to_nat cols + Z.to_nat c)%nat by nia.
  rewrite (lookup_bind_blocks _ (Z.to_nat cols)); [|intros i _|done|lia].
  - replace (Z.to_nat c) with (Z.to_nat c * 1 + 0)%nat by lia.
    by rewrite (lookup_bind_blocks _ 1); [|done..|lia].
  - rewrite (length_bind_blocks _ 1); [lia|done|lia].
Qed.

(** ** The conversions of the loader, for all arguments *)

Lemma conversions_from_tiles sel (ts : list (Z * Z * Z * Z)) :
  conversions_from sel (ts ≫= tile_vdus) = ts.
Proof.
  revert sel. induction ts as [|[[[id w] h] f] ts IH]; intros sel; [done|].
  rewrite bind_cons. simpl. by rewrite IH.
Qed.

Lemma conversions_from_app_fixed sel (l1 l2 : list vdu) ts :
  (∀ sel', conversions_from sel' l2 = ts) →
  conversions_from sel (l1 ++ l2) = conversions_from sel l1 ++ ts.
Proof.
  intros Hl2. revert sel. induction l1 as [|c l1 IH]; intros sel; simpl.
  - apply Hl2.
  - destruct c; rewrite ?IH; done.
Qed.

Lemma conversions_bitmap_events sel cw ch id n :
  conversions_from sel (vdus (bitmap_events cw ch id n))
  = seqZ 0 n ≫= λ c, [(uint16_wrap (id + c), cw, ch, RGBA2222_format)].
Proof.
  unfold bitmap_events. rewrite vdus_bind.
  rewrite <- (conversions_from_tiles sel
                (seqZ 0 n ≫= λ c, [(uint16_wrap (id + c), cw, ch, RGBA2222_format)])).
  f_equal. rewrite list_bind_bind. by apply list_bind_ext.
Qed.

Lemma conversions_rows_events sel stream start cw ch n rows :
  conversions_from sel (vdus (rows_events stream start cw ch n rows))
  = tiles start cw ch (Z.of_nat (length rows)) n.
Proof.
  unfold rows_events, tiles.
  induction rows as [|row rows IH] using rev_ind; [done|].
  rewrite imap_app, concat_app, vdus_app, length_app.
  rewrite Nat2Z.inj_add. change (Z.of_nat (length [row])) with 1.
  rewrite bind_seqZ_snoc by lia.
  rewrite (conversions_from_app_fixed _ _ _
             (seqZ 0 n ≫= λ c,
                [(uint16_wrap (start + Z.of_nat (length rows) * n + c),
                  cw, ch, RGBA2222_format)])).
  - by rewrite IH.
  - intros sel'. cbn [imap concat]. rewrite app_nil_r, Nat.add_0_r.
    unfold row_events. rewrite vdus_app.
    change (conversions_from sel' (vdus ?l ++ ?k))
      with (conversions_from sel' k) at 1.
    rewrite conversions_bitmap_events. apply list_bind_ext; [|done].
    intros c. by rewrite uint16_wrap_add_l.
Qed.

(** ** More on the renderer *)

(** X1. The positions [display_tiles] plots at stay small: for [uint8_t]
    counts, [x] is between 10 and [10 + 20 (columns - 1)], [y] between 10
    and [10 + 20 (rows - 1)], both at most 5090. So [10 + cLoop * 20] and
    [10 + rLoop * 20] never leave the range of a 16-bit [int]. *)
Theorem display_tiles_positions_fit {E} `{Platform E} (fuel : nat)
    (rows columns startBufferID : Z) (w : world E) :
  is_uint8 rows → is_uint8 columns → is_uint16 startBufferID →
  (Z.to_nat rows < fuel)%nat → (Z.to_nat columns < fuel)%nat →
  ∃ l,
    display_tiles fuel rows columns startBufferID w = Done () (grow w l) ∧
    ∀ sel id x y, (id, x, y) ∈ plots_from sel (vdus l) →
      10 ≤ x ≤ 10 + 20 * (columns - 1) ∧ 10 ≤ y ≤ 10 + 20 * (rows - 1) ∧
      x ≤ 5090 ∧ y ≤ 5090 ∧ x < 2 ^ 15 ∧ y < 2 ^ 15.
Proof.
  unfold is_uint8. intros Hr Hc Hs Hfr Hfc.
  exists (display_events rows columns startBufferID).
  split; [apply display_tiles_total; (done || lia)|].
  intros sel id x y. rewrite vdus_display_events, plots_from_cells.
  intros (r & c & Hr' & Hc' & [= -> -> ->])%elem_of_grid. lia.
Qed.

Lemma display_tiles_positions_fit_witness :
  ∃ l,
    display_tiles 256 255 255 65535 bare_world = Done () (grow bare_world l) ∧
    ∀ sel id x y, (id, x, y) ∈ plots_from sel (vdus l) →
      10 ≤ x ≤ 10 + 20 * (255 - 1) ∧ 10 ≤ y ≤ 10 + 20 * (255 - 1) ∧
      x ≤ 5090 ∧ y ≤ 5090 ∧ x < 2 ^ 15 ∧ y < 2 ^ 15.
Proof.
  apply (display_tiles_positions_fit 256 255 255 65535 bare_world);
    unfold is_uint8, is_uint16; lia.
Defined.

(** X2. [display_tiles] never plots twice at the same position: the cells
    of the grid do not overlap. *)
Theorem display_tiles_positions_differ {E} `{Platform E} (fuel : nat)
    (rows columns startBufferID : Z) (w : world E) :
  is_uint8 rows → is_uint8 columns → is_uint16 startBufferID →
  (Z.to_nat rows < fuel)%nat → (Z.to_nat columns < fuel)%nat →
  ∃ l,
    display_tiles fuel rows columns startBufferID w = Done () (grow w l) ∧
    ∀ sel, NoDup ((λ p : Z * Z * Z, (p.1.2, p.2)) <$> plots_from sel (vdus l)).
Proof.
  unfold is_uint8. intros Hr Hc Hs Hfr Hfc.
  exists (display_events rows columns startBufferID).
  split; [apply display_tiles_total; (done || lia)|].
  intros sel. rewrite vdus_display_events, plots_from_cells, grid_positions.
  apply NoDup_cells. intros r c r' c' _ _ _ _ [= ? ?]. lia.
Qed.

Lemma display_tiles_positions_differ_witness :
  ∃ l,
    display_tiles 9 5 8 0 demo_world = Done () (grow demo_world l) ∧
    ∀ sel, NoDup ((λ p : Z * Z * Z, (p.1.2, p.2)) <$> plots_from sel (vdus l)).
Proof.
  apply (display_tiles_positions_differ 9 5 8 0 demo_world);
    unfold is_uint8, is_uint16; lia.
Defined.

(** X3. [display_tiles] never plots the same bitmap twice, also when the
    16-bit ID wraps: a grid of [uint8_t] counts has at most 255 * 255 cells,
    fewer than there are IDs. *)
Theorem display_tiles_ids_differ {E} `{Platform E} (fuel : nat)
    (rows columns startBufferID : Z) (w : world E) :
  is_uint8 rows → is_uint8 columns → is_uint16 startBufferID →
  (Z.to_nat rows < fuel)%nat → (Z.to_nat columns < fuel)%nat →
  ∃ l,
    display_tiles fuel rows columns startBufferID w = Done () (grow w l) ∧
    ∀ sel, NoDup ((λ p : Z * Z * Z, p.1.1) <$> plots_from sel (vdus l)).
Proof.
  unfold is_uint8. intros Hr Hc Hs Hfr Hfc.
  exists (display_events rows columns startBufferID).
  split; [apply display_tiles_total; (done || lia)|].
  intros sel. rewrite vdus_display_events, plots_from_cells, grid_ids.
  apply NoDup_cells. intros r c r' c' Hr' Hc' Hr'' Hc''.
  apply (cell_ids_inj startBufferID rows columns); lia.
Qed.

Lemma display_tiles_ids_differ_witness :
  ∃ l,
    display_tiles 9 5 8 65530 demo_world = Done () (grow demo_world l) ∧
    ∀ sel, NoDup ((λ p : Z * Z * Z, p.1.1) <$> plots_from sel (vdus l)).
Proof.
  apply (display_tiles_ids_differ 9 5 8 65530 demo_world);
    unfold is_uint8, is_uint16; lia.
Defined.

(** X4. Whatever its arguments and however far it gets, [display_tiles]
    only selects bitmaps and plots: it opens, reads and closes no file,
    polls no key, sends no other command and never faults. *)
Theorem display_tiles_only_selects_and_plots {E} `{Platform E} (fuel : nat)
    (rows columns startBufferID : Z) (w : world E) :
  world_ok w →
  match display_tiles fuel rows columns startBufferID w with
  | Fault _ => False
  | Done _ w' | Timeout w' =>
      world_ok w' ∧ ∃ l, out w' = out w ++ l ∧ Forall display_event l
  end.
Proof.
  intros Hw.
  pose proof (display_tiles_safe (out w) fuel rows columns startBufferID w
                (logged_start _ w Hw)) as Hsafe.
  by destruct (display_tiles fuel rows columns startBufferID w) as [[] w'|w'|].
Qed.

Lemma display_tiles_only_selects_and_plots_witness :
  world_ok demo_world ∧
  match display_tiles 3 5 8 0 demo_world with
  | Fault _ => False
  | Done _ w' | Timeout w' =>
      world_ok w' ∧ ∃ l, out w' = out demo_world ++ l ∧ Forall display_event l
  end.
Proof.
  split; [reflexivity|].
  apply (display_tiles_only_selects_and_plots 3 5 8 0 demo_world). reflexivity.
Defined.

(** ** More on the loader *)

(** X5. For all arguments with counts of at most 255, on every platform and
    whatever the file holds, [load_tiles_from_file] converts exactly
    [rowCount * blockCount] bitmaps: the conversion number
    [r * blockCount + c] is for the ID [startBitmapID + r * blockCount + c]
    modulo 65536, with the cell dimensions it was given and format 1. *)
Theorem load_tiles_converts_row_major {E} `{Platform E} (fuel : nat)
    (fileName : string)
    (startBitmapID cellWidth cellHeight rowCount blockCount : Z) (w : world E) :
  world_ok w → is_uint16 startBitmapID →
  0 ≤ rowCount ≤ 255 → 0 ≤ blockCount ≤ 255 →
  (Z.to_nat rowCount < fuel)%nat → (Z.to_nat blockCount < fuel)%nat →
  ∃ w' l,
    load_tiles_from_file fuel fileName startBitmapID cellWidth cellHeight
      rowCount blockCount w = Done () w' ∧
    out w' = out w ++ l ∧
    (∀ sel, conversions_from sel (vdus l)
            = tiles startBitmapID cellWidth cellHeight rowCount blockCount) ∧
    Z.of_nat (length (tiles startBitmapID cellWidth cellHeight rowCount blockCount))
    = rowCount * blockCount ∧
    (∀ r c, 0 ≤ r < rowCount → 0 ≤ c < blockCount →
       tiles startBitmapID cellWidth cellHeight rowCount blockCount
         !! Z.to_nat (r * blockCount + c)
       = Some (uint16_wrap (startBitmapID + r * blockCount + c),
               cellWidth, cellHeight, RGBA2222_format)).
Proof.
  intros Hw Hs Hr Hc Hfr Hfc. eexists _, _.
  split; [by apply load_tiles_total|]. split; [apply after_load_log|].
  split; [|split].
  - intros sel. rewrite vdus_loader_events, conversions_rows_events.
    by rewrite rows_read_length, Z2Nat.id by lia.
  - apply tiles_length; lia.
  - intros r c. apply tiles_lookup.
Qed.

Lemma load_tiles_converts_row_major_witness :
  ∃ w' l,
    load_tiles_from_file 9 fname 65530 16 16 5 8 short_world = Done () w' ∧
    out w' = out short_world ++ l ∧
    (∀ sel, conversions_from sel (vdus l) = tiles 65530 16 16 5 8) ∧
    Z.of_nat (length (tiles 65530 16 16 5 8)) = 5 * 8 ∧
    (∀ r c, 0 ≤ r < 5 → 0 ≤ c < 8 →
       tiles 65530 16 16 5 8 !! Z.to_nat (r * 8 + c)
       = Some (uint16_wrap (65530 + r * 8 + c), 16, 16, RGBA2222_format)).
Proof.
  apply (load_tiles_converts_row_major 9 fname 65530 16 16 5 8 short_world);
    [reflexivity | unfold is_uint16; lia | lia..].
Defined.

(** X6. With counts of at most 255 the loader never converts the same
    bitmap ID twice, wrapped or not: no tile replaces an earlier one. *)
Theorem load_tiles_ids_differ {E} `{Platform E} (fuel : nat) (fileName : string)
    (startBitmapID cellWidth cellHeight rowCount blockCount : Z) (w : world E) :
  world_ok w → is_uint16 startBitmapID →
  0 ≤ rowCount ≤ 255 → 0 ≤ blockCount ≤ 255 →
  (Z.to_nat rowCount < fuel)%nat → (Z.to_nat blockCount < fuel)%nat →
  ∃ w' l,
    load_tiles_from_file fuel fileName startBitmapID cellWidth cellHeight
      rowCount blockCount w = Done () w' ∧
    out w' = out w ++ l ∧
    ∀ sel, NoDup ((λ t : Z * Z * Z * Z, t.1.1.1) <$> conversions_from sel (vdus l)).
Proof.
  intros Hw Hs Hr Hc Hfr Hfc. eexists _, _.
  split; [by apply load_tiles_total|]. split; [apply after_load_log|].
  intros sel. rewrite vdus_loader_events, conversions_rows_events.
  rewrite rows_read_length, Z2Nat.id by lia. rewrite tiles_ids.
  apply NoDup_cells. intros r c r' c' Hr' Hc' Hr'' Hc''.
  apply (cell_ids_inj startBitmapID rowCount blockCount); lia.
Qed.

Lemma load_tiles_ids_differ_witness :
  ∃ w' l,
    load_tiles_from_file 9 fname 65530 16 16 5 8 demo_world = Done () w' ∧
    out w' = out demo_world ++ l ∧
    ∀ sel, NoDup ((λ t : Z * Z * Z * Z, t.1.1.1) <$> conversions_from sel (vdus l)).
Proof.
  apply (load_tiles_ids_differ 9 fname 65530 16 16 5 8 demo_world);
    [reflexivity | unfold is_uint16; lia | lia..].
Defined.

(** X7. Loader and renderer agree: called with the same start ID and the
    same counts (at most 255), [display_tiles] plots the bitmaps in exactly
    the order in which [load_tiles_from_file] converted them. *)
Theorem display_follows_load {E} `{Platform E} (fuel : nat) (fileName : string)
    (startBitmapID cellWidth cellHeight rowCount blockCount : Z) (w : world E) :
  world_ok w → is_uint16 startBitmapID →
  0 ≤ rowCount ≤ 255 → 0 ≤ blockCount ≤ 255 →
  (Z.to_nat rowCount < fuel)%nat → (Z.to_nat blockCount < fuel)%nat →
  ∃ w1 l1 l2,
    load_tiles_from_file fuel fileName startBitmapID cellWidth cellHeight
      rowCount blockCount w = Done () w1 ∧
    out w1 = out w ++ l1 ∧
    display_tiles fuel rowCount blockCount startBitmapID w1 = Done () (grow w1 l2) ∧
    ∀ sel sel',
      (λ p : Z * Z * Z, p.1.1) <$> plots_from sel' (vdus l2)
      = (λ t : Z * Z * Z * Z, t.1.1.1) <$> conversions_from sel (vdus l1).
Proof.
  intros Hw Hs Hr Hc Hfr Hfc. eexists _, _, _.
  split; [by apply load_tiles_total|]. split; [apply after_load_log|].
  split; [by apply display_tiles_total|].
  intros sel sel'. rewrite vdus_display_events, plots_from_cells, grid_ids.
  rewrite vdus_loader_events, conversions_rows_events.
  by rewrite rows_read_length, Z2Nat.id, tiles_ids by lia.
Qed.

Lemma display_follows_load_witness :
  ∃ w1 l1 l2,
    load_tiles_from_file 9 fname 0 16 16 5 8 demo_world = Done () w1 ∧
    out w1 = out demo_world ++ l1 ∧
    display_tiles 9 5 8 0 w1 = Done () (grow w1 l2) ∧
    ∀ sel sel',
      (λ p : Z * Z * Z, p.1.1) <$> plots_from sel' (vdus l2)
      = (λ t : Z * Z * Z * Z, t.1.1.1) <$> conversions_from sel (vdus l1).
Proof.
  apply (display_follows_load 9 fname 0 16 16 5 8 demo_world);
    [reflexivity | unfold is_uint16; lia | lia..].
Defined.

(** X8. Whatever its arguments, the file and however far it gets, the
    loader touches one coprocessor buffer only: every clear, block write and
    split names [chunkStoreID]; every block write carries [chunkSize] bytes;
    every conversion uses the cell dimensions and format 1; it plots
    nothing, polls no key, and opens the file it was given with mode "r". *)
Theorem load_tiles_only_loader_events {E} `{Platform E} (fuel : nat)
    (fileName : string)
    (startBitmapID cellWidth cellHeight rowCount blockCount : Z) (w : world E) :
  world_ok w →
  ∃ l,
    out (final (load_tiles_from_file fuel fileName startBitmapID cellWidth
                  cellHeight rowCount blockCount w)) = out w ++ l ∧
    Forall (loader_event fileName cellWidth cellHeight blockCount) l.
Proof.
  intros Hw.
  pose proof (load_tiles_safe (out w) fuel fileName startBitmapID cellWidth cellHeight
                rowCount blockCount w (logged_start _ w Hw)) as Hsafe.
  destruct (load_tiles_from_file _ _ _ _ _ _ _ w) as [[] w'|w'|]; [| |done];
    by destruct Hsafe as [_ Hl].
Qed.

Lemma load_tiles_only_loader_events_witness :
  world_ok bare_world ∧
  ∃ l,
    out (final (load_tiles_from_file 5 fname 7 3 9 300 300 bare_world))
    = out bare_world ++ l ∧
    Forall (loader_event fname 3 9 300) l.
Proof.
  split; [reflexivity|].
  apply (load_tiles_only_loader_events 5 fname 7 3 9 300 300 bare_world).
  reflexivity.
Defined.

(** ** What is left in [readChunk] *)

Section Stale.
Context {E : Type} `{Platform E}.
Implicit Types (w : world E).

Lemma rows_read_lookup r k stream start cw ch n w :
  (k < r)%nat →
  rows_read r stream start cw ch n w !! k
  = Some (row_data stream (after_rows k stream start cw ch n w),
          row_buf stream (after_rows k stream start cw ch n w)).
Proof.
  intros Hk. unfold rows_read. rewrite list_lookup_fmap, lookup_seq_lt by done. done.
Qed.

Lemma rows_read_lookup_inv r k stream start cw ch n w data buf :
  rows_read r stream start cw ch n w !! k = Some (data, buf) →
  data = row_data stream (after_rows k stream start cw ch n w) ∧
  buf = row_buf stream (after_rows k stream start cw ch n w).
Proof.
  intros Hrow. assert (k < r)%nat as Hk.
  { apply lookup_lt_Some in Hrow. by rewrite rows_read_length in Hrow. }
  rewrite rows_read_lookup in Hrow by done. by injection Hrow as <- <-.
Qed.

Lemma readChunk_after_rows_S k stream start cw ch n w :
  readChunk (after_rows (S k) stream start cw ch n w)
  = row_buf stream (after_rows k stream start cw ch n w).
Proof. done. Qed.

End Stale.

(** X9. [readChunk] is never cleared between reads. In every row the block
    sent to the coprocessor is what [fread] stored followed by what was in
    [readChunk] beyond it: after a short read, the tail of the previous
    row's block (for the first row, of [readChunk] as the loader found it)
    is sent again. *)
Theorem load_tiles_sends_stale_tail {E} `{Platform E} (fuel : nat) (fileName : string)
    (startBitmapID cellWidth cellHeight rowCount blockCount : Z) (w : world E) :
  world_ok w → is_uint16 startBitmapID →
  0 ≤ rowCount ≤ 255 → 0 ≤ blockCount ≤ 255 →
  (Z.to_nat rowCount < fuel)%nat → (Z.to_nat blockCount < fuel)%nat →
  ∃ stream rows w',
    load_tiles_from_file fuel fileName startBitmapID cellWidth cellHeight
      rowCount blockCount w = Done () w' ∧
    out w' = out w ++ loader_events fileName stream startBitmapID cellWidth
                        cellHeight blockCount rows ∧
    length rows = Z.to_nat rowCount ∧
    (∀ data buf, rows !! 0%nat = Some (data, buf) →
       buf = data ++ drop (length data) (readChunk w)) ∧
    (∀ r data0 buf0 data buf,
       rows !! r = Some (data0, buf0) → rows !! S r = Some (data, buf) →
       buf = data ++ drop (length data) buf0).
Proof.
  intros Hw Hs Hr Hc Hfr Hfc.
  exists (fopen fileName "r" (env w)).1.
  eexists _, _. split; [by apply load_tiles_total|].
  split; [apply after_load_log|]. split; [apply rows_read_length|]. split.
  - intros data buf [-> ->]%rows_read_lookup_inv. done.
  - intros r data0 buf0 data buf [_ ->]%rows_read_lookup_inv
      [-> ->]%rows_read_lookup_inv.
    unfold row_buf at 1. by rewrite readChunk_after_rows_S.
Qed.

Lemma load_tiles_sends_stale_tail_witness :
  ∃ stream rows w',
    load_tiles_from_file 9 fname 0 16 16 5 8 short_world = Done () w' ∧
    out w' = out short_world ++ loader_events fname stream 0 16 16 8 rows ∧
    length rows = Z.to_nat 5 ∧
    (∀ data buf, rows !! 0%nat = Some (data, buf) →
       buf = data ++ drop (length data) (readChunk short_world)) ∧
    (∀ r data0 buf0 data buf,
       rows !! r = Some (data0, buf0) → rows !! S r = Some (data, buf) →
       buf = data ++ drop (length data) buf0).
Proof.
  apply (load_tiles_sends_stale_tail 9 fname 0 16 16 5 8 short_world);
    [reflexivity | unfold is_uint16; lia | lia..].
Defined.

(** ** Reading the file front to back *)

Lemma concat_chunks image (r : nat) :
  concat (chunk image <$> seq 0 r) = take (r * Z.to_nat chunkSize) image.
Proof.
  induction r as [|r IH]; [done|].
  rewrite seq_S, fmap_app, concat_app, IH.
  change (concat (chunk image <$> [(0 + r)%nat])) with (chunk image r ++ []).
  rewrite app_nil_r. unfold chunk. rewrite take_take_drop. f_equal. lia.
Qed.

Lemma mos_rows_data image r stream start cw ch n (w : world Mos.state) :
  Mos.streams (env w) !! stream = Some image →
  (rows_read r stream start cw ch n w).*1 = chunk image <$> seq 0 r.
Proof.
  intros Hs. unfold rows_read. rewrite <- list_fmap_compose.
  apply list_fmap_ext. intros i k _. simpl.
  erewrite mos_row_data; [done|]. by apply mos_after_rows_stream.
Qed.

(** X10. On a file system where [fread] delivers the next bytes of the
    file, the loader reads the file front to back without gaps: what its
    reads stored, one after the other, is the first
    [rowCount * chunkSize] bytes of the file, or the whole file if it is
    shorter. *)
Theorem load_tiles_reads_front_to_back (fuel : nat) (fileName : string)
    (startBitmapID cellWidth cellHeight rowCount blockCount : Z)
    (image : list byte) (w : world Mos.state) :
  world_ok w →
  Mos.disk (env w) !! fileName = Some image →
  is_uint16 startBitmapID → 0 ≤ rowCount ≤ 255 → 0 ≤ blockCount ≤ 255 →
  (Z.to_nat rowCount < fuel)%nat → (Z.to_nat blockCount < fuel)%nat →
  ∃ stream rows w',
    load_tiles_from_file fuel fileName startBitmapID cellWidth cellHeight
      rowCount blockCount w = Done () w' ∧
    out w' = out w ++ loader_events fileName stream startBitmapID cellWidth
                        cellHeight blockCount rows ∧
    concat rows.*1 = take (Z.to_nat (rowCount * chunkSize)) image.
Proof.
  intros Hw Hfile Hs Hr Hc Hfr Hfc.
  exists (fopen fileName "r" (env w)).1.
  eexists _, _. split; [by apply load_tiles_total|].
  split; [apply after_load_log|].
  rewrite (mos_rows_data image) by (by apply mos_after_open).
  rewrite concat_chunks. f_equal. unfold chunkSize. lia.
Qed.

Lemma load_tiles_reads_front_to_back_witness :
  ∃ stream rows w',
    load_tiles_from_file 9 fname 0 16 16 5 8 short_world = Done () w' ∧
    out w' = out short_world ++ loader_events fname stream 0 16 16 8 rows ∧
    concat rows.*1 = take (Z.to_nat (5 * chunkSize)) (demo_image 3000).
Proof.
  apply (load_tiles_reads_front_to_back 9 fname 0 16 16 5 8 (demo_image 3000)
           short_world);
    [reflexivity | vm_compute; reflexivity | unfold is_uint16; lia | lia..].
Defined.

(** ** Logs only grow *)

Section Grows.
Context {E : Type} `{Platform E}.
Implicit Types (w : world E).

Lemma grows_ret {A} (a : A) : grows (E:=E) (ret a).
Proof. intros w. exists []. simpl. by rewrite app_nil_r. Qed.

Lemma grows_bind {A B} (m : M E A) (k : A → M E B) :
  grows (E:=E) m → (∀ a, grows (E:=E) (k a)) → grows (E:=E) (bind m k).
Proof.
  intros Hm Hk w. unfold bind. destruct (Hm w) as [l Hl].
  destruct (m w) as [a w'|w'|w']; simpl in Hl; [|by exists l..].
  destruct (Hk a w') as [l' Hl']. exists (l ++ l').
  by rewrite Hl', Hl, app_assoc.
Qed.

Lemma grows_for {A} fuel (body : Z → A → M E A) :
  (∀ i a, grows (E:=E) (body i a)) →
  ∀ i bound a, grows (E:=E) (for_uint8 fuel i bound body a).
Proof.
  intros Hbody. induction fuel as [|fuel IH]; intros i bound a w; simpl.
  - exists []. simpl. by rewrite app_nil_r.
  - destruct (i <? bound); [|exists []; simpl; by rewrite app_nil_r].
    destruct (Hbody i a w) as [l Hl].
    destruct (body i a w) as [a' w'|w'|w']; simpl in Hl; [|by exists l..].
    destruct (IH (uint8_wrap (i + 1)) bound a' w') as [l' Hl']. exists (l ++ l').
    by rewrite Hl', Hl, app_assoc.
Qed.

Lemma grows_while fuel (body : M E bool) :
  grows (E:=E) body → grows (E:=E) (while_true fuel body).
Proof.
  intros Hbody. induction fuel as [|fuel IH]; intros w; simpl.
  - exists []. simpl. by rewrite app_nil_r.
  - destruct (Hbody w) as [l Hl].
    destruct (body w) as [[] w'|w'|w']; simpl in Hl; [by exists l| |by exists l..].
    destruct (IH w') as [l' Hl']. exists (l ++ l'). by rewrite Hl', Hl, app_assoc.
Qed.

Lemma grows_emit c : grows (E:=E) (emit c).
Proof. intros w. by exists [Vdu c]. Qed.

Lemma grows_write_block id len : grows (E:=E) (vdp_adv_write_block_data id len).
Proof.
  intros w. unfold vdp_adv_write_block_data.
  destruct (load_bytes len (readChunk w)); [by eexists [_]|].
  exists []. simpl. by rewrite app_nil_r.
Qed.

Lemma grows_fread size count stream : grows (E:=E) (call_fread size count stream).
Proof.
  intros w. unfold call_fread. destruct (fread size count stream (env w)) as [data e].
  destruct (store_bytes data (readChunk w)); [by eexists [_]|].
  exists []. simpl. by rewrite app_nil_r.
Qed.

Lemma grows_fclose stream : grows (E:=E) (call_fclose stream).
Proof. intros w. by eexists [_]. Qed.

Lemma grows_getKeyCode : grows (E:=E) call_getKeyCode.
Proof.
  intros w. unfold call_getKeyCode. destruct (vdp_getKeyCode (env w)) as [key e].
  by eexists [_].
Qed.

Lemma grows_load_row fuel stream cw ch n id : grows (E:=E) (load_row fuel stream cw ch n id).
Proof.
  unfold load_row.
  apply grows_bind; [apply grows_emit|]. intros _.
  apply grows_bind; [apply grows_fread|]. intros _.
  apply grows_bind; [apply grows_write_block|]. intros _.
  apply grows_bind; [apply grows_emit|]. intros _.
  apply grows_for. intros _ id'.
  apply grows_bind; [apply grows_emit|]. intros _.
  apply grows_bind; [apply grows_emit|]. intros _. apply grows_ret.
Qed.

Lemma grows_display_tiles fuel rows columns start :
  grows (E:=E) (display_tiles fuel rows columns start).
Proof.
  unfold display_tiles. apply grows_bind; [|intros _; apply grows_ret].
  apply grows_for. intros r id. apply grows_for. intros c id'.
  apply grows_bind; [apply grows_emit|]. intros _.
  apply grows_bind; [apply grows_emit|]. intros _. apply grows_ret.
Qed.

Lemma grows_main_rest fuel : grows (E:=E) (main_rest fuel).
Proof.
  unfold main_rest. apply grows_bind.
  - apply grows_while. apply grows_bind; [apply grows_getKeyCode|].
    intros key. apply grows_ret.
  - intros _. apply grows_bind; [apply grows_emit|]. intros _.
    apply grows_bind; [apply grows_emit|]. intros _.
    apply grows_bind; [apply grows_emit|]. intros _. apply grows_ret.
Qed.

End Grows.

(** ** How [main] begins *)

(** X11. Every run of [main], on every platform, from every state and
    however far it gets, begins in the same way: screen mode 8, cursor off,
    text background [BLUE], clear screen, pixel coordinates, tab to (0, 27),
    the title, tab to (0, 29), the prompt; and the next thing it does is
    open "basictiles_merged.RGB2" with mode "r". *)
Theorem main_begins_with_setup {E} `{Platform E} (BLUE : Z) (fuel : nat) (w : world E) :
  ∃ stream l,
    out (final (main BLUE fuel w))
    = out w
      ++ [Vdu (VdpMode 8);
          Vdu (VdpCursorEnable false);
          Vdu (VdpSetTextBgColour BLUE);
          Vdu VdpClearScreen;
          Vdu VdpSetPixelCoordinates;
          Vdu (VdpCursorTab 0 27);
          Vdu (Printf "AgonDev Tile Map example");
          Vdu (VdpCursorTab 0 29);
          Vdu (Printf "Press ESC to exit");
          Fopen "basictiles_merged.RGB2" "r" stream]
      ++ l.
Proof.
  rewrite main_start. unfold bind at 1, load_tiles_from_file at 1.
  unfold bind at 1, call_fopen at 1.
  set (w1 := grow w (setup_events BLUE)).
  destruct (fopen fname "r" (env w1)) as [stream e] eqn:Hopen.
  exists stream.
  set (w2 := push _ _).
  assert (Hw2 : out w2 = out w ++ setup_events BLUE ++ [Fopen fname "r" stream]).
  { unfold w2, w1. cbn [out push grow]. by rewrite <- app_assoc. }
  assert (Hrest : grows (E:=E)
            (bind (bind (for_uint8 fuel 0 cellRows
                           (λ _ id, load_row fuel stream cellWidth cellHeight
                                      cellColumns id) tileStartID)
                        (λ _, call_fclose stream))
                  (λ _, bind (display_tiles fuel 5 8 tileStartID)
                          (λ _, main_rest fuel)))).
  { apply grows_bind.
    - apply grows_bind; [|intros _; apply grows_fclose].
      apply grows_for. intros _ id. apply grows_load_row.
    - intros _. apply grows_bind; [apply grows_display_tiles|].
      intros _. apply grows_main_rest. }
  destruct (Hrest w2) as [l Hl]. exists l.
  unfold bind in Hl at 1 2. unfold bind at 1.
  destruct (for_uint8 _ _ _ _ _ w2) as [a w3|w3|w3]; cbn [final] in *;
    rewrite Hl, Hw2; unfold setup_events, screen_mode, fname;
    by rewrite <- !app_assoc.
Qed.

(** ** The keyboard decides when [main] returns *)

(** A loop that has returned used up one unit of fuel per iteration and one
    for the last test. *)
Lemma for_uint8_done_fuel {E A} fuel i bound (body : Z → A → M E A) a (w : world E) :
  0 ≤ i ≤ bound → bound ≤ 255 →
  is_done (for_uint8 fuel i bound body a w) →
  (Z.to_nat (bound - i) < fuel)%nat.
Proof.
  intros Hi Hb. revert i a w Hi. induction fuel as [|fuel IH]; intros i a w Hi; simpl.
  - tauto.
  - destruct (Z.ltb_spec i bound) as [Hlt|Hge]; [|lia].
    destruct (body i a w) as [a' w'| |]; simpl; try tauto.
    replace (uint8_wrap (i + 1)) with (i + 1)
      by (unfold uint8_wrap; rewrite Z.mod_small; lia).
    intros Hdone%IH; lia.
Qed.

Section MainFuel.
Context {E : Type} `{Platform E}.
Variable BLUE : Z.
Implicit Types (w : world E).

(** With fuel for its two bounded loops, [main] is in its wait loop after
    the loader and the renderer. *)
Lemma main_reaches_wait fuel w :
  world_ok w → (9 ≤ fuel)%nat →
  main BLUE fuel w
  = main_rest fuel
      (grow (after_load fname tileStartID cellWidth cellHeight cellRows cellColumns
               (grow w (setup_events BLUE)))
            (display_events 5 8 tileStartID)).
Proof.
  intros Hw Hfuel. rewrite main_start. unfold bind at 1.
  rewrite load_tiles_total;
    [|done|done|done|done|unfold cellRows; lia|unfold cellColumns; lia].
  unfold bind at 1. rewrite display_tiles_total; [done|done|done|done|lia|lia].
Qed.

(** Without that fuel it has not returned. *)
Lemma main_done_fuel fuel w :
  is_done (main BLUE fuel w) → (9 ≤ fuel)%nat.
Proof.
  rewrite main_start. unfold bind at 1.
  destruct (load_tiles_from_file _ _ _ _ _ _ _ _) as [[] w2| |]; simpl; try tauto.
  unfold bind at 1, display_tiles at 1, bind at 1.
  destruct fuel as [|fuel]; simpl; [tauto|].
  unfold display_row at 1.
  destruct (for_uint8 (S fuel) 0 8 _ _ w2) as [a3 w3| |] eqn:Hrow; simpl; try tauto.
  intros _.
  assert (Hdone : is_done (for_uint8 (S fuel) 0 8
            (λ cLoop startBufferID,
               bind (vdp_adv_select_bitmap startBufferID)
                 (λ _, bind (vdp_plot_bitmap (10 + cLoop * 20) (10 + 0 * 20))
                         (λ _, ret (uint16_wrap (startBufferID + 1)))))
            tileStartID w2)) by (by rewrite Hrow).
  apply for_uint8_done_fuel in Hdone; lia.
Qed.

End MainFuel.

Section MosKeys.
Variable BLUE : Z.
Implicit Types (w : world Mos.state).

Lemma mos_after_rows_keys k stream start cw ch n w :
  Mos.keys (env (after_rows k stream start cw ch n w)) = Mos.keys (env w) ∧
  Mos.polls (env (after_rows k stream start cw ch n w)) = Mos.polls (env w).
Proof.
  induction k as [|k IH]; [done|]. cbn [after_rows]. unfold after_row.
  cbn. unfold Mos.fread. by destruct (Mos.streams _ !! stream).
Qed.

Lemma mos_after_load_keys fileName start cw ch rows cols w :
  Mos.keys (env (after_load fileName start cw ch rows cols w)) = Mos.keys (env w) ∧
  Mos.polls (env (after_load fileName start cw ch rows cols w)) = Mos.polls (env w).
Proof.
  unfold after_load, after_close. cbn [env push grow].
  change (fclose ?s ?e) with (Mos.fclose s e). cbn [Mos.fclose Mos.keys Mos.polls].
  destruct (mos_after_rows_keys (Z.to_nat rows) (fopen fileName "r" (env w)).1
              start cw ch cols (after_open fileName w)) as [-> ->].
  unfold after_open. cbn. unfold Mos.fopen. by destruct (Mos.disk _ !! fileName).
Qed.

(** The wait loop against the sequence of key codes. *)
Lemma mos_wait_run fuel w :
  match wait_for_esc fuel w with
  | Done _ w' =>
      ∃ n, (n < fuel)%nat ∧
           Mos.keys (env w) (Mos.polls (env w) + n)%nat = 27 ∧
           (∀ m, (m < n)%nat → Mos.keys (env w) (Mos.polls (env w) + m)%nat ≠ 27) ∧
           Mos.polls (env w') = (Mos.polls (env w) + S n)%nat
  | Timeout _ =>
      ∀ m, (m < fuel)%nat → Mos.keys (env w) (Mos.polls (env w) + m)%nat ≠ 27
  | Fault _ => False
  end.
Proof.
  unfold wait_for_esc. revert w. induction fuel as [|fuel IH]; intros w; simpl.
  - intros m Hm. lia.
  - unfold bind at 1, call_getKeyCode at 1. cbn.
    case_bool_decide as Hkey.
    + exists 0%nat. rewrite Nat.add_0_r. split_and!; [lia|done| |cbn; lia].
      intros m Hm. lia.
    + set (w1 := push _ _). specialize (IH w1).
      assert (Hk : Mos.keys (env w1) = Mos.keys (env w)) by done.
      assert (Hp : Mos.polls (env w1) = S (Mos.polls (env w))) by done.
      rewrite Hk, Hp in IH.
      destruct (while_true _ _ w1) as [[] w'|w'|]; [| |done].
      * destruct IH as (n & Hn & H27 & Hnot & Hpolls).
        exists (S n). split_and!.
        -- lia.
        -- by rewrite <- Nat.add_succ_comm.
        -- intros [|m] Hm; [by rewrite Nat.add_0_r|].
           rewrite <- Nat.add_succ_comm. apply Hnot. lia.
        -- rewrite Hpolls. lia.
      * intros [|m] Hm; [by rewrite Nat.add_0_r|].
        rewrite <- Nat.add_succ_comm. apply IH. lia.
Qed.

Lemma mos_main_rest_run fuel w :
  match main_rest fuel w with
  | Done status w' =>
      status = 0 ∧
      ∃ n, (n < fuel)%nat ∧
           Mos.keys (env w) (Mos.polls (env w) + n)%nat = 27 ∧
           (∀ m, (m < n)%nat → Mos.keys (env w) (Mos.polls (env w) + m)%nat ≠ 27) ∧
           Mos.polls (env w') = (Mos.polls (env w) + S n)%nat
  | Timeout _ =>
      ∀ m, (m < fuel)%nat → Mos.keys (env w) (Mos.polls (env w) + m)%nat ≠ 27
  | Fault _ => False
  end.
Proof.
  unfold main_rest, bind at 1. pose proof (mos_wait_run fuel w) as Hwait.
  by destruct (wait_for_esc fuel w) as [[] w'|w'|].
Qed.

End MosKeys.

(** With fuel for its loops and for the polls up to the first 27, [main]
    returns. *)
(** A whole run of [main] against the sequence of key codes. *)
Lemma mos_main_run (BLUE : Z) (fuel : nat) (w : world Mos.state) :
  world_ok w → (9 ≤ fuel)%nat →
  match main BLUE fuel w with
  | Done status w' =>
      status = 0 ∧
      ∃ n, (n < fuel)%nat ∧
           Mos.keys (env w) (Mos.polls (env w) + n)%nat = 27 ∧
           (∀ m, (m < n)%nat → Mos.keys (env w) (Mos.polls (env w) + m)%nat ≠ 27) ∧
           Mos.polls (env w') = (Mos.polls (env w) + S n)%nat
  | Timeout _ =>
      ∀ m, (m < fuel)%nat → Mos.keys (env w) (Mos.polls (env w) + m)%nat ≠ 27
  | Fault _ => False
  end.
Proof.
  intros Hw Hfuel. rewrite main_reaches_wait by done.
  set (w3 := grow _ _).
  assert (Hkeys : Mos.keys (env w3) = Mos.keys (env w) ∧
                  Mos.polls (env w3) = Mos.polls (env w)).
  { unfold w3. cbn [env grow].
    by destruct (mos_after_load_keys fname tileStartID cellWidth cellHeight cellRows
                   cellColumns (grow w (setup_events BLUE))) as [-> ->]. }
  destruct Hkeys as [Hk Hp].
  pose proof (mos_main_rest_run fuel w3) as Hrun. by rewrite Hk, Hp in Hrun.
Qed.

(** X12. Pressing ESC does end the program. If the [n]-th key code from
    now is the first 27, then [main], given fuel for its loops and for
    [n + 1] polls, returns 0 after exactly [n + 1] polls. *)
Theorem main_returns_on_first_esc (BLUE : Z) (fuel n : nat) (w : world Mos.state) :
  world_ok w → (9 ≤ fuel)%nat → (n < fuel)%nat →
  Mos.keys (env w) (Mos.polls (env w) + n)%nat = 27 →
  (∀ m, (m < n)%nat → Mos.keys (env w) (Mos.polls (env w) + m)%nat ≠ 27) →
  ∃ w', main BLUE fuel w = Done 0 w' ∧
        Mos.polls (env w') = (Mos.polls (env w) + S n)%nat.
Proof.
  intros Hw Hfuel Hn H27 Hnot.
  pose proof (mos_main_run BLUE fuel w Hw Hfuel) as Hrun.
  destruct (main BLUE fuel w) as [status w'|w'|]; [| |done].
  - destruct Hrun as [-> (n' & Hn' & H27' & Hnot' & Hpolls)].
    exists w'. split; [done|].
    assert (n' = n) as ->; [|done].
    destruct (Nat.lt_trichotomy n' n) as [Hlt|[->|Hgt]]; [|done|].
    + by apply Hnot in Hlt.
    + by apply Hnot' in Hgt.
  - by apply Hrun in Hn.
Qed.

Lemma main_returns_on_first_esc_witness :
  ∃ w', main 4 20 demo_world = Done 0 w' ∧
        Mos.polls (env w') = (Mos.polls (env demo_world) + 4)%nat.
Proof.
  apply (main_returns_on_first_esc 4 20 3 demo_world); [reflexivity|lia|lia|reflexivity|].
  intros m Hm. destruct m as [|[|[|m]]]; [discriminate..|lia].
Defined.

(** X13. Nothing but ESC ends the program: [main] returns, for some amount
    of fuel, exactly when a 27 is among the key codes to come. *)
Theorem main_returns_iff_esc (BLUE : Z) (w : world Mos.state) :
  world_ok w →
  (∃ fuel, is_done (main BLUE fuel w))
  ↔ ∃ n, Mos.keys (env w) (Mos.polls (env w) + n)%nat = 27.
Proof.
  intros Hw. split.
  - intros [fuel Hdone]. pose proof (main_done_fuel BLUE fuel w Hdone) as Hfuel.
    pose proof (mos_main_run BLUE fuel w Hw Hfuel) as Hrun.
    destruct (main BLUE fuel w) as [status w'|w'|]; [|done..].
    destruct Hrun as [_ (n & _ & H27 & _)]. by exists n.
  - intros [n H27]. exists (9 + S n)%nat.
    pose proof (mos_main_run BLUE (9 + S n) w Hw ltac:(lia)) as Hrun.
    destruct (main BLUE (9 + S n) w) as [status w'|w'|]; [done| |done].
    destruct (Hrun n ltac:(lia) H27).
Qed.

Lemma main_returns_iff_esc_witness :
  world_ok demo_world ∧
  ((∃ fuel, is_done (main 4 fuel demo_world))
   ↔ ∃ n, Mos.keys (env demo_world) (Mos.polls (env demo_world) + n)%nat = 27).
Proof.
  split; [reflexivity|]. apply (main_returns_iff_esc 4 demo_world). reflexivity.
Defined.

(** ** From the file to the screen *)

Lemma vdp_run_passive v cs :
  forallb is_passive cs = true →
  Vdp.buffers (Vdp.run v cs) = Vdp.buffers v ∧
  Vdp.bitmaps (Vdp.run v cs) = Vdp.bitmaps v.
Proof.
  revert v. induction cs as [|c cs IH]; intros v; [done|].
  intros [Hc Hcs]%andb_prop. rewrite vdp_run_cons.
  destruct (IH (Vdp.step v c) Hcs) as [-> ->]. by destruct c.
Qed.

Lemma vdp_pixels_same v v' id :
  Vdp.buffers v' = Vdp.buffers v → Vdp.bitmaps v' = Vdp.bitmaps v →
  Vdp.pixels v' id = Vdp.pixels v id.
Proof. intros Hbuf Hmap. unfold Vdp.pixels. by rewrite Hbuf, Hmap. Qed.

(** After the rows of a file that is long enough, every tile holds its
    cell. *)
Lemma vdp_run_rows_pixels stream start cw ch cols image v (r : nat) :
  0 < cw → 0 < ch → 0 < cols → 0 ≤ start →
  cw * ch * cols = chunkSize →
  start + Z.of_nat r * cols ≤ 65536 →
  ¬ (start ≤ chunkStoreID < start + Z.of_nat r * cols) →
  (r * Z.to_nat chunkSize ≤ length image)%nat →
  let v' := Vdp.run v (vdus (rows_events stream start cw ch cols
                               ((λ k, (chunk image k, chunk image k)) <$> seq 0 r))) in
  ∀ (r' : nat) c, (r' < r)%nat → 0 ≤ c < cols →
    Vdp.pixels v' (start + Z.of_nat r' * cols + c)
    = Some (source_cell image (Z.to_nat cw) (Z.to_nat ch) (Z.to_nat cols)
              r' (Z.to_nat c)).
Proof.
  intros Hcw Hch Hcols Hstart Hsize Hmax Hfree Hlen v' r' c Hr' Hc.
  destruct (vdp_run_rows stream start cw ch cols image v r) as [Htiles _]; [done..|].
  destruct (Htiles r' c Hr' Hc) as [Hbuf Hmap]. fold v' in Hbuf, Hmap.
  unfold Vdp.pixels. rewrite Hmap, Hbuf. cbn [Vdp.bm_width Vdp.bm_height]. f_equal.
  assert (Hnat : Z.to_nat chunkSize
                 = (Z.to_nat cw * Z.to_nat ch * Z.to_nat cols)%nat)
    by (rewrite <- Hsize; rewrite !Z2Nat.inj_mul; lia).
  rewrite take_ge.
  - apply group_chunk_cell; [done|nia|lia|lia].
  - rewrite (group_length _ (Z.to_nat ch)); [nia| |lia|lia].
    rewrite chunk_length by nia. by rewrite <- Hnat.
Qed.

(** X14. From the file to the screen. Let the tile map on disk hold at least
    5 * 2048 bytes. In a run of [main] that has reached its wait loop, the
    plot number [8 r + c] is of bitmap [8 r + c] at
    ([10 + 20 c], [10 + 20 r]), and in the coprocessor that bitmap holds the
    cell ([r], [c]) of the 128-pixel-wide image: every cell of the tile map
    is drawn at its place in the grid. *)
Theorem main_draws_every_cell (BLUE : Z) (fuel : nat) (image : list byte)
    (w : world Mos.state) (v : Vdp.state) :
  world_ok w →
  Mos.disk (env w) !! fname = Some image →
  cellRows * chunkSize ≤ Z.of_nat (length image) →
  (9 ≤ fuel)%nat →
  ∃ l,
    out (final (main BLUE fuel w)) = out w ++ l ∧
    ∀ r c, 0 ≤ r < 5 → 0 ≤ c < 8 →
      (∀ sel, plots_from sel (vdus l) !! Z.to_nat (r * 8 + c)
              = Some (r * 8 + c, 10 + 20 * c, 10 + 20 * r)) ∧
      Vdp.pixels (Vdp.run v (vdus l)) (r * 8 + c)
      = Some (source_cell image 16 16 8 (Z.to_nat r) (Z.to_nat c)).
Proof.
  intros Hw Hfile Hlen Hfuel. rewrite main_reaches_wait by done.
  set (w1 := grow w (setup_events BLUE)).
  set (w3 := grow (after_load fname tileStartID cellWidth cellHeight cellRows
                     cellColumns w1) (display_events 5 8 tileStartID)).
  set (stream := (fopen fname "r" (env w1)).1).
  pose (rows := (λ k, (chunk image k, chunk image k)) <$> seq 0 5).
  assert (Hrows : rows_read (Z.to_nat cellRows) stream tileStartID cellWidth
                    cellHeight cellColumns (after_open fname w1) = rows).
  { apply mos_rows_read; [done|by apply mos_after_open|].
    unfold cellRows, chunkSize in *. lia. }
  assert (Hlog : ∀ tail, out w ++ setup_events BLUE ++ main_loader_events stream rows
                   ++ display_events 5 8 tileStartID ++ tail
                 = out w3 ++ tail).
  { intros tail. unfold w3. cbn [out grow]. rewrite after_load_log.
    fold stream. rewrite Hrows.
    unfold w1, main_loader_events. cbn [out grow]. by rewrite <- !app_assoc. }
  assert (Hgoal : ∀ tail,
            forallb (λ c, negb (is_plot c)) (vdus tail) = true →
            forallb is_passive (vdus tail) = true →
            ∀ r c, 0 ≤ r < 5 → 0 ≤ c < 8 →
              (∀ sel, plots_from sel
                        (vdus (setup_events BLUE ++ main_loader_events stream rows
                               ++ display_events 5 8 tileStartID ++ tail))
                      !! Z.to_nat (r * 8 + c)
                      = Some (r * 8 + c, 10 + 20 * c, 10 + 20 * r)) ∧
              Vdp.pixels
                (Vdp.run v (vdus (setup_events BLUE ++ main_loader_events stream rows
                                  ++ display_events 5 8 tileStartID ++ tail)))
                (r * 8 + c)
              = Some (source_cell image 16 16 8 (Z.to_nat r) (Z.to_nat c))).
  { intros tail Hplot Hpassive r c Hr Hc. split.
    - intros sel. rewrite main_log_plots by done.
      rewrite (grid_lookup 5 8 tileStartID r c) by done.
      unfold tileStartID. rewrite uint16_wrap_small by (unfold is_uint16; lia).
      done.
    - rewrite !vdus_app, !vdp_run_app.
      change (Vdp.run v (vdus (setup_events BLUE))) with v.
      set (v1 := Vdp.run v (vdus (main_loader_events stream rows))).
      assert (Hrest : forallb is_passive
                        (vdus (display_events 5 8 tileStartID)) = true)
        by (vm_compute; reflexivity).
      destruct (vdp_run_passive v1 _ Hrest) as [Hb2 Hm2].
      destruct (vdp_run_passive (Vdp.run v1 (vdus (display_events 5 8 tileStartID)))
                  _ Hpassive) as [Hb3 Hm3].
      rewrite (vdp_pixels_same v1) by congruence.
      unfold v1, main_loader_events. rewrite vdus_loader_events.
      pose proof (vdp_run_rows_pixels stream tileStartID cellWidth cellHeight
                    cellColumns image v 5) as Hpix.
      cbv zeta in Hpix. fold rows in Hpix.
      replace (r * 8 + c) with (tileStartID + Z.of_nat (Z.to_nat r) * cellColumns + c)
        by (unfold tileStartID, cellColumns; lia).
      apply Hpix; unfold cellWidth, cellHeight, cellColumns, tileStartID, chunkStoreID,
        cellRows, chunkSize in *; try lia. }
  pose proof (main_rest_run fuel w3) as Hrun.
  destruct (main_rest fuel w3) as [status w'|w'|]; [| |done]; unfold final.
  - destruct Hrun as [_ (keys & _ & Hout)].
    eexists. split; [rewrite Hout, <- Hlog; reflexivity|].
    apply Hgoal; by rewrite vdus_app, vdus_polls.
  - destruct Hrun as (keys & _ & _ & Hout).
    eexists. split; [rewrite Hout, <- Hlog; reflexivity|].
    apply Hgoal; by rewrite vdus_polls.
Qed.

Lemma main_draws_every_cell_witness :
  ∃ l,
    out (final (main 4 20 demo_world)) = out demo_world ++ l ∧
    ∀ r c, 0 ≤ r < 5 → 0 ≤ c < 8 →
      (∀ sel, plots_from sel (vdus l) !! Z.to_nat (r * 8 + c)
              = Some (r * 8 + c, 10 + 20 * c, 10 + 20 * r)) ∧
      Vdp.pixels (Vdp.run Vdp.empty (vdus l)) (r * 8 + c)
      = Some (source_cell (demo_image 10240) 16 16 8 (Z.to_nat r) (Z.to_nat c)).
Proof.
  apply (main_draws_every_cell 4 20 (demo_image 10240) demo_world Vdp.empty).
  - reflexivity.
  - vm_compute. reflexivity.
  - vm_compute. discriminate.
  - lia.
Defined.

(** ** Loops that do not end *)

(** A [uint8_t] loop with a bound of 256 or more, whose body always
    returns, has done as many iterations as it was given fuel for. *)
Lemma for_uint8_spins {E A} (fa : nat → A) (fw : nat → world E) bound
    (body : Z → A → M E A) :
  256 ≤ bound →
  (∀ k i, body i (fa k) (fw k) = Done (fa (S k)) (fw (S k))) →
  ∀ fuel k i, 0 ≤ i < 256 →
    for_uint8 fuel i bound body (fa k) (fw k) = Timeout (fw (k + fuel)%nat).
Proof.
  intros Hb Hbody. induction fuel as [|fuel IH]; intros k i Hi; simpl.
  - by rewrite Nat.add_0_r.
  - replace (i <? bound) with true by lia. rewrite Hbody.
    rewrite IH by (unfold uint8_wrap; apply Z.mod_pos_bound; lia).
    by rewrite Nat.add_succ_comm.
Qed.

(** X15. With [rowCount] of 256 or more (it is a [uint16_t]) and at most
    255 blocks, the loader goes on for ever, row after row: however long one
    waits it has not closed the file, and after [n] rows it has read [n]
    times and sent [n] chunks, the row [k] to the IDs from
    [startBitmapID + k * blockCount] modulo 65536 on. *)
Theorem load_tiles_spins_over_rows {E} `{Platform E} (fuel : nat) (fileName : string)
    (startBitmapID cellWidth cellHeight rowCount blockCount : Z) (w : world E) :
  world_ok w → is_uint16 startBitmapID →
  256 ≤ rowCount → 0 ≤ blockCount ≤ 255 →
  (Z.to_nat blockCount < fuel)%nat →
  ∃ stream rows w',
    load_tiles_from_file fuel fileName startBitmapID cellWidth cellHeight
      rowCount blockCount w = Timeout w' ∧
    out w' = out w ++ Fopen fileName "r" stream
                      :: rows_events stream startBitmapID cellWidth cellHeight
                           blockCount rows ∧
    length rows = fuel ∧
    (∀ stream', Fclose stream' ∉ rows_events stream startBitmapID cellWidth
                                   cellHeight blockCount rows).
Proof.
  intros Hw Hs Hr Hc Hfc.
  exists (fopen fileName "r" (env w)).1.
  exists (rows_read fuel (fopen fileName "r" (env w)).1 startBitmapID
            cellWidth cellHeight blockCount (after_open fileName w)).
  exists (after_rows fuel (fopen fileName "r" (env w)).1 startBitmapID
            cellWidth cellHeight blockCount (after_open fileName w)).
  split; [|split; [|split]].
  - unfold load_tiles_from_file, after_open, bind, call_fopen.
    destruct (fopen fileName "r" (env w)) as [stream e1] eqn:Hopen. simpl.
    set (w1 := push _ _). assert (Hw1 : world_ok w1) by done.
    pose (fa := λ k : nat, uint16_wrap (startBitmapID + Z.of_nat k * blockCount)).
    pose (fw := λ k : nat, after_rows k stream startBitmapID cellWidth cellHeight
                             blockCount w1).
    replace startBitmapID with (fa 0%nat) at 1
      by (unfold fa; rewrite Z.mul_0_l, Z.add_0_r; by apply uint16_wrap_small).
    change w1 with (fw 0%nat) at 1.
    rewrite (for_uint8_spins fa fw); [done|done| |lia].
    intros k i. unfold fa, fw.
    rewrite load_row_total; [|by apply after_rows_ok|done..|apply uint16_wrap_range].
    rewrite uint16_wrap_add_l. cbn [after_rows]. do 2 f_equal. lia.
  - rewrite after_rows_log. unfold after_open. cbn [out push grow].
    by rewrite <- app_assoc.
  - apply rows_read_length.
  - intros stream' Hin. unfold rows_events in Hin.
    apply list_elem_of_In, in_concat in Hin as (l & Hl & Hin).
    apply list_elem_of_In, elem_of_lookup_imap_1 in Hl as (k & row & -> & _).
    apply list_elem_of_In in Hin. unfold row_events, bitmap_events in Hin.
    apply elem_of_app in Hin as [Hin|Hin].
    + by repeat (apply elem_of_cons in Hin as [?|Hin]; [done|]); apply elem_of_nil in Hin.
    + apply list_elem_of_bind in Hin as (c & Hin & _).
      by repeat (apply elem_of_cons in Hin as [?|Hin]; [done|]); apply elem_of_nil in Hin.
Qed.

Lemma load_tiles_spins_over_rows_witness :
  ∃ stream rows w',
    load_tiles_from_file 3 fname 0 16 16 256 2 demo_world = Timeout w' ∧
    out w' = out demo_world ++ Fopen fname "r" stream
                               :: rows_events stream 0 16 16 2 rows ∧
    length rows = 3%nat ∧
    (∀ stream', Fclose stream' ∉ rows_events stream 0 16 16 2 rows).
Proof.
  apply (load_tiles_spins_over_rows 3 fname 0 16 16 256 2 demo_world);
    [reflexivity | unfold is_uint16; lia | lia..].
Defined.

Lemma make_bitmaps_spins {E} `{Platform E} fuel cw ch n id (w : world E) :
  256 ≤ n → is_uint16 id →
  make_bitmaps fuel cw ch n id w
  = Timeout (grow w (bitmap_events cw ch id (Z.of_nat fuel))).
Proof.
  intros Hn Hid. unfold make_bitmaps.
  pose (fa := λ k : nat, uint16_wrap (id + Z.of_nat k)).
  pose (fw := λ k : nat, grow w (bitmap_events cw ch id (Z.of_nat k))).
  replace id with (fa 0%nat) at 1
    by (unfold fa; simpl; rewrite Z.add_0_r; by apply uint16_wrap_small).
  rewrite <- (grow_nil w) at 1. change (grow w []) with (fw 0%nat).
  rewrite (for_uint8_spins fa fw); [done|done| |lia].
  intros k i. unfold fa, fw. rewrite Nat2Z.inj_succ. unfold Z.succ.
  apply bitmap_body_run. lia.
Qed.

(** X16. With [blockCount] of 256 or more (it is a [uint16_t]) and at
    least one row, the loader never gets past the first row: it reads one
    chunk, sends it and asks for the split once, and then goes on creating
    bitmaps, one after the other from [startBitmapID] on (modulo 65536),
    without reading again or closing the file. *)
Theorem load_tiles_spins_in_first_row {E} `{Platform E} (fuel : nat) (fileName : string)
    (startBitmapID cellWidth cellHeight rowCount blockCount : Z) (w : world E) :
  world_ok w → is_uint16 startBitmapID →
  1 ≤ rowCount → 256 ≤ blockCount → (0 < fuel)%nat →
  ∃ stream data buf w',
    load_tiles_from_file fuel fileName startBitmapID cellWidth cellHeight
      rowCount blockCount w = Timeout w' ∧
    out w' = out w ++
      [Fopen fileName "r" stream;
       Vdu (AdvClearBuffer chunkStoreID);
       Fread 1 chunkSize stream data;
       Vdu (AdvWriteBlockData chunkStoreID chunkSize buf);
       Vdu (AdvSplitByWidthMultipleFrom chunkStoreID cellWidth blockCount
              startBitmapID)]
      ++ bitmap_events cellWidth cellHeight startBitmapID (Z.of_nat fuel).
Proof.
  intros Hw Hs Hr Hc Hfuel. destruct fuel as [|fuel]; [lia|].
  set (stream := (fopen fileName "r" (env w)).1).
  set (w1 := after_open fileName w).
  exists stream, (row_data stream w1), (row_buf stream w1).
  exists (grow
            (grow (World (fread 1 chunkSize stream (env w1)).2
                     (row_buf stream w1) (out w1))
               [Vdu (AdvClearBuffer chunkStoreID);
                Fread 1 chunkSize stream (row_data stream w1);
                Vdu (AdvWriteBlockData chunkStoreID chunkSize (row_buf stream w1));
                Vdu (AdvSplitByWidthMultipleFrom chunkStoreID cellWidth
                       blockCount startBitmapID)])
            (bitmap_events cellWidth cellHeight startBitmapID (Z.of_nat (S fuel)))).
  assert (Hw1 : world_ok w1) by done.
  split.
  - unfold load_tiles_from_file, bind, call_fopen.
    subst w1 stream. unfold after_open in *.
    destruct (fopen fileName "r" (env w)) as [stream e1].
    cbn [fst snd for_uint8]. replace (0 <? rowCount) with true by lia.
    rewrite load_row_unfold by done.
    rewrite make_bitmaps_spins by done. reflexivity.
  - subst w1. unfold after_open. cbn [out push grow]. by rewrite <- !app_assoc.
Qed.

Lemma load_tiles_spins_in_first_row_witness :
  ∃ stream data buf w',
    load_tiles_from_file 3 fname 0 16 16 5 256 demo_world = Timeout w' ∧
    out w' = out demo_world ++
      [Fopen fname "r" stream;
       Vdu (AdvClearBuffer chunkStoreID);
       Fread 1 chunkSize stream data;
       Vdu (AdvWriteBlockData chunkStoreID chunkSize buf);
       Vdu (AdvSplitByWidthMultipleFrom chunkStoreID 16 256 0)]
      ++ bitmap_events 16 16 0 (Z.of_nat 3).
Proof.
  apply (load_tiles_spins_in_first_row 3 fname 0 16 16 5 256 demo_world);
    [reflexivity | unfold is_uint16; lia | lia..].
Defined.
